(** * QRIS EventHub: the QR payload codec, the unique-amount allocator and the
    payment matcher, embedded from the JavaScript sources.

    Sources embedded here:
    - [src/qris-converter.js] (Cloudflare build) and [qris-converter.js]
      (Node build): [calculateCRC16], [formatLength], [validateQRIS],
      [extractAmount], [convertStaticToDynamic]; from the Cloudflare build
      also [parseQRIS] and [generateSampleQRIS];
    - [src/worker.js]: [checkPaymentMatch], [generateUniqueAmount],
      [handleRequest], [handleWebhook], [handleQRISConvert],
      [handleQRISValidate], [handleQRISGenerateForOrder],
      [handleWooCommercePaymentWebhook], [handleQRISUniqueAmount];
    - [qris-integration.js]: [checkPaymentMatch], [markPaymentCompleted],
      [generateUniqueAmount] / [findAvailableAmount], and the routes
      [/woocommerce/payment-webhook] and [/qris/generate-for-order].

    Conventions.  A JavaScript string is a [string] of 8-bit characters: the
    model covers strings whose UTF-16 code units are all below 256, which is
    the range of QRIS payloads.  Lengths, counters and the 16-bit checksum
    are integers in [Z], with the 32-bit wrap-around of the bit operators
    written out; the numbers that [parseInt] makes of amounts are doubles,
    rounded and printed as JavaScript does ([JS.Number]).  A time stamp is
    an instant in seconds since the epoch; the store holds it as a text and
    compares texts, which [StoredTime] has. *)

From Stdlib Require Import ZArith List String Ascii Bool Lia.
From Stdlib Require Import DecimalString.
Import ListNotations.

Open Scope string_scope.
Open Scope Z_scope.

(** The outcome of a call: a returned string, or a thrown [Error] with its
    message. *)
Inductive Outcome : Type :=
| Returned (value : string)
| Thrown (message : string).

(* ================================================================== *)
(** ** JavaScript primitives used by the sources *)
(* ================================================================== *)

Module JS.

(** [ToInt32]: the operands and the result of [<<], [^] and [&] are signed
    32-bit integers. *)
Definition toInt32 (x : Z) : Z := (x + 2 ^ 31) mod 2 ^ 32 - 2 ^ 31.

(** [x << n]; the shift count is taken modulo 32. *)
Definition shl (x n : Z) : Z := toInt32 (Z.shiftl (toInt32 x) (n mod 32)).

(** [x ^ y] *)
Definition xor (x y : Z) : Z := Z.lxor (toInt32 x) (toInt32 y).

(** [x & y] *)
Definition band (x y : Z) : Z := Z.land (toInt32 x) (toInt32 y).

(** [str.charCodeAt(c)] of one character. *)
Definition charCode (c : ascii) : Z := Z.of_N (N_of_ascii c).

Definition ascii_of_code (z : Z) : ascii := ascii_of_N (Z.to_N z).

(** [str.length] *)
Definition len (s : string) : Z := Z.of_nat (String.length s).

(** The character class [\d] of a regular expression: ASCII digits only. *)
Definition isDigit (c : ascii) : bool :=
  (48 <=? charCode c) && (charCode c <=? 57).

Definition digitVal (c : ascii) : Z := charCode c - 48.

Fixpoint allDigits (s : string) : bool :=
  match s with
  | EmptyString => true
  | String c s' => isDigit c && allDigits s'
  end.

(** [/^\d+$/.test(s)] *)
Definition isDigitString (s : string) : bool :=
  match s with
  | EmptyString => false
  | _ => allDigits s
  end.

(** [s.startsWith(p)] *)
Fixpoint startsWith (s p : string) : bool :=
  match p, s with
  | EmptyString, _ => true
  | String a p', String b s' => Ascii.eqb a b && startsWith s' p'
  | String _ _, EmptyString => false
  end.

(** [s.includes(p)] *)
Fixpoint includes (s p : string) : bool :=
  startsWith s p ||
  match s with
  | EmptyString => false
  | String _ s' => includes s' p
  end.

(** Drop the first [n] characters. *)
Fixpoint drop (n : nat) (s : string) : string :=
  match n, s with
  | O, _ => s
  | S _, EmptyString => EmptyString
  | S n', String _ s' => drop n' s'
  end.

(** Keep the first [n] characters. *)
Fixpoint take (n : nat) (s : string) : string :=
  match n, s with
  | O, _ => EmptyString
  | S _, EmptyString => EmptyString
  | S n', String c s' => String c (take n' s')
  end.

(** [s.substring(a, b)]: both indices are clamped to [0 .. s.length] and
    swapped when [a > b]. *)
Definition substring (s : string) (a b : Z) : string :=
  let clamp i := Z.max 0 (Z.min i (len s)) in
  let lo := Z.min (clamp a) (clamp b) in
  let hi := Z.max (clamp a) (clamp b) in
  take (Z.to_nat (hi - lo)) (drop (Z.to_nat lo) s).

(** [s.replace(pat, rep)] with a string pattern: only the first occurrence
    is replaced ([rep] holds no [$] here). *)
Fixpoint replace (s pat rep : string) : string :=
  if startsWith s pat then rep ++ drop (String.length pat) s
  else match s with
       | EmptyString => EmptyString
       | String c s' => String c (replace s' pat rep)
       end.

(** [s.split(sep)] for a non-empty separator, as the current part and the
    parts after it.  [skip] counts the characters of a separator occurrence
    that are still to be dropped. *)
Fixpoint split_go (s sep : string) (skip : nat) : string * list string :=
  match s with
  | EmptyString => (EmptyString, [])
  | String c s' =>
      match skip with
      | S k => split_go s' sep k
      | O =>
          if startsWith s sep
          then let '(p, ps) := split_go s' sep (String.length sep - 1) in
               (EmptyString, p :: ps)
          else let '(p, ps) := split_go s' sep 0 in
               (String c p, ps)
      end
  end.

Definition split (s sep : string) : list string :=
  let '(p, ps) := split_go s sep 0 in p :: ps.

(** The decimal digits of an integer: [n.toString()] of a number below
    2^53 (lengths, counters, the pool). *)
Definition numToString (n : Z) : string := NilZero.string_of_int (Z.to_int n).

(** [n.toString(16)] of a non-negative integer. *)
Definition hexDigit (d : Z) : ascii :=
  match d with
  | 0 => "0" | 1 => "1" | 2 => "2" | 3 => "3" | 4 => "4" | 5 => "5"
  | 6 => "6" | 7 => "7" | 8 => "8" | 9 => "9" | 10 => "a" | 11 => "b"
  | 12 => "c" | 13 => "d" | 14 => "e" | _ => "f"
  end%char.

Fixpoint toString16_aux (fuel : nat) (n : Z) (acc : string) : string :=
  match fuel with
  | O => acc
  | S f =>
      let acc' := String (hexDigit (n mod 16)) acc in
      if n / 16 =? 0 then acc' else toString16_aux f (n / 16) acc'
  end.

Definition toString16 (n : Z) : string :=
  toString16_aux (S (Z.to_nat (Z.log2 n))) n EmptyString.

(** A [for] loop over the characters of [s], in order, updating [acc]. *)
Fixpoint forChars {A : Type} (body : A -> ascii -> A) (s : string) (acc : A) : A :=
  match s with
  | EmptyString => acc
  | String ch rest => forChars body rest (body acc ch)
  end.

Definition mapChars (f : ascii -> ascii) : string -> string :=
  fix go (s : string) : string :=
    match s with
    | EmptyString => EmptyString
    | String c s' => String (f c) (go s')
    end.

(** [s.toUpperCase()] on the ASCII letters (it is applied to hexadecimal
    digits only). *)
Definition upperChar (c : ascii) : ascii :=
  if (97 <=? charCode c) && (charCode c <=? 122)
  then ascii_of_code (charCode c - 32) else c.

Definition toUpperCase : string -> string := mapChars upperChar.

(** [s.toLowerCase()]: [A-Z] and the Latin-1 capitals U+00C0 .. U+00DE
    (without the multiplication sign U+00D7). *)
Definition lowerChar (c : ascii) : ascii :=
  let n := charCode c in
  if ((65 <=? n) && (n <=? 90))
     || ((192 <=? n) && (n <=? 222) && negb (n =? 215))
  then ascii_of_code (n + 32) else c.

Definition toLowerCase : string -> string := mapChars lowerChar.

(** White space skipped by [parseInt] (code units below 256). *)
Definition isWhiteSpace (c : ascii) : bool :=
  let n := charCode c in
  ((9 <=? n) && (n <=? 13)) || (n =? 32) || (n =? 160).

Fixpoint trimStart (s : string) : string :=
  match s with
  | String c s' => if isWhiteSpace c then trimStart s' else s
  | EmptyString => EmptyString
  end.

(** The value of the longest prefix of decimal digits, read after [acc]. *)
Fixpoint digitsValue (s : string) (acc : Z) : Z :=
  match s with
  | String c s' => if isDigit c then digitsValue s' (10 * acc + digitVal c) else acc
  | EmptyString => acc
  end.

Definition startsWithDigit (s : string) : bool :=
  match s with
  | String c _ => isDigit c
  | EmptyString => false
  end.

(** [parseInt(s, 10)] as the integer that it reads: leading white space, an
    optional sign, then the longest run of digits; [None] is [NaN].  The
    number that the call returns is [toNumber] of it, the double nearest to
    that integer; where the sources parse two or three characters the two
    are the same. *)
Definition parseInt (s : string) : option Z :=
  match trimStart s with
  | String "-"%char r =>
      if startsWithDigit r then Some (- digitsValue r 0) else None
  | String "+"%char r =>
      if startsWithDigit r then Some (digitsValue r 0) else None
  | r => if startsWithDigit r then Some (digitsValue r 0) else None
  end.


(** [s.padStart(width, "0")] *)
Fixpoint zeros (n : nat) : string :=
  match n with
  | O => EmptyString
  | S n' => String "0"%char (zeros n')
  end.

Definition padStart0 (s : string) (width : nat) : string :=
  zeros (width - String.length s) ++ s.

(** The [count] integers from [start] on. *)
Fixpoint rangeFrom (start : Z) (count : nat) : list Z :=
  match count with
  | O => []
  | S count' => start :: rangeFrom (start + 1) count'
  end.

(** The integers [0 .. n-1]. *)
Definition upTo (n : Z) : list Z := rangeFrom 0 (Z.to_nat n).

(** [s.slice(a, b)]: a negative index counts from the end of the string,
    both indices are clamped to [0 .. s.length], and the result is empty
    when the start is not before the end. *)
Definition slice (s : string) (a b : Z) : string :=
  let relative i := if i <? 0 then Z.max (len s + i) 0 else Z.min i (len s) in
  let from := relative a in
  let to := relative b in
  take (Z.to_nat (to - from)) (drop (Z.to_nat from) s).

(** The value of a hexadecimal digit. *)
Definition hexVal (c : ascii) : option Z :=
  let n := charCode c in
  if isDigit c then Some (n - 48)
  else if (97 <=? n) && (n <=? 102) then Some (n - 87)
  else if (65 <=? n) && (n <=? 70) then Some (n - 55)
  else None.

(** The value of the longest prefix of hexadecimal digits, read after
    [acc]. *)
Fixpoint hexDigitsValue (s : string) (acc : Z) : Z :=
  match s with
  | String c s' =>
      match hexVal c with
      | Some d => hexDigitsValue s' (16 * acc + d)
      | None => acc
      end
  | EmptyString => acc
  end.

Definition startsWithHexDigit (s : string) : bool :=
  match s with
  | String c _ => match hexVal c with Some _ => true | None => false end
  | EmptyString => false
  end.

(** The digits of [parseInt(s)] after the sign: the prefix [0x] or [0X]
    selects base 16, anything else base 10. *)
Definition unsignedAuto (r : string) : option Z :=
  if startsWith r "0x" || startsWith r "0X"
  then if startsWithHexDigit (drop 2 r)
       then Some (hexDigitsValue (drop 2 r) 0) else None
  else if startsWithDigit r then Some (digitsValue r 0) else None.

(** [parseInt(s)] without a radix; [None] is [NaN]. *)
Definition parseIntAuto (s : string) : option Z :=
  match trimStart s with
  | String "-"%char r => option_map Z.opp (unsignedAuto r)
  | String "+"%char r => unsignedAuto r
  | r => unsignedAuto r
  end.

(** *** Numbers

    A number as the sources make one from a string: [NaN], an
    integer-valued double, or an infinity. *)
Inductive Number : Type :=
| NaN
| Finite (value : Z)
| Infinite (negative : bool).

(** The double nearest to an integer: 53 significant bits, ties to the even
    one; an infinity when that reaches 2^1024. *)
Definition roundToNumber (z : Z) : Number :=
  let a := Z.abs z in
  if a <? 2 ^ 53 then Finite z
  else
    let e := Z.log2 a - 52 in
    let q := a / 2 ^ e in
    let r := a mod 2 ^ e in
    let half := 2 ^ (e - 1) in
    let q := if (half <? r) || ((r =? half) && Z.odd q) then q + 1 else q in
    if 2 ^ 1024 <=? q * 2 ^ e then Infinite (z <? 0)
    else Finite (Z.sgn z * (q * 2 ^ e)).

(** The number that [parseInt] returns. *)
Definition toNumber (parsed : option Z) : Number :=
  match parsed with
  | Some z => roundToNumber z
  | None => NaN
  end.

(** [x + y]: the sum of two doubles is rounded again. *)
Definition addNumbers (x y : Number) : Number :=
  match x, y with
  | Finite a, Finite b => roundToNumber (a + b)
  | Infinite s, Finite _ | Finite _, Infinite s => Infinite s
  | Infinite s, Infinite t => if Bool.eqb s t then Infinite s else NaN
  | NaN, _ | _, NaN => NaN
  end.

(** The decimal [v] reads back as the double [a]. *)
Definition readsAs (a v : Z) : bool :=
  match roundToNumber v with
  | Finite x => x =? a
  | _ => false
  end.

(** The decimals of [k] significant digits next to [a], which has [d]
    digits: the one that reads back as [a], the nearer one when both do,
    the even one when they are as near. *)
Definition shortestWith (a d k : Z) : option Z :=
  let p := 10 ^ (d - k) in
  let lo := a / p in
  let lower := lo * p in
  let upper := (lo + 1) * p in
  let okLower := readsAs a lower in
  let okUpper := (lo + 1 <? 10 ^ k) && readsAs a upper in
  if okLower && okUpper
  then if a - lower <? upper - a then Some lower
       else if upper - a <? a - lower then Some upper
       else if Z.even lo then Some lower else Some upper
  else if okLower then Some lower
  else if okUpper then Some upper
  else None.

Fixpoint shortestFrom (fuel : nat) (a d k : Z) : Z :=
  match fuel with
  | O => a
  | S fuel' =>
      match shortestWith a d k with
      | Some v => v
      | None => shortestFrom fuel' a d (k + 1)
      end
  end.

(** The decimal with the fewest significant digits that reads back as the
    double [a], for [a] from 2^53 on: seventeen digits always do. *)
Definition shortestDecimal (a : Z) : Z :=
  let d := len (numToString a) in
  if readsAs a (10 ^ d) then 10 ^ d else shortestFrom 17 a d 1.

(** [s] without the zeros at its end. *)
Fixpoint stripZeros (s : string) : string :=
  match s with
  | EmptyString => EmptyString
  | String c rest =>
      match stripZeros rest with
      | EmptyString => if Ascii.eqb c "0" then EmptyString else String c EmptyString
      | rest' => String c rest'
      end
  end.

(** The exponent notation of a decimal from 10^21 on: [1e+21],
    [1.5e+22]. *)
Definition exponentForm (v : Z) : string :=
  let digits := numToString v in
  let exponent := numToString (len digits - 1) in
  match stripZeros digits with
  | String c EmptyString => String c ("e+" ++ exponent)
  | String c rest => String c ("." ++ rest ++ "e+" ++ exponent)
  | EmptyString => "0"
  end.

(** [x.toString()] of a number: an integer below 2^53 prints all its
    digits; a larger one prints the shortest decimal that reads back as it,
    in exponent notation from 10^21 on. *)
Definition numberToString (x : Number) : string :=
  match x with
  | NaN => "NaN"
  | Infinite false => "Infinity"
  | Infinite true => "-Infinity"
  | Finite z =>
      if Z.abs z <? 2 ^ 53 then numToString z
      else
        let v := shortestDecimal (Z.abs z) in
        let text := if v <? 10 ^ 21 then numToString v else exponentForm v in
        if z <? 0 then String "-" text else text
  end.

End JS.

(* ================================================================== *)
(** ** The QR payload codec: [qris-converter.js] *)
(* ================================================================== *)

Module Converter.

(** One pass of the inner [for (let i = 0; i < 8; i++)] loop. *)
Definition crcShift (crc : Z) : Z :=
  if JS.band crc 0x8000 =? 0
  then JS.shl crc 1
  else JS.xor (JS.shl crc 1) 0x1021.

(** One pass of the outer loop: [crc ^= str.charCodeAt(c) << 8] and eight
    shifts. *)
Definition crcChar (crc : Z) (ch : ascii) : Z :=
  Nat.iter 8 crcShift (JS.xor crc (JS.shl (JS.charCode ch) 8)).

(** [for (let c = 0; c < str.length; c++)] *)
Definition crcLoop (str : string) (crc : Z) : Z := JS.forChars crcChar str crc.

Definition calculateCRC16 (str : string) : string :=
  let crc := crcLoop str 0xFFFF in
  let hex := JS.toUpperCase (JS.toString16 (JS.band crc 0xFFFF)) in
  if (String.length hex =? 3)%nat then "0" ++ hex else hex.

(** [formatLength]: the length in decimal, one digit padded to two. *)
Definition formatLength (str : string) : string :=
  let length := JS.numToString (JS.len str) in
  if (String.length length =? 1)%nat then "0" ++ length else length.

Definition validateQRIS (qris : string) : bool :=
  if (String.length qris =? 0)%nat || (JS.len qris <? 50) || (JS.len qris >? 500)
  then false
  else if negb (JS.startsWith qris "00020") then false
  else if negb (JS.includes qris "5802ID") then false
  else true.

(** The maximal run of digits at the start of [s]: what a greedy [\d+]
    takes. *)
Fixpoint digitRun (s : string) : string :=
  match s with
  | String c s' => if JS.isDigit c then String c (digitRun s') else EmptyString
  | EmptyString => EmptyString
  end.

(** [/54(\d{2})(\d+)/] tried at the start of [s]: the two groups. *)
Definition matchAmountAt (s : string) : option (string * string) :=
  if JS.startsWith s "54"
  then match JS.drop 2 s with
       | String d1 (String d2 rest) =>
           if JS.isDigit d1 && JS.isDigit d2 && JS.startsWithDigit rest
           then Some (String d1 (String d2 EmptyString), digitRun rest)
           else None
       | _ => None
       end
  else None.

(** [qris.match(/54(\d{2})(\d+)/)]: the leftmost position where the
    expression matches. *)
Fixpoint matchAmount (qris : string) : option (string * string) :=
  match matchAmountAt qris with
  | Some m => Some m
  | None =>
      match qris with
      | EmptyString => None
      | String _ rest => matchAmount rest
      end
  end.

(** [null] is [None]. *)
Definition extractAmount (qris : string) : option string :=
  match matchAmount qris with
  | Some (g1, restOfString) =>
      match JS.parseInt g1 with
      | Some length =>
          if JS.len restOfString >=? length
          then Some (JS.substring restOfString 0 length)
          else None
      | None => None
      end
  | None => None
  end.

(** The [amount] argument: a string, a number with an integer value (the
    double nearest to [n]), or absent ([null] or [undefined]). *)
Inductive Amount : Type :=
| AmountString (s : string)
| AmountNumber (n : Z)
| AmountAbsent.

(** [!amount] *)
Definition amountFalsy (amount : Amount) : bool :=
  match amount with
  | AmountString s => (String.length s =? 0)%nat
  | AmountNumber n => n =? 0
  | AmountAbsent => true
  end.

(** [amount.toString()] of a present amount. *)
Definition amountToString (amount : Amount) : string :=
  match amount with
  | AmountString s => s
  | AmountNumber n => JS.numberToString (JS.roundToNumber n)
  | AmountAbsent => EmptyString
  end.

(** [!staticQRIS]; an absent payload is [None]. *)
Definition qrisFalsy (staticQRIS : option string) : bool :=
  match staticQRIS with
  | Some s => (String.length s =? 0)%nat
  | None => true
  end.

(** [serviceFee.value]: a value that is there is taken by the text of its
    [toString()]; the value may be missing ([undefined]) or [null]. *)
Inductive FeeValue : Type :=
| FeeText (text : string)
| FeeUndefined
| FeeNull.

(** The service-fee object: [{ type, value }].  A fee whose [type] is
    missing or no string behaves like one of any type other than [rupiah]
    and [percent]. *)
Record ServiceFee : Type := { fee_type : string; fee_value : FeeValue }.

(** The message of the TypeError that [x.toString()] throws on [undefined]
    and on [null], in the wording of V8, which runs both builds. *)
Definition typeErrorMessage (value : string) : string :=
  "Cannot read properties of " ++ value ++ " (reading 'toString')".

(** [serviceFee.value.toString()]; [inr] is the message of the error
    thrown. *)
Definition feeText (fee : ServiceFee) : string + string :=
  match fee_value fee with
  | FeeText text => inl text
  | FeeUndefined => inr (typeErrorMessage "undefined")
  | FeeNull => inr (typeErrorMessage "null")
  end.

Definition requiredMessage : string := "Static QRIS and amount are required".
Definition formatMessage : string :=
  "Amount must be numeric string without formatting".
Definition structureMessage : string :=
  "Invalid QRIS format: missing merchant location".
Definition failurePrefix : string := "QRIS conversion failed: ".

(** [qrisWithoutCRC.replace('010211', '010212').split('5802ID')] *)
Definition sentinelParts (staticQRIS : string) : list string :=
  let qrisWithoutCRC := JS.substring staticQRIS 0 (JS.len staticQRIS - 4) in
  let step1 := JS.replace qrisWithoutCRC "010211" "010212" in
  JS.split step1 "5802ID".

(** The amount field with the optional service fee and the sentinel;
    [inr] is the message of the TypeError thrown for a fee of type [rupiah]
    or [percent] without a value. *)
Definition buildAmountField (amountStr : string) (serviceFee : option ServiceFee)
  : string + string :=
  let amountField := "54" ++ formatLength amountStr ++ amountStr in
  let withFee (tags : string) (fee : ServiceFee) : string + string :=
    match feeText fee with
    | inl feeStr =>
        inl ((amountField ++ tags ++ formatLength feeStr ++ feeStr) ++ "5802ID")
    | inr message => inr message
    end in
  match serviceFee with
  | Some fee =>
      if String.eqb (fee_type fee) "rupiah" then withFee "55020256" fee
      else if String.eqb (fee_type fee) "percent" then withFee "55020357" fee
      else inl (amountField ++ "5802ID")
  | None => inl (amountField ++ "5802ID")
  end.

(** The body of the [try] block: [inr] is the message of the error thrown
    inside it. *)
Definition convertBody (staticQRIS : option string) (amount : Amount)
    (serviceFee : option ServiceFee) : string + string :=
  if qrisFalsy staticQRIS || amountFalsy amount then inr requiredMessage
  else
    let amountStr := amountToString amount in
    if negb (JS.isDigitString amountStr) then inr formatMessage
    else
      match staticQRIS with
      | None => inr requiredMessage
      | Some staticQRIS =>
          match sentinelParts staticQRIS with
          | [part0; part1] =>
              match buildAmountField amountStr serviceFee with
              | inl amountField =>
                  let qrisWithAmount := part0 ++ amountField ++ part1 in
                  let crc := calculateCRC16 qrisWithAmount in
                  inl (qrisWithAmount ++ crc)
              | inr message => inr message
              end
          | _ => inr structureMessage
          end
      end.

(** The [catch] block rethrows with a prefix. *)
Definition convertStaticToDynamic (staticQRIS : option string) (amount : Amount)
    (serviceFee : option ServiceFee) : Outcome :=
  match convertBody staticQRIS amount serviceFee with
  | inl qris => Returned qris
  | inr message => Thrown (failurePrefix ++ message)
  end.

End Converter.

(* ================================================================== *)
(** ** The time stamps as the store holds and compares them *)
(* ================================================================== *)

(** The code writes the text of [toISOString()] into [expires_at] and into
    the [created_at] of an expectation, and its statements compare that
    text with the text of [datetime(...)], byte by byte.  This module has
    the two texts and that comparison, and what it comes to for the instants
    that the modules below hold. *)
Module StoredTime.

(** A point in time by its UTC calendar fields. *)
Record Instant : Type := {
  year : Z;
  month : Z;
  day : Z;
  hour : Z;
  minute : Z;
  second : Z;
  millisecond : Z
}.

Definition pad (width : nat) (n : Z) : string :=
  JS.padStart0 (JS.numToString n) width.

(** The calendar date as both formats print it: [YYYY-MM-DD]. *)
Definition dateText (t : Instant) : string :=
  pad 4 (year t) ++ "-" ++ pad 2 (month t) ++ "-" ++ pad 2 (day t).

Definition clockText (t : Instant) : string :=
  pad 2 (hour t) ++ ":" ++ pad 2 (minute t) ++ ":" ++ pad 2 (second t).

(** [new Date(...).toISOString()], for a year from 0 to 9999. *)
Definition toISOString (t : Instant) : string :=
  dateText t ++ "T" ++ clockText t ++ "." ++ pad 3 (millisecond t) ++ "Z".

(** The text of SQLite's [datetime(...)] for the instant it denotes. *)
Definition datetime (t : Instant) : string :=
  dateText t ++ " " ++ clockText t.

(** [a > b] on two text values of the store: the order of their bytes. *)
Definition textGreater (a b : string) : bool :=
  match String.compare a b with
  | Gt => true
  | _ => false
  end.

(** [WHERE expires_at > datetime('now')], on the [expiresAt] that
    [generateUniqueAmount] stores. *)
Definition stillReserved (expiresAt now : Instant) : bool :=
  textGreater (toISOString expiresAt) (datetime now).

(** [DELETE FROM unique_amounts WHERE expires_at < datetime('now')] *)
Definition deletedAsExpired (expiresAt now : Instant) : bool :=
  textGreater (datetime now) (toISOString expiresAt).

(** [AND created_at > datetime('now', '-5 minutes')], on the [created_at]
    that the registration stores; [threshold] is the instant five minutes
    before now. *)
Definition inWindow (createdAt threshold : Instant) : bool :=
  textGreater (toISOString createdAt) (datetime threshold).

(** [AND created_at > ?] of the notification search of
    [handleWooCommercePaymentStatus]: [created_at] is the
    [CURRENT_TIMESTAMP] that the table [notifications] gives a row, the
    parameter is [timeoutDate], a [toISOString()] text. *)
Definition afterTimeout (createdAt timeoutDate : Instant) : bool :=
  textGreater (datetime createdAt) (toISOString timeoutDate).

Definition wellFormed (t : Instant) : Prop :=
  0 <= year t <= 9999 /\ 1 <= month t <= 12 /\ 1 <= day t <= 31
  /\ 0 <= hour t <= 23 /\ 0 <= minute t <= 59 /\ 0 <= second t <= 59
  /\ 0 <= millisecond t <= 999.

(** The calendar date of [a] is before that of [b]. *)
Definition dateBefore (a b : Instant) : Prop :=
  year a < year b
  \/ (year a = year b
      /\ (month a < month b \/ (month a = month b /\ day a < day b))).

(** The instant [a] is before the instant [b]. *)
Definition before (a b : Instant) : Prop :=
  dateBefore a b
  \/ (year a = year b /\ month a = month b /\ day a = day b
      /\ (hour a < hour b
          \/ (hour a = hour b
              /\ (minute a < minute b
                  \/ (minute a = minute b
                      /\ (second a < second b
                          \/ (second a = second b
                              /\ millisecond a < millisecond b))))))).

(** Two digits print in the order of their numbers. *)
Definition ordered2 (m : Z) : bool :=
  forallb (fun n =>
             match String.compare (pad 2 m) (pad 2 n), m ?= n with
             | Eq, Eq | Lt, Lt | Gt, Gt => true
             | _, _ => false
             end)
          (JS.upTo 100).

(** Four digits print as two pairs of two digits. *)
Definition paired4 (y : Z) : bool :=
  String.eqb (pad 4 y) (pad 2 (y / 100) ++ pad 2 (y mod 100))
  && (String.length (pad 2 (y mod 100)) =? 2)%nat.


(** A reservation that ends at ten in the morning, and the end of that
    day. *)
Definition tenOClock : Instant :=
  {| year := 2025; month := 3; day := 1;
     hour := 10; minute := 0; second := 0; millisecond := 0 |}.

Definition endOfDay : Instant :=
  {| year := 2025; month := 3; day := 1;
     hour := 23; minute := 59; second := 59; millisecond := 0 |}.

(** *** Instants in seconds

    The modules below hold a time stamp as the seconds since the epoch
    (UTC).  The calendar date of such an instant is the number of its day;
    the two texts of an instant differ right after the date, so that the
    comparisons of the statements are decided by the dates alone
    ([StoredTimeFacts.isoAfter_texts]). *)
Definition dayOf (t : Z) : Z := t / 86400.

(** [iso > datetime(...)], for the [toISOString()] text of the instant
    [iso] and the [datetime(...)] text of the instant [sql]: true unless
    the date of [iso] is before the date of [sql]. *)
Definition isoAfter (iso sql : Z) : bool := dayOf sql <=? dayOf iso.

(** [iso < datetime(...)]: true when the date of [iso] is before the date
    of [sql]. *)
Definition isoBefore (iso sql : Z) : bool := dayOf iso <? dayOf sql.

(** *** The calendar fields of an instant in seconds

    [Date] counts the days of the Gregorian calendar from 1 January 1970
    (UTC). *)
Definition leapYear (y : Z) : bool :=
  ((y mod 4 =? 0) && negb (y mod 100 =? 0)) || (y mod 400 =? 0).

Definition daysIn (y m : Z) : Z :=
  if m =? 2 then (if leapYear y then 29 else 28)
  else if (m =? 4) || (m =? 6) || (m =? 9) || (m =? 11) then 30
  else 31.

Definition nextDay (date : Z * Z * Z) : Z * Z * Z :=
  let '(y, m, d) := date in
  if d <? daysIn y m then (y, m, d + 1)
  else if m <? 12 then (y, m + 1, 1)
  else (y + 1, 1, 1).

(** The date [k] days after [date]. *)
Fixpoint daysLater (k : nat) (date : Z * Z * Z) : Z * Z * Z :=
  match k with
  | O => date
  | S k' => nextDay (daysLater k' date)
  end.

(** Year, month and day of the day [n] days after 1 January 1970. *)
Definition dateOfDay (n : Z) : Z * Z * Z :=
  daysLater (Z.to_nat n) (1970, 1, 1).

(** The instant [t] seconds after the epoch, for [t] not negative. *)
Definition ofSeconds (t : Z) : Instant :=
  let '(y, m, d) := dateOfDay (dayOf t) in
  let s := t mod 86400 in
  {| year := y; month := m; day := d;
     hour := s / 3600; minute := (s / 60) mod 60; second := s mod 60;
     millisecond := 0 |}.

(** The instants up to 2^35 seconds, in the year 3058. *)
Definition horizon : Z := 2 ^ 35.

(** A date of the calendar, and its place in the order of the dates. *)
Definition isDate (date : Z * Z * Z) : Prop :=
  let '(y, m, d) := date in 1 <= m <= 12 /\ 1 <= d <= daysIn y m.

Definition place (date : Z * Z * Z) : Z :=
  let '(y, m, d) := date in 372 * y + 31 * (m - 1) + (d - 1).

End StoredTime.

(* ================================================================== *)
(** ** The unique-amount allocator: [generateUniqueAmount] *)
(* ================================================================== *)

Module Allocator.

(** A row of the table [unique_amounts], with the columns the queries
    read or write.  [created_at] is the [CURRENT_TIMESTAMP] of the insert;
    [expires_at] is stored as a [toISOString()] text and compared with
    [datetime('now')] as [StoredTime] has it. *)
Record Reservation : Type := {
  unique_amount : string;
  order_reference : string;
  created_at : Z;
  expires_at : Z
}.

Definition Table : Type := list Reservation.

(** [ORDER BY created_at DESC LIMIT 1]: a row with the greatest
    [created_at], the earliest such row of the table. *)
Definition later (best : option Reservation) (r : Reservation)
  : option Reservation :=
  match best with
  | None => Some r
  | Some b => if created_at b <? created_at r then Some r else Some b
  end.

Definition newest (rows : list Reservation) : option Reservation :=
  fold_left later rows None.

(** [SELECT unique_amount FROM unique_amounts WHERE order_reference = ?
    AND expires_at > datetime('now') ORDER BY created_at DESC LIMIT 1] *)
Definition ownedBy (orderRef : string) (now : Z) (r : Reservation) : bool :=
  String.eqb (order_reference r) orderRef && StoredTime.isoAfter (expires_at r) now.

Definition selectExisting (db : Table) (orderRef : string) (now : Z)
  : option Reservation :=
  newest (filter (ownedBy orderRef now) db).

(** [DELETE FROM unique_amounts WHERE expires_at < datetime('now')] *)
Definition deleteExpired (db : Table) (now : Z) : Table :=
  filter (fun r => negb (StoredTime.isoBefore (expires_at r) now)) db.

(** [SELECT unique_amount FROM unique_amounts WHERE unique_amount = ?
    AND expires_at > datetime('now')] *)
Definition selectAmount (db : Table) (uniqueAmount : string) (now : Z)
  : option Reservation :=
  find (fun r => String.eqb (unique_amount r) uniqueAmount
                 && StoredTime.isoAfter (expires_at r) now) db.

(** [INSERT INTO unique_amounts (unique_amount, order_reference, expires_at)]:
    the column [unique_amount] is [UNIQUE], so the statement fails ([None])
    when a row with that value is still stored. *)
Definition newReservation (uniqueAmount orderRef : string) (now expiresAt : Z)
  : Reservation :=
  {| unique_amount := uniqueAmount;
     order_reference := orderRef;
     created_at := now;
     expires_at := expiresAt |}.

Definition insertReservation (db : Table) (uniqueAmount orderRef : string)
    (now expiresAt : Z) : option Table :=
  if existsb (fun r => String.eqb (unique_amount r) uniqueAmount) db then None
  else Some (db ++ [newReservation uniqueAmount orderRef now expiresAt])%list.

(** [randomNum.toString().padStart(3, '0')] *)
Definition padded (randomNum : Z) : string :=
  JS.padStart0 (JS.numToString randomNum) 3.

(** The state of the retry loop: the counter, the table and the number of
    random draws made so far. *)
Record LoopState : Type := {
  attempts : Z;
  table : Table;
  drawn : nat
}.

(** What a call leaves behind: its outcome, the table and the number of
    random draws it made. *)
Record Finished : Type := {
  outcome : Outcome;
  final_table : Table;
  draws : nat
}.

Inductive Step : Type :=
| Continue (st : LoopState)
| Done (result : Finished).

Definition exhaustedMessage : string := "No unique amounts available".

Section Loop.

(** [random k] is the value of the [k]-th evaluation of
    [Math.floor(Math.random() * 200)] during the call; [now] is the time of
    the call, which its statements are taken to read alike. *)
Variable random : nat -> Z.
Variable orderRef : string.
Variable now : Z.

(** One pass of the loop body: draw, look the value up, reserve it when it
    is free.  A failed insert and a taken value both count an attempt. *)
Definition iteration (st : LoopState) : Step :=
  let randomNum := random (drawn st) + 1 in
  let uniqueAmount := padded randomNum in
  let next := {| attempts := attempts st + 1;
                 table := table st;
                 drawn := S (drawn st) |} in
  match selectAmount (table st) uniqueAmount now with
  | None =>
      let expiresAt := now + 60 * 60 in
      match insertReservation (table st) uniqueAmount orderRef now expiresAt with
      | Some db' =>
          Done {| outcome := Returned uniqueAmount;
                  final_table := db';
                  draws := S (drawn st) |}
      | None => Continue next
      end
  | Some _ => Continue next
  end.

(** The row that the [k]-th draw reserves. *)
Definition reservedBy (k : nat) : Reservation :=
  newReservation (padded (random k + 1)) orderRef now (now + 60 * 60).

(** The retry loop.  [giveUp attempts] is the test that ends it with the
    pool-exhaustion error; [fuel] bounds the passes the model makes, and
    [None] means that the fuel ran out first. *)
Fixpoint retry (giveUp : Z -> bool) (fuel : nat) (st : LoopState)
  : option Finished :=
  if giveUp (attempts st)
  then Some {| outcome := Thrown exhaustedMessage;
               final_table := table st;
               draws := drawn st |}
  else match fuel with
       | O => None
       | S fuel' =>
           match iteration st with
           | Continue st' => retry giveUp fuel' st'
           | Done result => Some result
           end
       end.

(** The whole call: reuse the reservation that the first select finds for
    the order; otherwise run the delete and enter the loop. *)
Definition generateWith (giveUp : Z -> bool) (fuel : nat) (db : Table)
  : option Finished :=
  match selectExisting db orderRef now with
  | Some existingResult =>
      Some {| outcome := Returned (unique_amount existingResult);
              final_table := db;
              draws := 0 |}
  | None =>
      retry giveUp fuel
        {| attempts := 0; table := deleteExpired db now; drawn := 0 |}
  end.

End Loop.

Definition maxAttempts : Z := 200.

(** [src/worker.js]: [while (attempts < maxAttempts)]. *)
Module Worker.
Definition giveUp (attempts : Z) : bool := negb (attempts <? maxAttempts).
Definition generateUniqueAmount (random : nat -> Z) (fuel : nat) (db : Table)
    (orderRef : string) (now : Z) : option Finished :=
  generateWith random orderRef now giveUp fuel db.
End Worker.

(** [qris-integration.js]: [findAvailableAmount] starts with
    [if (attempt > 200) return reject(...)]. *)
Module Node.
Definition giveUp (attempt : Z) : bool := attempt >? 200.
Definition generateUniqueAmount (random : nat -> Z) (fuel : nat) (db : Table)
    (orderRef : string) (now : Z) : option Finished :=
  generateWith random orderRef now giveUp fuel db.
End Node.

(** A zero-padded three-digit string whose value lies between 1 and 200. *)
Definition poolValue (v : string) : Prop :=
  String.length v = 3%nat
  /\ JS.allDigits v = true
  /\ exists n, JS.parseInt v = Some n /\ 1 <= n <= 200.

(** [v] has three digits and the value [n]. *)
Definition threeDigitsOf (n : Z) (v : string) : bool :=
  (String.length v =? 3)%nat && JS.allDigits v
  && match JS.parseInt v with Some m => m =? n | None => false end.

(** Every stored value comes from the pool. *)
Definition poolTable (db : Table) : Prop :=
  forall r, In r db -> poolValue (unique_amount r).

(** The random source keeps to the range of
    [Math.floor(Math.random() * 200)]. *)
Definition inRange (random : nat -> Z) : Prop :=
  forall k, 0 <= random k < 200.

(** Every reservation that the table holds for the order runs beyond
    [now]. *)
Definition running (db : Table) (orderRef : string) (now : Z) : Prop :=
  forall r, In r db -> order_reference r = orderRef -> now < expires_at r.

End Allocator.

(* ================================================================== *)
(** ** The payment matcher: [checkPaymentMatch], [markPaymentCompleted] *)
(* ================================================================== *)

Module Matcher.

Inductive Status : Type := pending | completed.

Inductive MatchType : Type := order_reference_match | amount_only_match.

(** A row of the table [payment_expectations]. *)
Record Expectation : Type := {
  id : Z;
  order_reference : string;
  expected_amount : string;
  unique_amount : option string;
  original_amount : option string;
  callback_url : option string;
  status : Status;
  created_at : Z;
  completed_at : option Z
}.

Definition Table : Type := list Expectation.

(** What is handed to [notifyWooCommerce]: the callback URL and the
    payment data. *)
Record Callback : Type := {
  cb_url : string;
  cb_order_reference : string;
  cb_amount : string;
  cb_expected_amount : string;
  cb_status : Status;
  cb_notification_text : string;
  cb_match_type : MatchType;
  cb_timestamp : Z
}.

(** The times at which the statements of one call read the clock: the
    select, the count, the update ([new Date()] for [completed_at]) and the
    notification. *)
Record Clock : Type := {
  t_select : Z;
  t_count : Z;
  t_update : Z;
  t_notify : Z
}.

Definition statusEqb (a b : Status) : bool :=
  match a, b with
  | pending, pending | completed, completed => true
  | _, _ => false
  end.

(** [a || '']: an absent or empty string is falsy. *)
Definition orEmpty (a : option string) : string :=
  match a with
  | Some s => s
  | None => EmptyString
  end.

Definition truthy (a : option string) : bool :=
  match a with
  | Some s => negb (String.length s =? 0)%nat
  | None => false
  end.

(** [parseInt(x, 10).toString()]; an absent value parses to [NaN]. *)
Definition normalize (amount : string) : string :=
  JS.numberToString (JS.toNumber (JS.parseInt amount)).

Definition normalizeValue (amount : option string) : string :=
  match amount with
  | Some s => normalize s
  | None => "NaN"
  end.

(** *** The store: SQLite as the statements use it

    The comparisons of the [WHERE] clauses follow SQLite's conversion
    rules for text; the statements below that speak of an amount "equal" to
    a column mean this comparison. *)

Definition isSqlSpace (c : ascii) : bool :=
  let n := JS.charCode c in ((9 <=? n) && (n <=? 13)) || (n =? 32).

Fixpoint skipSpaces (s : string) : string :=
  match s with
  | String c s' => if isSqlSpace c then skipSpaces s' else s
  | EmptyString => EmptyString
  end.

(** A 64-bit integer of the store: a value beyond the range is the
    nearest bound. *)
Definition int64 (z : Z) : Z := Z.max (- 2 ^ 63) (Z.min z (2 ^ 63 - 1)).

Definition isInt64 (z : Z) : bool := (- 2 ^ 63 <=? z) && (z <=? 2 ^ 63 - 1).

(** [CAST(text AS INTEGER)]: the longest integer prefix after leading
    spaces, 0 when there is none. *)
Definition castInteger (text : string) : Z :=
  int64 match skipSpaces text with
        | String "-"%char r => - JS.digitsValue r 0
        | String "+"%char r => JS.digitsValue r 0
        | r => JS.digitsValue r 0
        end.

(** The number that a text parameter compares as against an integer value,
    when the text is an integer literal: that integer when it has 64 bits,
    else the double nearest to it.  The texts of [NaN], of an infinity and
    of a number from 10^21 on compare equal to no integer of the store. *)
Definition integerLiteral (text : string) : option Z :=
  let literal :=
    match text with
    | String "-"%char r =>
        if JS.isDigitString r then Some (- JS.digitsValue r 0) else None
    | r => if JS.isDigitString r then Some (JS.digitsValue r 0) else None
    end in
  match literal with
  | Some z =>
      if isInt64 z then Some z
      else match JS.roundToNumber z with
           | JS.Finite x => Some x
           | _ => None
           end
  | None => None
  end.

(** [column = ? OR CAST(column AS INTEGER) = ?], bound to the detected
    amount and to its normal form; a [NULL] column satisfies neither. *)
Definition amountEquals (column : option string) (amountDetected normalized : string)
  : bool :=
  match column with
  | Some c =>
      String.eqb c amountDetected
      || match integerLiteral normalized with
         | Some n => castInteger c =? n
         | None => false
         end
  | None => false
  end.

(** [created_at > datetime('now', '-N minutes')]: [created_at] is stored as
    a [toISOString()] text. *)
Definition within (minutes now : Z) (e : Expectation) : bool :=
  StoredTime.isoAfter (created_at e) (now - minutes * 60).

(** [UPDATE payment_expectations SET status = ?, completed_at = ?
    WHERE id = ?] *)
Definition setStatus (newStatus : Status) (completedAt : option Z)
    (e : Expectation) : Expectation :=
  {| id := id e;
     order_reference := order_reference e;
     expected_amount := expected_amount e;
     unique_amount := unique_amount e;
     original_amount := original_amount e;
     callback_url := callback_url e;
     status := newStatus;
     created_at := created_at e;
     completed_at := completedAt |}.

Definition update (db : Table) (rowId : Z) (newStatus : Status)
    (completedAt : option Z) : Table :=
  List.map (fun e => if id e =? rowId then setStatus newStatus completedAt e else e)
    db.

(** [ORDER BY created_at DESC] *)
Fixpoint insertDesc (e : Expectation) (sorted : list Expectation)
  : list Expectation :=
  match sorted with
  | [] => [e]
  | x :: rest =>
      if created_at x <? created_at e then e :: sorted
      else x :: insertDesc e rest
  end.

Definition orderByCreatedDesc (rows : list Expectation) : list Expectation :=
  fold_right insertDesc [] rows.

(** The payment data of the callback. *)
Definition paymentData (url : string) (e : Expectation)
    (amountDetected text : string) (matchType : MatchType) (now : Z) : Callback :=
  {| cb_url := url;
     cb_order_reference := order_reference e;
     cb_amount := amountDetected;
     cb_expected_amount := expected_amount e;
     cb_status := completed;
     cb_notification_text := text;
     cb_match_type := matchType;
     cb_timestamp := now |}.

(** [if (expectation.callback_url) notifyWooCommerce(...)] *)
Definition notify (e : Expectation) (amountDetected text : string)
    (matchType : MatchType) (now : Z) : list Callback :=
  if truthy (callback_url e)
  then [paymentData (orEmpty (callback_url e)) e amountDetected text matchType now]
  else [].

(** [searchText.includes(expectation.order_reference.toLowerCase())] *)
Definition mentions (searchText : string) (e : Expectation) : bool :=
  JS.includes searchText (JS.toLowerCase (order_reference e)).

(** The lower-cased concatenation of the notification fields. *)
Definition searchTextOf (text title : string) (bigText : option string) : string :=
  JS.toLowerCase (text ++ " " ++ title ++ " " ++ orEmpty bigText).

(** *** [src/worker.js] *)

Module Worker.

(** The [WHERE] clause of both queries of [checkPaymentMatch]. *)
Definition candidate (amountDetected normalizedAmount : string) (now : Z)
    (e : Expectation) : bool :=
  amountEquals (Some (expected_amount e)) amountDetected normalizedAmount
  && statusEqb (status e) pending
  && within 5 now e.

Definition selectPending (db : Table) (amountDetected normalizedAmount : string)
    (now : Z) : list Expectation :=
  orderByCreatedDesc (filter (candidate amountDetected normalizedAmount now) db).

Definition countPending (db : Table) (amountDetected normalizedAmount : string)
    (now : Z) : Z :=
  Z.of_nat (List.length (filter (candidate amountDetected normalizedAmount now) db)).

(** The two steps that choose [matchedExpectation] and [matchType]. *)
Definition choose (db : Table) (expectations : list Expectation)
    (searchText amountDetected normalizedAmount : string) (clock : Clock)
  : option (Expectation * MatchType) :=
  match find (mentions searchText) expectations with
  | Some expectation => Some (expectation, order_reference_match)
  | None =>
      let recentCount :=
        countPending db amountDetected normalizedAmount (t_count clock) in
      if recentCount =? 1
      then match expectations with
           | first :: _ => Some (first, amount_only_match)
           | [] => None
           end
      else None
  end.

Definition checkPaymentMatch (db : Table) (text title : string)
    (bigText : option string) (amountDetected : string) (clock : Clock)
  : Table * list Callback :=
  let normalizedAmount := normalize amountDetected in
  let expectations :=
    selectPending db amountDetected normalizedAmount (t_select clock) in
  match expectations with
  | [] => (db, [])
  | _ :: _ =>
      let searchText := searchTextOf text title bigText in
      match choose db expectations searchText amountDetected normalizedAmount clock with
      | None => (db, [])
      | Some (matchedExpectation, matchType) =>
          let normalizedDetected := normalize amountDetected in
          let normalizedExpected := normalize (expected_amount matchedExpectation) in
          if String.eqb normalizedDetected normalizedExpected
          then (update db (id matchedExpectation) completed (Some (t_update clock)),
                notify matchedExpectation amountDetected text matchType
                  (t_notify clock))
          else (db, [])
      end
  end.

End Worker.

(** *** [qris-integration.js] *)

Module Node.

(** The [WHERE] clause on the three amount columns. *)
Definition anyAmountEquals (amountDetected normalized : string) (e : Expectation)
  : bool :=
  amountEquals (Some (expected_amount e)) amountDetected normalized
  || amountEquals (original_amount e) amountDetected normalized
  || amountEquals (unique_amount e) amountDetected normalized.

Definition candidate (minutes : Z) (amountDetected normalized : string) (now : Z)
    (e : Expectation) : bool :=
  statusEqb (status e) pending
  && anyAmountEquals amountDetected normalized e
  && within minutes now e.

(** The expectations that [checkPaymentMatch] walks through: those of the
    select with [datetime('now', '-30 minutes')]. *)
Definition selectPending (db : Table) (amountDetected normalized : string)
    (now : Z) : list Expectation :=
  filter (candidate 30 amountDetected normalized now) db.

(** The count of the fallback, with [datetime('now', '-5 minutes')]. *)
Definition countPending (db : Table) (amountDetected normalized : string)
    (now : Z) : Z :=
  Z.of_nat (List.length (filter (candidate 5 amountDetected normalized now) db)).

(** What the body of [expectations.forEach] does with one expectation:
    the match type it passes to [markPaymentCompleted], or [None] when it
    skips the expectation. *)
Definition decide (db : Table) (searchText amountDetected normalized : string)
    (now : Z) (expectation : Expectation) : option MatchType :=
  if mentions searchText expectation then Some order_reference_match
  else if countPending db amountDetected normalized now =? 1
       then Some amount_only_match
       else None.

(** The amount that [markPaymentCompleted] compares against:
    [expectedAmountToMatch]. *)
Definition expectedAmountToMatch (expectation : Expectation)
    (amountDetected : string) : option string :=
  let normalizedExpected := normalize (expected_amount expectation) in
  let normalizedOriginal :=
    normalize (if truthy (original_amount expectation)
               then orEmpty (original_amount expectation) else "0") in
  let normalizedUnique :=
    normalize (if truthy (unique_amount expectation)
               then orEmpty (unique_amount expectation) else "0") in
  let normalizedDetected := normalize amountDetected in
  if String.eqb normalizedDetected normalizedExpected
  then Some (expected_amount expectation)
  else if String.eqb normalizedDetected normalizedOriginal
  then original_amount expectation
  else if String.eqb normalizedDetected normalizedUnique
  then unique_amount expectation
  else Some (expected_amount expectation).

(** The check after the update. *)
Definition verified (expectation : Expectation) (amountDetected : string) : bool :=
  String.eqb (normalize amountDetected)
    (normalizeValue (expectedAmountToMatch expectation amountDetected)).

Definition markPaymentCompleted (db : Table) (expectation : Expectation)
    (amountDetected text : string) (matchType : MatchType) (clock : Clock)
  : Table * list Callback :=
  let marked := update db (id expectation) completed (Some (t_update clock)) in
  if verified expectation amountDetected
  then (marked, notify expectation amountDetected text matchType (t_notify clock))
  else (update marked (id expectation) pending None, []).

End Node.

End Matcher.

(* ================================================================== *)
(** ** Reading a payload and making a sample: [src/qris-converter.js] *)
(* ================================================================== *)

(** [parseQRIS] and [generateSampleQRIS] exist in the Cloudflare build of the
    converter only. *)
Module Parser.

Import Converter.

Inductive QrisType : Type := static | dynamic.

(** [result.merchantInfo]: a property that was never assigned is [None]. *)
Record MerchantInfo : Type := {
  categoryCode : option string;
  currency : option string;
  countryCode : option string;
  name : option string;
  city : option string;
  postalCode : option string
}.

(** [merchantInfo: {}] *)
Definition noInfo : MerchantInfo :=
  {| categoryCode := None; currency := None; countryCode := None;
     name := None; city := None; postalCode := None |}.

(** The object that [parseQRIS] returns; its [additionalInfo] is created
    empty and never written. *)
Record Parsed : Type := {
  valid : bool;
  type : QrisType;
  payloadFormat : string;
  amount : option string;
  merchantInfo : MerchantInfo
}.

(** [switch (tag)]: the six tags that are kept. *)
Definition store (info : MerchantInfo) (tag value : string) : MerchantInfo :=
  if String.eqb tag "52" then
    {| categoryCode := Some value; currency := currency info;
       countryCode := countryCode info; name := name info;
       city := city info; postalCode := postalCode info |}
  else if String.eqb tag "53" then
    {| categoryCode := categoryCode info; currency := Some value;
       countryCode := countryCode info; name := name info;
       city := city info; postalCode := postalCode info |}
  else if String.eqb tag "58" then
    {| categoryCode := categoryCode info; currency := currency info;
       countryCode := Some value; name := name info;
       city := city info; postalCode := postalCode info |}
  else if String.eqb tag "59" then
    {| categoryCode := categoryCode info; currency := currency info;
       countryCode := countryCode info; name := Some value;
       city := city info; postalCode := postalCode info |}
  else if String.eqb tag "60" then
    {| categoryCode := categoryCode info; currency := currency info;
       countryCode := countryCode info; name := name info;
       city := Some value; postalCode := postalCode info |}
  else if String.eqb tag "61" then
    {| categoryCode := categoryCode info; currency := currency info;
       countryCode := countryCode info; name := name info;
       city := city info; postalCode := Some value |}
  else info.

(** One pass of the body of [while (pos < qris.length - 4)]: [Break] is the
    [break] statement, [Next] the state after [pos += 4 + length]. *)
Inductive WalkStep : Type :=
| Break
| Next (pos : Z) (info : MerchantInfo).

Definition walkStep (qris : string) (pos : Z) (info : MerchantInfo) : WalkStep :=
  let tag := JS.slice qris pos (pos + 2) in
  let lengthStr := JS.slice qris (pos + 2) (pos + 4) in
  match JS.parseInt lengthStr with
  | None => Break
  | Some length =>
      if pos + 4 + length >? JS.len qris then Break
      else
        let value := JS.slice qris (pos + 4) (pos + 4 + length) in
        Next (pos + 4 + length) (store info tag value)
  end.

(** The loop.  [fuel] bounds the passes the model makes; [None] means that
    the fuel ran out before the loop ended. *)
Fixpoint walk (fuel : nat) (qris : string) (pos : Z) (info : MerchantInfo)
  : option MerchantInfo :=
  if pos <? JS.len qris - 4
  then match fuel with
       | O => None
       | S fuel' =>
           match walkStep qris pos info with
           | Break => Some info
           | Next pos' info' => walk fuel' qris pos' info'
           end
       end
  else Some info.

Definition invalidMessage : string := "Invalid QRIS format".

(** [parseQRIS]: [inr] is the message of the error it throws. *)
Definition parseQRIS (fuel : nat) (qris : string) : option (Parsed + string) :=
  if negb (validateQRIS qris) then Some (inr invalidMessage)
  else
    match walk fuel qris 6 noInfo with
    | Some info =>
        Some (inl {| valid := true;
                     type := if JS.startsWith qris "000201" then static else dynamic;
                     payloadFormat := JS.slice qris 4 6;
                     amount := extractAmount qris;
                     merchantInfo := info |})
    | None => None
    end.

(** The default of the parameter [merchantName]; the default of [amount] is
    [null], which is [AmountAbsent]. *)
Definition defaultMerchantName : string := "Test Merchant".

Definition generateSampleQRIS (merchantName : string) (amount : Amount) : string :=
  let qris := "000201" in
  let qris := qris ++ "010211" in
  let qris :=
    qris ++ "26580011ID.CO.QRIS.WWW0118ID20232109044804290215ID2023210904480429030403UMI" in
  let qris := qris ++ "51440014ID.CO.QRIS.WWW02150ID2023210904480429030403UMI" in
  let qris := qris ++ "52044812" in
  let qris := qris ++ "5303360" in
  let qris :=
    if amountFalsy amount then qris
    else
      let amountStr := amountToString amount in
      qris ++ "54" ++ JS.padStart0 (JS.numToString (JS.len amountStr)) 2 ++ amountStr in
  let qris := qris ++ "5802ID" in
  let merchantNameLength := JS.padStart0 (JS.numToString (JS.len merchantName)) 2 in
  let qris := qris ++ "59" ++ merchantNameLength ++ merchantName in
  let qris := qris ++ "6007Jakarta" in
  let crc := calculateCRC16 (qris ++ "6304") in
  qris ++ "6304" ++ crc.

End Parser.

(* ================================================================== *)
(** ** The request gate of [src/worker.js]: [handleRequest] *)
(* ================================================================== *)

Module Router.

(** What [handleRequest] reads of a request: the method, the path, and the
    header [x-api-key] ([None] when the header is absent). *)
Record Request : Type := {
  method : string;
  pathname : string;
  apiKey : option string
}.

Inductive Handler : Type :=
| Health
| Webhook
| Test
| GetNotifications
| GetDevices
| GetStats
| QRISConvert
| QRISValidate
| QRISGenerateForOrder
| WooCommercePaymentStatus
| WooCommercePaymentWebhook
| QRISUniqueAmount.

(** What becomes of a request: the bare answer to a preflight request, an
    error answer made by [handleRequest] itself, or the call of a handler,
    whose answer is passed on. *)
Inductive Answer : Type :=
| Preflight
| Refused (status : Z) (error : string)
| Handled (handler : Handler).

Definition defaultApiKey : string := "your-secret-api-key".

(** [env.API_KEY || 'your-secret-api-key']; [None] is an unset variable. *)
Definition requiredApiKey (envApiKey : option string) : string :=
  match envApiKey with
  | Some key => if (String.length key =? 0)%nat then defaultApiKey else key
  | None => defaultApiKey
  end.

(** [!apiKey || apiKey !== requiredApiKey] *)
Definition keyRejected (apiKey : option string) (required : string) : bool :=
  match apiKey with
  | Some key => (String.length key =? 0)%nat || negb (String.eqb key required)
  | None => true
  end.

Definition methodNotAllowed : Answer := Refused 405 "Method not allowed".

(** [if (method === m) handler else 405] *)
Definition allow (m : string) (handler : Handler) (req : Request) : Answer :=
  if String.eqb (method req) m then Handled handler else methodNotAllowed.

(** The [switch (pathname)]. *)
Definition route (req : Request) : Answer :=
  let path := pathname req in
  if String.eqb path "/health" then Handled Health
  else if String.eqb path "/webhook" then allow "POST" Webhook req
  else if String.eqb path "/test" then allow "POST" Test req
  else if String.eqb path "/notifications" then allow "GET" GetNotifications req
  else if String.eqb path "/devices" then allow "GET" GetDevices req
  else if String.eqb path "/stats" then allow "GET" GetStats req
  else if String.eqb path "/qris/convert" then allow "POST" QRISConvert req
  else if String.eqb path "/qris/validate" then allow "POST" QRISValidate req
  else if String.eqb path "/qris/generate-for-order"
       then allow "POST" QRISGenerateForOrder req
  else if JS.startsWith path "/woocommerce/payment-status/"
       then allow "GET" WooCommercePaymentStatus req
  else if String.eqb path "/woocommerce/payment-webhook"
       then allow "POST" WooCommercePaymentWebhook req
  else if JS.startsWith path "/qris/unique-amount/"
       then allow "GET" QRISUniqueAmount req
  else Refused 404 "Endpoint not found".

Definition handleRequest (req : Request) (envApiKey : option string) : Answer :=
  if String.eqb (method req) "OPTIONS" then Preflight
  else
    let requiredApiKey := requiredApiKey envApiKey in
    if negb (String.eqb (pathname req) "/health")
       && negb (String.eqb requiredApiKey defaultApiKey)
       && keyRejected (apiKey req) requiredApiKey
    then Refused 401 "Invalid or missing API key"
    else route req.

(** The method under which a handler is reached; [Health] is reached under
    every method but [OPTIONS]. *)
Definition methodOf (handler : Handler) : option string :=
  match handler with
  | Health => None
  | Webhook | Test | QRISConvert | QRISValidate | QRISGenerateForOrder
  | WooCommercePaymentWebhook => Some "POST"
  | GetNotifications | GetDevices | GetStats | WooCommercePaymentStatus
  | QRISUniqueAmount => Some "GET"
  end.

End Router.

(* ================================================================== *)
(** ** The request handlers that register and settle payments *)
(* ================================================================== *)

(** The handlers of [src/worker.js] ([handleWooCommercePaymentWebhook],
    [handleQRISGenerateForOrder], [handleQRISConvert], [handleQRISValidate],
    [handleQRISUniqueAmount], [handleWebhook]) and the routes of
    [qris-integration.js] that register a payment.  A handler is a function
    of the parsed request body and of the store.  The model covers bodies
    whose fields are JSON strings (or [null], or absent: [None]); the
    statements that bind an absent value are left to bodies that give it. *)
Module Handlers.

Import Converter.

(** A row of [notifications], with the columns that [handleWebhook]
    writes. *)
Record Notification : Type := {
  n_id : Z;
  n_device_id : option string;
  n_package_name : option string;
  n_app_name : option string;
  n_posted_at : option string;
  n_title : option string;
  n_text : option string;
  n_sub_text : option string;
  n_big_text : option string;
  n_channel_id : option string;
  n_notification_id : option Z;
  n_amount_detected : option string;
  n_extras : option string;
  n_created_at : Z
}.

(** A row of [devices]. *)
Record Device : Type := {
  d_device_id : string;
  d_last_seen : Z;
  d_total_notifications : Z
}.

(** The tables.  [sequence] and [notificationSequence] are the largest row
    ids that [AUTOINCREMENT] has given out in [payment_expectations] and in
    [notifications]. *)
Record Store : Type := {
  expectations : Matcher.Table;
  sequence : Z;
  reservations : Allocator.Table;
  notifications : list Notification;
  notificationSequence : Z;
  devices : list Device
}.

Definition withReservations (st : Store) (db : Allocator.Table) : Store :=
  {| expectations := expectations st;
     sequence := sequence st;
     reservations := db;
     notifications := notifications st;
     notificationSequence := notificationSequence st;
     devices := devices st |}.

Definition withExpectations (st : Store) (db : Matcher.Table) : Store :=
  {| expectations := db;
     sequence := sequence st;
     reservations := reservations st;
     notifications := notifications st;
     notificationSequence := notificationSequence st;
     devices := devices st |}.

(** [createJsonResponse(data)] with [success: true], or
    [createJsonResponse({ success: false, error }, status)]. *)
Inductive Reply (A : Type) : Type :=
| Ok (data : A)
| Failed (status : Z) (error : string).

Arguments Ok {A} data.
Arguments Failed {A} status error.

(** [!x] of a field. *)
Definition missing (x : option string) : bool := negb (Matcher.truthy x).

(** [x || null] *)
Definition orNull (x : option string) : option string :=
  if Matcher.truthy x then x else None.

(** [(parseInt(amount) + parseInt(uniqueAmount)).toString()] *)
Definition combine (amount uniqueAmount : string) : string :=
  JS.numberToString
    (JS.addNumbers (JS.toNumber (JS.parseIntAuto amount))
       (JS.toNumber (JS.parseIntAuto uniqueAmount))).

(** *** The table [payment_expectations] as the handlers write it *)

(** The row id that [AUTOINCREMENT] gives next: one more than the largest
    id that the table holds or has held. *)
Definition nextId (st : Store) : Z :=
  1 + fold_right Z.max (sequence st) (List.map Matcher.id (expectations st)).

Definition otherOrder (orderRef : string) (e : Matcher.Expectation) : bool :=
  negb (String.eqb (Matcher.order_reference e) orderRef).

(** The row of [VALUES (?, ?, ?, ?, ?, ?, 'pending')]. *)
Definition pendingRow (rowId : Z) (orderRef combinedAmount uniqueAmount
    originalAmount : string) (callbackUrl : option string) (now : Z)
  : Matcher.Expectation :=
  {| Matcher.id := rowId;
     Matcher.order_reference := orderRef;
     Matcher.expected_amount := combinedAmount;
     Matcher.unique_amount := Some uniqueAmount;
     Matcher.original_amount := Some originalAmount;
     Matcher.callback_url := callbackUrl;
     Matcher.status := Matcher.pending;
     Matcher.created_at := now;
     Matcher.completed_at := None |}.

(** [INSERT OR REPLACE INTO payment_expectations (...)]: the column
    [order_reference] is [UNIQUE], so a stored row of the order is deleted
    before the new row is inserted.  The result holds [last_row_id]. *)
Definition insertOrReplace (st : Store) (orderRef combinedAmount uniqueAmount
    originalAmount : string) (callbackUrl : option string) (now : Z)
  : Store * Z :=
  let rowId := nextId st in
  ({| expectations :=
        (filter (otherOrder orderRef) (expectations st)
         ++ [pendingRow rowId orderRef combinedAmount uniqueAmount originalAmount
               callbackUrl now])%list;
      sequence := rowId;
      reservations := reservations st;
      notifications := notifications st;
      notificationSequence := notificationSequence st;
      devices := devices st |},
   rowId).

(** [SELECT ... FROM payment_expectations WHERE order_reference = ?
    ORDER BY created_at DESC LIMIT 1] *)
Definition ofOrder (orderRef : string) (e : Matcher.Expectation) : bool :=
  String.eqb (Matcher.order_reference e) orderRef.

Definition lookupOrder (db : Matcher.Table) (orderRef : string)
  : option Matcher.Expectation :=
  List.hd_error (Matcher.orderByCreatedDesc (filter (ofOrder orderRef) db)).

(** The times at which a registration reads the clock: for the statements
    of [generateUniqueAmount], and for [created_at]. *)
Record RegisterClock : Type := {
  t_allocate : Z;
  t_insert : Z
}.

(** *** Registering a payment *)

(** The body of [POST /woocommerce/payment-webhook]; [useUniqueAmount] is
    the truth value of the field, [true] when the field is absent. *)
Record ExpectationBody : Type := {
  wc_orderRef : option string;
  wc_expectedAmount : option string;
  wc_callbackUrl : option string;
  wc_useUniqueAmount : bool
}.

(** The fields of its answer; the last three are there when a unique
    amount was used. *)
Record Registered : Type := {
  reg_order_reference : string;
  reg_expected_amount : string;
  reg_id : Z;
  reg_original_amount : option string;
  reg_unique_amount : option string;
  reg_combined_amount : option string
}.

(** The body of [POST /qris/generate-for-order]. *)
Record OrderBody : Type := {
  go_staticQRIS : option string;
  go_originalAmount : option string;
  go_orderRef : option string;
  go_callbackUrl : option string;
  go_serviceFee : option ServiceFee
}.

Record Generated : Type := {
  gen_order_reference : string;
  gen_dynamic_qris : string;
  gen_combined_amount : string;
  gen_unique_amount : string;
  gen_original_amount : string;
  gen_amount_for_payment : string;
  gen_payment_expectation_id : Z
}.

(** The body of [POST /qris/convert]. *)
Record ConvertBody : Type := {
  cv_staticQRIS : option string;
  cv_amount : option string;
  cv_serviceFee : option ServiceFee;
  cv_orderRef : option string
}.

(** The fields of its answer; the last four are there when an order
    reference was given. *)
Record Converted : Type := {
  cvd_staticQRIS : string;
  cvd_dynamicQRIS : string;
  cvd_amount : string;
  cvd_original_amount : option string;
  cvd_unique_amount : option string;
  cvd_combined_amount : option string;
  cvd_order_reference : option string
}.

Section Build.

(** [generateUniqueAmount(db, orderRef)] of the build, at a time of the
    clock; [None] means that the model of its loop ran out of fuel. *)
Variable generateUniqueAmount :
  Allocator.Table -> string -> Z -> option Allocator.Finished.

(** [handleWooCommercePaymentWebhook], and the route
    [/woocommerce/payment-webhook] of [qris-integration.js]. *)
Definition handleWooCommercePaymentWebhook (st : Store) (body : ExpectationBody)
    (clock : RegisterClock) : option (Store * Reply Registered) :=
  if missing (wc_orderRef body) || missing (wc_expectedAmount body)
  then Some (st, Failed 400 "Missing required fields: orderRef, expectedAmount")
  else
    let orderRef := Matcher.orEmpty (wc_orderRef body) in
    let expectedAmount := Matcher.orEmpty (wc_expectedAmount body) in
    let callbackUrl := wc_callbackUrl body in
    if wc_useUniqueAmount body then
      match generateUniqueAmount (reservations st) orderRef (t_allocate clock) with
      | None => None
      | Some finished =>
          let st := withReservations st (Allocator.final_table finished) in
          match Allocator.outcome finished with
          | Thrown message =>
              Some (st, Failed 500 ("Failed to generate unique amount: " ++ message))
          | Returned uniqueAmount =>
              let combinedAmount := combine expectedAmount uniqueAmount in
              let '(st, lastRowId) :=
                insertOrReplace st orderRef combinedAmount uniqueAmount
                  expectedAmount callbackUrl (t_insert clock) in
              Some (st, Ok {| reg_order_reference := orderRef;
                              reg_expected_amount := combinedAmount;
                              reg_id := lastRowId;
                              reg_original_amount := Some expectedAmount;
                              reg_unique_amount := Some uniqueAmount;
                              reg_combined_amount := Some combinedAmount |})
          end
      end
    else
      let uniqueAmount := expectedAmount in
      let combinedAmount := expectedAmount in
      let '(st, lastRowId) :=
        insertOrReplace st orderRef combinedAmount uniqueAmount expectedAmount
          callbackUrl (t_insert clock) in
      Some (st, Ok {| reg_order_reference := orderRef;
                      reg_expected_amount := combinedAmount;
                      reg_id := lastRowId;
                      reg_original_amount := None;
                      reg_unique_amount := None;
                      reg_combined_amount := None |}).

(** [handleQRISGenerateForOrder], and the route [/qris/generate-for-order]
    of [qris-integration.js].  An error thrown by [generateUniqueAmount] or
    by [convertStaticToDynamic] reaches the [catch] block, which answers
    500 with the message of the error. *)
Definition handleQRISGenerateForOrder (st : Store) (body : OrderBody)
    (clock : RegisterClock) : option (Store * Reply Generated) :=
  if missing (go_staticQRIS body) || missing (go_originalAmount body)
     || missing (go_orderRef body)
  then Some (st, Failed 400
                   "Missing required fields: staticQRIS, originalAmount, orderRef")
  else
    let staticQRIS := Matcher.orEmpty (go_staticQRIS body) in
    let originalAmount := Matcher.orEmpty (go_originalAmount body) in
    let orderRef := Matcher.orEmpty (go_orderRef body) in
    if negb (validateQRIS staticQRIS)
    then Some (st, Failed 400 "Invalid QRIS format")
    else
      match generateUniqueAmount (reservations st) orderRef (t_allocate clock) with
      | None => None
      | Some finished =>
          let st := withReservations st (Allocator.final_table finished) in
          match Allocator.outcome finished with
          | Thrown message => Some (st, Failed 500 message)
          | Returned uniqueAmount =>
              let combinedAmount := combine originalAmount uniqueAmount in
              match convertStaticToDynamic (Some staticQRIS)
                      (AmountString combinedAmount) (go_serviceFee body) with
              | Thrown message => Some (st, Failed 500 message)
              | Returned dynamicQRIS =>
                  let '(st, lastRowId) :=
                    insertOrReplace st orderRef combinedAmount uniqueAmount
                      originalAmount (go_callbackUrl body) (t_insert clock) in
                  Some (st, Ok {| gen_order_reference := orderRef;
                                  gen_dynamic_qris := dynamicQRIS;
                                  gen_combined_amount := combinedAmount;
                                  gen_unique_amount := uniqueAmount;
                                  gen_original_amount := originalAmount;
                                  gen_amount_for_payment := combinedAmount;
                                  gen_payment_expectation_id := lastRowId |})
              end
          end
      end.

(** [handleQRISConvert] of [src/worker.js]: the conversion has a [try]
    block of its own, whose [catch] answers 400. *)
Definition handleQRISConvert (st : Store) (body : ConvertBody) (now : Z)
  : option (Store * Reply Converted) :=
  if missing (cv_staticQRIS body) || missing (cv_amount body)
  then Some (st, Failed 400 "Missing required fields: staticQRIS, amount")
  else
    let staticQRIS := Matcher.orEmpty (cv_staticQRIS body) in
    let amount := Matcher.orEmpty (cv_amount body) in
    if negb (validateQRIS staticQRIS)
    then Some (st, Failed 400 "Invalid QRIS format - failed validation")
    else
      let convert (st : Store) (combinedAmount : string)
          (unique : option string) :=
        match convertStaticToDynamic (Some staticQRIS)
                (AmountString combinedAmount) (cv_serviceFee body) with
        | Thrown message =>
            Some (st, Failed 400 ("QRIS conversion failed: " ++ message))
        | Returned dynamicQRIS =>
            Some (st, Ok {| cvd_staticQRIS := staticQRIS;
                            cvd_dynamicQRIS := dynamicQRIS;
                            cvd_amount := combinedAmount;
                            cvd_original_amount :=
                              match unique with Some _ => Some amount | None => None end;
                            cvd_unique_amount := unique;
                            cvd_combined_amount :=
                              match unique with
                              | Some _ => Some combinedAmount
                              | None => None
                              end;
                            cvd_order_reference :=
                              match unique with
                              | Some _ => cv_orderRef body
                              | None => None
                              end |})
        end in
      if Matcher.truthy (cv_orderRef body) then
        let orderRef := Matcher.orEmpty (cv_orderRef body) in
        match generateUniqueAmount (reservations st) orderRef now with
        | None => None
        | Some finished =>
            let st := withReservations st (Allocator.final_table finished) in
            match Allocator.outcome finished with
            | Thrown message =>
                Some (st, Failed 500 ("Failed to generate unique amount: " ++ message))
            | Returned uniqueAmount =>
                convert st (combine amount uniqueAmount) (Some uniqueAmount)
            end
        end
      else convert st amount None.

End Build.

(** [handleQRISValidate] *)
Record Validated : Type := {
  val_valid : bool;
  val_type : Parser.QrisType;
  val_amount : option string
}.

Definition handleQRISValidate (qris : option string) : Reply Validated :=
  if missing qris then Failed 400 "Missing QRIS code"
  else
    let qris := Matcher.orEmpty qris in
    Ok {| val_valid := validateQRIS qris;
          val_type := if JS.includes qris "010212"
                      then Parser.dynamic else Parser.static;
          val_amount := extractAmount qris |}.

(** [handleQRISUniqueAmount]: the order reference is the last part of
    [url.pathname], the path as the URL holds it (percent-encoded); the
    handler does not decode it. *)
Record OrderAmounts : Type := {
  oa_order_reference : string;
  oa_unique_amount : option string;
  oa_original_amount : option string;
  oa_status : Matcher.Status;
  oa_created_at : Z
}.

Definition lastPart (pathname : string) : string :=
  List.last (JS.split pathname "/") EmptyString.

Definition handleQRISUniqueAmount (st : Store) (pathname : string)
  : Reply OrderAmounts :=
  let orderRef := lastPart pathname in
  match lookupOrder (expectations st) orderRef with
  | None => Failed 404 "Order not found"
  | Some row =>
      Ok {| oa_order_reference := orderRef;
            oa_unique_amount := Matcher.unique_amount row;
            oa_original_amount := Matcher.original_amount row;
            oa_status := Matcher.status row;
            oa_created_at := Matcher.created_at row |}
  end.

(** *** Receiving a notification: [handleWebhook] *)

(** The body of [POST /webhook], for a notification whose [title] and
    [text] are strings.  [extras] stands for the JSON text of the object. *)
Record NotificationBody : Type := {
  nb_deviceId : option string;
  nb_packageName : option string;
  nb_appName : option string;
  nb_postedAt : option string;
  nb_title : string;
  nb_text : string;
  nb_subText : option string;
  nb_bigText : option string;
  nb_channelId : option string;
  nb_notificationId : option Z;
  nb_amountDetected : option string;
  nb_extras : option string
}.

(** The times at which [handleWebhook] reads the clock: [timestamp], the
    insert of the notification, and the statements of [checkPaymentMatch]. *)
Record WebhookClock : Type := {
  t_received : Z;
  t_stored : Z;
  t_match : Matcher.Clock
}.

Record Received : Type := {
  rc_id : Z;
  rc_timestamp : Z
}.

(** [INSERT OR REPLACE INTO devices (device_id, last_seen,
    total_notifications) VALUES (?, ?, COALESCE((SELECT total_notifications
    FROM devices WHERE device_id = ?) + 1, 1))]; [device_id] is [UNIQUE]. *)
Definition isDevice (deviceId : string) (d : Device) : bool :=
  String.eqb (d_device_id d) deviceId.

Definition countOf (rows : list Device) (deviceId : string) : Z :=
  match find (isDevice deviceId) rows with
  | Some d => d_total_notifications d + 1
  | None => 1
  end.

Definition upsertDevice (rows : list Device) (deviceId : string) (timestamp : Z)
  : list Device :=
  (filter (fun d => negb (isDevice deviceId d)) rows
   ++ [{| d_device_id := deviceId;
          d_last_seen := timestamp;
          d_total_notifications := countOf rows deviceId |}])%list.

Definition nextNotificationId (st : Store) : Z :=
  1 + fold_right Z.max (notificationSequence st) (List.map n_id (notifications st)).

(** [x || null] of a string and of a number. *)
Definition textOrNull (x : string) : option string :=
  if (String.length x =? 0)%nat then None else Some x.

Definition numberOrNull (x : option Z) : option Z :=
  match x with
  | Some n => if n =? 0 then None else Some n
  | None => None
  end.

Definition handleWebhook (st : Store) (body : NotificationBody)
    (clock : WebhookClock)
  : Store * list Matcher.Callback * Reply Received :=
  if missing (nb_deviceId body) || missing (nb_packageName body)
  then (st, [], Failed 400 "Missing required fields: deviceId, packageName")
  else
    let deviceId := Matcher.orEmpty (nb_deviceId body) in
    let timestamp := t_received clock in
    let lastRowId := nextNotificationId st in
    let row :=
      {| n_id := lastRowId;
         n_device_id := orNull (nb_deviceId body);
         n_package_name := orNull (nb_packageName body);
         n_app_name := orNull (nb_appName body);
         n_posted_at := orNull (nb_postedAt body);
         n_title := textOrNull (nb_title body);
         n_text := textOrNull (nb_text body);
         n_sub_text := orNull (nb_subText body);
         n_big_text := orNull (nb_bigText body);
         n_channel_id := orNull (nb_channelId body);
         n_notification_id := numberOrNull (nb_notificationId body);
         n_amount_detected := orNull (nb_amountDetected body);
         n_extras := orNull (nb_extras body);
         n_created_at := t_stored clock |} in
    let '(matched, callbacks) :=
      if Matcher.truthy (nb_amountDetected body)
      then Matcher.Worker.checkPaymentMatch (expectations st)
             (nb_text body) (nb_title body) (nb_bigText body)
             (Matcher.orEmpty (nb_amountDetected body)) (t_match clock)
      else (expectations st, []) in
    ({| expectations := matched;
        sequence := sequence st;
        reservations := reservations st;
        notifications := (notifications st ++ [row])%list;
        notificationSequence := lastRowId;
        devices := upsertDevice (devices st) deviceId timestamp |},
     callbacks,
     Ok {| rc_id := lastRowId; rc_timestamp := timestamp |}).

(** The two builds. *)
Module Worker.

Definition handleWooCommercePaymentWebhook (random : nat -> Z) (fuel : nat) :=
  handleWooCommercePaymentWebhook (Allocator.Worker.generateUniqueAmount random fuel).

Definition handleQRISGenerateForOrder (random : nat -> Z) (fuel : nat) :=
  handleQRISGenerateForOrder (Allocator.Worker.generateUniqueAmount random fuel).

Definition handleQRISConvert (random : nat -> Z) (fuel : nat) :=
  handleQRISConvert (Allocator.Worker.generateUniqueAmount random fuel).

End Worker.

Module Node.

Definition handleWooCommercePaymentWebhook (random : nat -> Z) (fuel : nat) :=
  handleWooCommercePaymentWebhook (Allocator.Node.generateUniqueAmount random fuel).

Definition handleQRISGenerateForOrder (random : nat -> Z) (fuel : nat) :=
  handleQRISGenerateForOrder (Allocator.Node.generateUniqueAmount random fuel).

End Node.

End Handlers.

(* ================================================================== *)
(** ** The CRC-16/CCITT-FALSE checksum as the specification words it *)
(* ================================================================== *)

Module CRC16Spec.

(** A 16-bit register: when the top bit is set, shift left one bit and XOR
    with the polynomial [0x1021]; otherwise shift left one bit. *)
Definition shiftStep (reg : Z) : Z :=
  if Z.testbit reg 15
  then Z.lxor ((2 * reg) mod 2 ^ 16) 0x1021
  else (2 * reg) mod 2 ^ 16.

(** XOR the byte into the high byte of the register, then eight steps. *)
Definition feedByte (reg : Z) (byte : Z) : Z :=
  Nat.iter 8 shiftStep (Z.lxor reg (byte * 2 ^ 8)).

Definition feed (input : string) (reg : Z) : Z :=
  JS.forChars (fun reg ch => feedByte reg (JS.charCode ch)) input reg.

(** Initial register [0xFFFF], no final XOR. *)
Definition crc16 (input : string) : Z := feed input 0xFFFF.

End CRC16Spec.

(* ================================================================== *)
(** ** Sample payloads *)
(* ================================================================== *)

Module Samples.

(** The static payload of [test-qris-fixed.js] and [test-crc.php]. *)
Definition sampleStatic : string :=
  "00020101021126570011ID.DANA.WWW011893600915302259148102090225914810303UMI51440014ID.CO.QRIS.WWW0215ID10200176114730303UMI5204581253033605802ID5922Warung Sayur Bu Sugeng6010Kab. Demak610559567630458C7".

(** The same merchant with the category code 5411 (grocery stores) in field
    52, and the trailer of that payload. *)
Definition groceryStatic : string :=
  "00020101021126570011ID.DANA.WWW011893600915302259148102090225914810303UMI51440014ID.CO.QRIS.WWW0215ID10200176114730303UMI5204541153033605802ID5922Warung Sayur Bu Sugeng6010Kab. Demak6105595676304C2F1".

(** [sampleStatic] with another digit after the prefix [00020]. *)
Definition otherIndicator : string :=
  "00020201021126570011ID.DANA.WWW011893600915302259148102090225914810303UMI51440014ID.CO.QRIS.WWW0215ID10200176114730303UMI5204581253033605802ID5922Warung Sayur Bu Sugeng6010Kab. Demak610559567630458C7".

(** An order of 50000 with the unique amount 123. *)
Definition order1 : Matcher.Expectation :=
  {| Matcher.id := 1;
     Matcher.order_reference := "ORDER_1";
     Matcher.expected_amount := "50123";
     Matcher.unique_amount := Some "123";
     Matcher.original_amount := Some "50000";
     Matcher.callback_url := Some "https://shop.example/wc-api/qris";
     Matcher.status := Matcher.pending;
     Matcher.created_at := 1000;
     Matcher.completed_at := None |}.

(** A second order that expects the same amount. *)
Definition order2 : Matcher.Expectation :=
  {| Matcher.id := 2;
     Matcher.order_reference := "ORDER_2";
     Matcher.expected_amount := "50123";
     Matcher.unique_amount := None;
     Matcher.original_amount := None;
     Matcher.callback_url := None;
     Matcher.status := Matcher.pending;
     Matcher.created_at := 1060;
     Matcher.completed_at := None |}.

(** An order whose expected amount is no number: [CAST('abc' AS INTEGER)]
    is 0 in the store, [parseInt('abc', 10)] is [NaN] in the code. *)
Definition order3 : Matcher.Expectation :=
  {| Matcher.id := 3;
     Matcher.order_reference := "ORDER_3";
     Matcher.expected_amount := "abc";
     Matcher.unique_amount := None;
     Matcher.original_amount := None;
     Matcher.callback_url := Some "https://shop.example/wc-api/qris";
     Matcher.status := Matcher.pending;
     Matcher.created_at := 1050;
     Matcher.completed_at := None |}.

Definition sampleClock : Matcher.Clock :=
  {| Matcher.t_select := 1100;
     Matcher.t_count := 1101;
     Matcher.t_update := 1102;
     Matcher.t_notify := 1103 |}.

(** An order of 70000 that stores 50123 as its original amount. *)
Definition order9 : Matcher.Expectation :=
  {| Matcher.id := 9;
     Matcher.order_reference := "ORDER_9";
     Matcher.expected_amount := "70000";
     Matcher.unique_amount := None;
     Matcher.original_amount := Some "50123";
     Matcher.callback_url := Some "https://shop.example/wc-api/qris";
     Matcher.status := Matcher.pending;
     Matcher.created_at := 1040;
     Matcher.completed_at := None |}.

(** Instants of 4 October 2024 (UTC), in seconds since the epoch: the
    day begins at [midnight]. *)
Definition midnight : Z := 1728000000.

Definition atClock (hours minutes : Z) : Z := midnight + hours * 3600 + minutes * 60.

(** A table of reservations: one that is active for another order, made
    at 01:00, and one that ended at 23:00 of the day before. *)
Definition sampleReservations : Allocator.Table :=
  [ Allocator.newReservation "042" "ORDER_7" (atClock 1 0) (atClock 2 0);
    Allocator.newReservation "117" "ORDER_3" (atClock (-2) 0) (atClock (-1) 0) ].

(** Two orders that expect the same amount, registered ten minutes before
    midnight and nine minutes after it, and a notification that arrives ten
    minutes after midnight. *)
Definition orderBeforeMidnight : Matcher.Expectation :=
  {| Matcher.id := 1;
     Matcher.order_reference := "ORDER_1";
     Matcher.expected_amount := "50123";
     Matcher.unique_amount := Some "123";
     Matcher.original_amount := Some "50000";
     Matcher.callback_url := Some "https://shop.example/wc-api/qris";
     Matcher.status := Matcher.pending;
     Matcher.created_at := atClock 0 (-10);
     Matcher.completed_at := None |}.

Definition orderAfterMidnight : Matcher.Expectation :=
  {| Matcher.id := 2;
     Matcher.order_reference := "ORDER_2";
     Matcher.expected_amount := "50123";
     Matcher.unique_amount := None;
     Matcher.original_amount := None;
     Matcher.callback_url := None;
     Matcher.status := Matcher.pending;
     Matcher.created_at := atClock 0 9;
     Matcher.completed_at := None |}.

Definition midnightClock : Matcher.Clock :=
  {| Matcher.t_select := atClock 0 10;
     Matcher.t_count := atClock 0 10;
     Matcher.t_update := atClock 0 10;
     Matcher.t_notify := atClock 0 10 |}.


(** A random source that yields 41, then 116, then 6 again and again. *)
Definition sampleRandom (k : nat) : Z :=
  match k with
  | O => 41
  | S O => 116
  | _ => 6
  end.

End Samples.

(* ================================================================== *)
(** ** Properties the statements below are phrased with *)
(* ================================================================== *)

Module Properties.

Import Converter.

(** [s] begins with [p]. *)
Definition beginsWith (s p : string) : Prop := exists rest, s = p ++ rest.

(** [s] contains [p]. *)
Definition contains (s p : string) : Prop :=
  exists before after, s = before ++ p ++ after.


(** The payload with its last four characters removed. *)
Definition withoutTrailer (payload : string) : string :=
  JS.substring payload 0 (JS.len payload - 4).

(** The last four characters of the payload. *)
Definition trailer (payload : string) : string :=
  JS.drop (String.length payload - 4) payload.

(** [v.toString(16).toUpperCase()] *)
Definition hexUpper (v : Z) : string := JS.toUpperCase (JS.toString16 v).

(** The padding of [calculateCRC16]: only a three-character value gets a
    leading zero. *)
Definition padThree (hex : string) : string :=
  if (String.length hex =? 3)%nat then "0" ++ hex else hex.

(** [v] is two digits with the value [n]. *)
Definition twoDigitsOf (n : Z) (v : string) : bool :=
  match v with
  | String d1 (String d2 EmptyString) =>
      JS.isDigit d1 && JS.isDigit d2
      && match JS.parseInt v with Some m => m =? n | None => false end
  | _ => false
  end.

(** What [formatLength] makes of a length. *)
Definition formatLengthOf (n : Z) : string :=
  let length := JS.numToString n in
  if (String.length length =? 1)%nat then "0" ++ length else length.






(** The five ways through [convertStaticToDynamic]. *)
Inductive ConvertCase (staticQRIS : option string) (amount : Amount)
    (serviceFee : option ServiceFee) : Outcome -> Prop :=
| CaseRequired :
    qrisFalsy staticQRIS || amountFalsy amount = true ->
    ConvertCase staticQRIS amount serviceFee
      (Thrown (failurePrefix ++ requiredMessage))
| CaseFormat :
    qrisFalsy staticQRIS = false -> amountFalsy amount = false ->
    JS.isDigitString (amountToString amount) = false ->
    ConvertCase staticQRIS amount serviceFee
      (Thrown (failurePrefix ++ formatMessage))
| CaseStructure s :
    staticQRIS = Some s -> amountFalsy amount = false ->
    JS.isDigitString (amountToString amount) = true ->
    List.length (sentinelParts s) <> 2%nat ->
    ConvertCase staticQRIS amount serviceFee
      (Thrown (failurePrefix ++ structureMessage))
| CaseFee s part0 part1 message :
    staticQRIS = Some s -> amountFalsy amount = false ->
    JS.isDigitString (amountToString amount) = true ->
    sentinelParts s = [part0; part1] ->
    buildAmountField (amountToString amount) serviceFee = inr message ->
    ConvertCase staticQRIS amount serviceFee (Thrown (failurePrefix ++ message))
| CaseReturned s part0 part1 amountField :
    staticQRIS = Some s -> s <> EmptyString -> amountFalsy amount = false ->
    JS.isDigitString (amountToString amount) = true ->
    sentinelParts s = [part0; part1] ->
    buildAmountField (amountToString amount) serviceFee = inl amountField ->
    ConvertCase staticQRIS amount serviceFee
      (Returned
         (let qrisWithAmount := part0 ++ amountField ++ part1 in
          qrisWithAmount ++ calculateCRC16 qrisWithAmount)).

(** The expectation is pending, expects the detected amount and passes the
    five-minute test of the queries at [now]. *)
Definition pendingWithAmount (amountDetected : string) (now : Z)
    (e : Matcher.Expectation) : Prop :=
  Matcher.status e = Matcher.pending
  /\ Matcher.amountEquals (Some (Matcher.expected_amount e)) amountDetected
       (Matcher.normalize amountDetected) = true
  /\ Matcher.within 5 now e = true.

(** The expectation is pending, expects the detected amount and was
    created less than five minutes before [now]. *)
Definition recentlyPending (amountDetected : string) (now : Z)
    (e : Matcher.Expectation) : Prop :=
  Matcher.status e = Matcher.pending
  /\ Matcher.amountEquals (Some (Matcher.expected_amount e)) amountDetected
       (Matcher.normalize amountDetected) = true
  /\ now - 5 * 60 < Matcher.created_at e.

(** No pending expectation that holds the detected amount in one of its
    amount columns has its order reference in the search text. *)
Definition unmentioned (db : Matcher.Table) (searchText amountDetected : string)
  : Prop :=
  forall e,
    In e db ->
    Matcher.status e = Matcher.pending ->
    Matcher.Node.anyAmountEquals amountDetected
      (Matcher.normalize amountDetected) e = true ->
    Matcher.mentions searchText e = false.

(** The three comparisons of [markPaymentCompleted], in their order: the
    detected amount equals, after normalization, the expected amount, or
    else a stored original amount, or else a stored unique amount. *)
Definition accepted (e : Matcher.Expectation) (amountDetected : string) : Prop :=
  let detected := Matcher.normalize amountDetected in
  let expected := Matcher.normalize (Matcher.expected_amount e) in
  let original :=
    Matcher.normalize
      (if Matcher.truthy (Matcher.original_amount e)
       then Matcher.orEmpty (Matcher.original_amount e) else "0") in
  let unique :=
    Matcher.normalize
      (if Matcher.truthy (Matcher.unique_amount e)
       then Matcher.orEmpty (Matcher.unique_amount e) else "0") in
  detected = expected
  \/ (detected <> expected /\ detected = original
      /\ Matcher.truthy (Matcher.original_amount e) = true)
  \/ (detected <> expected /\ detected <> original /\ detected = unique
      /\ Matcher.truthy (Matcher.unique_amount e) = true).

End Properties.

(* ================================================================== *)
(** ** Tag-length-value fields, to phrase what [parseQRIS] reads *)
(* ================================================================== *)

Module Tlv.

Import Converter Parser.

(** A field: its tag and its value. *)
Definition Field : Type := (string * string)%type.

(** A two-character tag and a value of at most 99 characters, the lengths
    that two digits can state. *)
Definition wellFormed (f : Field) : Prop :=
  String.length (fst f) = 2%nat /\ JS.len (snd f) <= 99.

(** The field as it stands in a payload: the tag, the length as
    [formatLength] writes it, the value. *)
Definition encodeField (f : Field) : string :=
  fst f ++ formatLength (snd f) ++ snd f.

Fixpoint encode (fields : list Field) : string :=
  match fields with
  | [] => EmptyString
  | f :: rest => encodeField f ++ encode rest
  end.

(** What the kept tags of a sequence of fields say, a later field
    overriding an earlier one with the same tag. *)
Definition collectFrom (info : MerchantInfo) (fields : list Field) : MerchantInfo :=
  fold_left (fun acc f => store acc (fst f) (snd f)) fields info.

Definition collect (fields : list Field) : MerchantInfo := collectFrom noInfo fields.

(** The string holds no minus sign. *)
Definition noMinus (s : string) : Prop := JS.includes s "-" = false.

(** The constant start of every generated sample, up to the currency
    field. *)
Definition sampleHead : string :=
  "00020101021126580011ID.CO.QRIS.WWW0118ID20232109044804290215ID2023210904480429030403UMI51440014ID.CO.QRIS.WWW02150ID2023210904480429030403UMI520448125303360".

(** The amount field of a generated sample. *)
Definition sampleAmountField (amt : Amount) : string :=
  if amountFalsy amt then EmptyString
  else "54" ++ JS.padStart0 (JS.numToString (JS.len (amountToString amt))) 2
       ++ amountToString amt.

(** A generated sample without its checksum field. *)
Definition sampleBody (merchantName : string) (amt : Amount) : string :=
  sampleHead ++ sampleAmountField amt ++ "5802ID59"
  ++ JS.padStart0 (JS.numToString (JS.len merchantName)) 2 ++ merchantName
  ++ "6007Jakarta".

(** [formatLength] writes the length [n] as two characters that [parseInt]
    reads back. *)
Definition lengthRead (n : Z) : bool :=
  (String.length (Properties.formatLengthOf n) =? 2)%nat
  && match JS.parseInt (Properties.formatLengthOf n) with
     | Some m => m =? n
     | None => false
     end.

(** [n.toString().padStart(2, '0')] has two characters and is what
    [formatLength] writes for a string of [n] characters. *)
Definition twoPadded (n : Z) : bool :=
  (String.length (JS.padStart0 (JS.numToString n) 2) =? 2)%nat
  && String.eqb (JS.padStart0 (JS.numToString n) 2) (Properties.formatLengthOf n).

(** The checksum text of a register value has at most four characters. *)
Definition atMostFour (v : Z) : bool :=
  (String.length (Properties.padThree (Properties.hexUpper v)) <=? 4)%nat.

(** The fields of [Samples.sampleStatic] between its header and its
    checksum field. *)
Definition sampleFields : list Field :=
  [ ("01", "11");
    ("26", "0011ID.DANA.WWW011893600915302259148102090225914810303UMI");
    ("51", "0014ID.CO.QRIS.WWW0215ID10200176114730303UMI");
    ("52", "5812");
    ("53", "360");
    ("58", "ID");
    ("59", "Warung Sayur Bu Sugeng");
    ("60", "Kab. Demak");
    ("61", "59567") ].

(** [Samples.sampleStatic] with the length of its first field overwritten
    by [-4]. *)
Definition minusLength : string :=
  "00020101-41126570011ID.DANA.WWW011893600915302259148102090225914810303UMI51440014ID.CO.QRIS.WWW0215ID10200176114730303UMI5204581253033605802ID5922Warung Sayur Bu Sugeng6010Kab. Demak610559567630458C7".

End Tlv.

(* ================================================================== *)
(** ** Properties of the store, to phrase what the handlers keep *)
(* ================================================================== *)

Module Ledger.

Import Matcher Handlers.

(** The table [after] is the table [before] with the rows of the order of
    [row] replaced by [row] alone, whose id is larger than every id of
    [before]. *)
Definition replacesOrder (before after : Table) (row : Expectation) : Prop :=
  In row after
  /\ (forall e, In e after -> order_reference e = order_reference row -> e = row)
  /\ (forall e, order_reference e <> order_reference row ->
                (In e after <-> In e before))
  /\ (forall e, In e before -> id e < id row).

(** No two rows share an id or an order reference, and no id exceeds the
    sequence. *)
Definition wellKeyed (st : Store) : Prop :=
  NoDup (List.map id (expectations st))
  /\ NoDup (List.map order_reference (expectations st))
  /\ forall e, In e (expectations st) -> id e <= sequence st.


(** The two answers of a registration that asks for a unique amount: the
    pool is exhausted and no expectation is written, or the expectation is
    registered for the amount plus a three-digit value between 1 and 200. *)
Definition registrationAnswer (amount : string) (before after : Store)
    (reply : Reply Registered) : Prop :=
  (reply = Failed 500 "Failed to generate unique amount: No unique amounts available"
   /\ expectations after = expectations before)
  \/ exists r uniqueAmount a n,
       reply = Ok r
       /\ reg_unique_amount r = Some uniqueAmount
       /\ String.length uniqueAmount = 3%nat
       /\ JS.parseInt amount = Some a
       /\ JS.parseInt uniqueAmount = Some n
       /\ 1 <= n <= 200
       /\ reg_expected_amount r = JS.numToString (a + n).


(** The notifications of a device that the table holds, and the count that
    the table [devices] states for it (0 without a row). *)
Definition fromDevice (deviceId : string) (n : Notification) : bool :=
  match n_device_id n with
  | Some d => String.eqb d deviceId
  | None => false
  end.

Definition notificationsOf (st : Store) (deviceId : string) : Z :=
  Z.of_nat (List.length (filter (fromDevice deviceId) (notifications st))).

Definition statedCount (st : Store) (deviceId : string) : Z :=
  match find (isDevice deviceId) (devices st) with
  | Some d => d_total_notifications d
  | None => 0
  end.

Definition counted (st : Store) : Prop :=
  forall deviceId, statedCount st deviceId = notificationsOf st deviceId.

(** An order reference that the path of a URL holds as it is written: its
    characters are letters, digits, [-] or [_].  The path of a request for
    [/qris/unique-amount/] followed by another reference is not that text:
    [url.pathname] has a space as [%20], and so on, and the handler does not
    decode it. *)
Definition plainChar (c : ascii) : bool :=
  let n := JS.charCode c in
  ((48 <=? n) && (n <=? 57)) || ((65 <=? n) && (n <=? 90))
  || ((97 <=? n) && (n <=? 122)) || (n =? 45) || (n =? 95).

Fixpoint plainReference (s : string) : bool :=
  match s with
  | EmptyString => true
  | String c rest => plainChar c && plainReference rest
  end.

End Ledger.

(* ================================================================== *)
(** ** Sample requests *)
(* ================================================================== *)

Module HandlerSamples.

Import Handlers.

Definition emptyStore : Store :=
  {| expectations := []; sequence := 0; reservations := [];
     notifications := []; notificationSequence := 0; devices := [] |}.

(** The registration of an order of 50000. *)
Definition registration : ExpectationBody :=
  {| wc_orderRef := Some "ORDER_1";
     wc_expectedAmount := Some "50000";
     wc_callbackUrl := Some "https://shop.example/wc-api/qris";
     wc_useUniqueAmount := true |}.

Definition registerClock : RegisterClock :=
  {| t_allocate := 1000; t_insert := 1001 |}.

Definition laterClock : RegisterClock :=
  {| t_allocate := 1200; t_insert := 1201 |}.

(** The same order, with the payload to convert. *)
Definition order : OrderBody :=
  {| go_staticQRIS := Some Samples.sampleStatic;
     go_originalAmount := Some "50000";
     go_orderRef := Some "ORDER_1";
     go_callbackUrl := Some "https://shop.example/wc-api/qris";
     go_serviceFee := None |}.

(** What the registration leaves and answers when the first draw of
    [Samples.sampleRandom] gives the unique amount 042. *)
Definition registeredRow : Matcher.Expectation :=
  pendingRow 1 "ORDER_1" "50042" "042" "50000"
    (Some "https://shop.example/wc-api/qris") 1001.

Definition registeredStore : Store :=
  {| expectations := [registeredRow];
     sequence := 1;
     reservations := [Allocator.newReservation "042" "ORDER_1" 1000 4600];
     notifications := [];
     notificationSequence := 0;
     devices := [] |}.

Definition registeredReply : Registered :=
  {| reg_order_reference := "ORDER_1";
     reg_expected_amount := "50042";
     reg_id := 1;
     reg_original_amount := Some "50000";
     reg_unique_amount := Some "042";
     reg_combined_amount := Some "50042" |}.

Definition generatedReply : Generated :=
  {| gen_order_reference := "ORDER_1";
     gen_dynamic_qris :=
       "00020101021226570011ID.DANA.WWW011893600915302259148102090225914810303UMI51440014ID.CO.QRIS.WWW0215ID10200176114730303UMI5204581253033605405500425802ID5922Warung Sayur Bu Sugeng6010Kab. Demak61055956763041F7B";
     gen_combined_amount := "50042";
     gen_unique_amount := "042";
     gen_original_amount := "50000";
     gen_amount_for_payment := "50042";
     gen_payment_expectation_id := 1 |}.

(** The notification of the payment. *)
Definition notice : NotificationBody :=
  {| nb_deviceId := Some "device-1";
     nb_packageName := Some "id.bank.app";
     nb_appName := Some "m-Banking";
     nb_postedAt := None;
     nb_title := "Transfer masuk";
     nb_text := "Pembayaran ORDER_1 Rp50.042 berhasil";
     nb_subText := None;
     nb_bigText := None;
     nb_channelId := None;
     nb_notificationId := Some 7;
     nb_amountDetected := Some "50042";
     nb_extras := None |}.

Definition webhookClock : WebhookClock :=
  {| t_received := 1100; t_stored := 1100; t_match := Samples.sampleClock |}.

(** The store, the callbacks and the answer of [handleWebhook] for that
    notification. *)
Definition settled : Store * list Matcher.Callback * Reply Received :=
  handleWebhook registeredStore notice webhookClock.

(** The conversion of the payload for the same order. *)
Definition conversion : ConvertBody :=
  {| cv_staticQRIS := Some Samples.sampleStatic;
     cv_amount := Some "50000";
     cv_serviceFee := None;
     cv_orderRef := Some "ORDER_1" |}.

(** What the conversion leaves and answers: a reservation, no
    expectation. *)
Definition convertedStore : Store :=
  {| expectations := [];
     sequence := 0;
     reservations := [Allocator.newReservation "042" "ORDER_1" 1000 4600];
     notifications := [];
     notificationSequence := 0;
     devices := [] |}.

Definition convertedReply : Converted :=
  {| cvd_staticQRIS := Samples.sampleStatic;
     cvd_dynamicQRIS := gen_dynamic_qris generatedReply;
     cvd_amount := "50042";
     cvd_original_amount := Some "50000";
     cvd_unique_amount := Some "042";
     cvd_combined_amount := Some "50042";
     cvd_order_reference := Some "ORDER_1" |}.

End HandlerSamples.

(* ================================================================== *)
(** * Theorems *)
(* ================================================================== *)

(** ** The primitives and the sources on small inputs *)

Example numToString_values :
  JS.numToString 0 = "0" /\ JS.numToString 42 = "42" /\ JS.numToString (-5) = "-5".
Proof. repeat split. Qed.

Example parseInt_values :
  JS.parseInt "50123" = Some 50123
  /\ JS.parseInt "007" = Some 7
  /\ JS.parseInt "  12abc" = Some 12
  /\ JS.parseInt "-0" = Some 0
  /\ JS.parseInt "Rp50" = None
  /\ JS.parseInt "" = None.
Proof. repeat split. Qed.

Example normalize_values :
  Matcher.normalize "0050123" = "50123" /\ Matcher.normalize "abc" = "NaN".
Proof. split; reflexivity. Qed.

Example toString16_values :
  JS.toString16 0 = "0" /\ JS.toString16 255 = "ff" /\ JS.toString16 62728 = "f508".
Proof. repeat split. Qed.

Example split_values :
  JS.split "a5802IDb" "5802ID" = ["a"; "b"]
  /\ JS.split "5802ID" "5802ID" = [""; ""]
  /\ JS.split "a5802IDb5802ID" "5802ID" = ["a"; "b"; ""]
  /\ JS.split "abc" "5802ID" = ["abc"]
  /\ JS.split "" "5802ID" = [""].
Proof. repeat split. Qed.

Example replace_first_only :
  JS.replace "x010211y010211" "010211" "010212" = "x010212y010211".
Proof. reflexivity. Qed.

Example substring_values :
  JS.substring "abcdef" 0 2 = "ab"
  /\ JS.substring "abc" 0 (-1) = ""
  /\ JS.substring "abcdef" 4 1 = "bcd".
Proof. repeat split. Qed.

Example toLowerCase_value : JS.toLowerCase "Order_1 Rp" = "order_1 rp".
Proof. reflexivity. Qed.

Example padded_values :
  Allocator.padded 7 = "007" /\ Allocator.padded 42 = "042"
  /\ Allocator.padded 200 = "200".
Proof. repeat split. Qed.

Example formatLength_values :
  Converter.formatLength "50000" = "05"
  /\ Converter.formatLength "1234567890" = "10".
Proof. split; reflexivity. Qed.

Example extractAmount_values :
  Converter.extractAmount "5303360540550000" = Some "50000"
  /\ Converter.extractAmount "54105" = None
  /\ Converter.extractAmount "000201010211" = None.
Proof. repeat split. Qed.

Example crc_ABC : Converter.calculateCRC16 "ABC" = "F508".
Proof. vm_compute. reflexivity. Qed.

Example crc_check : Converter.calculateCRC16 "123456789" = "29B1".
Proof. vm_compute. reflexivity. Qed.

Example convert_sample_50000 :
  Converter.convertStaticToDynamic (Some Samples.sampleStatic)
    (Converter.AmountString "50000") None
  = Returned
      "00020101021226570011ID.DANA.WWW011893600915302259148102090225914810303UMI51440014ID.CO.QRIS.WWW0215ID10200176114730303UMI5204581253033605405500005802ID5922Warung Sayur Bu Sugeng6010Kab. Demak61055956763040F25".
Proof. vm_compute. reflexivity. Qed.

(** ** Strings *)

Module StringFacts.

Import Properties.

Lemma startsWith_beginsWith (s p : string) :
  JS.startsWith s p = true <-> beginsWith s p.
Proof.
  unfold beginsWith. revert s.
  induction p as [|a p IH]; intros s; simpl.
  - split; [intros _; exists s; reflexivity | destruct s; reflexivity].
  - destruct s as [|b s]; simpl.
    + split; [discriminate | intros [r H]; discriminate].
    + rewrite andb_true_iff, Ascii.eqb_eq, IH. split.
      * intros [-> [r ->]]. exists r. reflexivity.
      * intros [r H]. injection H as -> ->. split; eauto.
Qed.

Lemma includes_unfold (s p : string) :
  JS.includes s p =
  JS.startsWith s p
  || match s with EmptyString => false | String _ s' => JS.includes s' p end.
Proof. destruct s; reflexivity. Qed.

Lemma includes_cons (c : ascii) (s p : string) :
  JS.includes (String c s) p = JS.startsWith (String c s) p || JS.includes s p.
Proof. reflexivity. Qed.

Lemma includes_contains (s p : string) :
  JS.includes s p = true <-> contains s p.
Proof.
  unfold contains. split.
  - induction s as [|c s IH]; rewrite includes_unfold, orb_true_iff.
    + intros [H | H]; [|discriminate].
      apply startsWith_beginsWith in H. destruct H as [r ->].
      exists EmptyString, r. reflexivity.
    + intros [H | H].
      * apply startsWith_beginsWith in H. destruct H as [r ->].
        exists EmptyString, r. reflexivity.
      * destruct (IH H) as (a & b & ->).
        exists (String c a), b. reflexivity.
  - intros (a & b & ->). induction a as [|c a IH].
    + rewrite includes_unfold. simpl append.
      replace (JS.startsWith (p ++ b) p) with true; [reflexivity|].
      symmetry. apply startsWith_beginsWith. exists b. reflexivity.
    + simpl append. rewrite includes_cons, IH. apply orb_true_r.
Qed.


Lemma length_append (a b : string) :
  String.length (a ++ b) = (String.length a + String.length b)%nat.
Proof. induction a as [|c a IH]; simpl; congruence. Qed.

Lemma take_append (a b : string) : JS.take (String.length a) (a ++ b) = a.
Proof. induction a as [|c a IH]; simpl; [destruct b; reflexivity | congruence]. Qed.

Lemma drop_append (a b : string) : JS.drop (String.length a) (a ++ b) = b.
Proof. induction a as [|c a IH]; simpl; [reflexivity | exact IH]. Qed.

Lemma rangeFrom_complete (count : nat) (start v : Z) :
  start <= v < start + Z.of_nat count -> In v (JS.rangeFrom start count).
Proof.
  revert start. induction count as [|count IH]; intros start Hv; [lia|].
  cbn [JS.rangeFrom]. destruct (Z.eq_dec start v) as [-> | Hne].
  - left. reflexivity.
  - right. apply IH. lia.
Qed.

Lemma upTo_complete (n v : Z) : 0 <= v < n -> In v (JS.upTo n).
Proof. intros Hv. apply rangeFrom_complete. lia. Qed.

Lemma numToString_nonempty (n : Z) : JS.numToString n <> EmptyString.
Proof.
  unfold JS.numToString, NilZero.string_of_int.
  destruct (Z.to_int n) as [d | d]; [|discriminate].
  unfold NilZero.string_of_uint. destruct d; discriminate.
Qed.

Lemma numberToString_nonempty (x : JS.Number) :
  JS.numberToString x <> EmptyString.
Proof.
  assert (H : forall v, (if v <? 10 ^ 21 then JS.numToString v
                         else JS.exponentForm v) <> EmptyString).
  { intros v. destruct (v <? 10 ^ 21); [apply numToString_nonempty|].
    unfold JS.exponentForm. cbv zeta.
    destruct (JS.stripZeros _) as [|c [|c' r]]; discriminate. }
  destruct x as [|z|[]]; unfold JS.numberToString; try discriminate.
  destruct (Z.abs z <? 2 ^ 53); [apply numToString_nonempty|].
  cbv zeta. destruct (z <? 0); [discriminate | apply H].
Qed.

(** Below 2^53 nothing is rounded and all digits are printed. *)
Lemma roundToNumber_safe (z : Z) :
  Z.abs z < 2 ^ 53 -> JS.roundToNumber z = JS.Finite z.
Proof.
  intros H. unfold JS.roundToNumber. cbv zeta.
  destruct (Z.ltb_spec (Z.abs z) (2 ^ 53)) as [_ | Hge]; [reflexivity | lia].
Qed.

Lemma numberToString_safe (z : Z) :
  Z.abs z < 2 ^ 53 ->
  JS.numberToString (JS.roundToNumber z) = JS.numToString z.
Proof.
  intros H. rewrite (roundToNumber_safe z H). unfold JS.numberToString.
  destruct (Z.ltb_spec (Z.abs z) (2 ^ 53)) as [_ | Hge]; [reflexivity | lia].
Qed.

End StringFacts.

(** ** The codec *)

Module ConverterFacts.

Import Converter Properties StringFacts.






Lemma not_two_parts (parts : list string) :
  List.length parts <> 2%nat <-> forall part0 part1, parts <> [part0; part1].
Proof.
  destruct parts as [|a [|b [|c l]]]; simpl; split; try congruence; try lia.
  intros H. exfalso. apply (H a b). reflexivity.
Qed.

Lemma convert_cases staticQRIS amount serviceFee :
  ConvertCase staticQRIS amount serviceFee
    (convertStaticToDynamic staticQRIS amount serviceFee).
Proof.
  unfold convertStaticToDynamic, convertBody.
  destruct (qrisFalsy staticQRIS) eqn:Hq; simpl.
  { apply CaseRequired. rewrite Hq. reflexivity. }
  destruct (amountFalsy amount) eqn:Ha; simpl.
  { apply CaseRequired. rewrite Hq, Ha. reflexivity. }
  destruct (JS.isDigitString (amountToString amount)) eqn:Hd; simpl.
  2:{ apply CaseFormat; assumption. }
  destruct staticQRIS as [s|]; [|discriminate].
  assert (Hs : s <> EmptyString).
  { intros ->. discriminate. }
  destruct (sentinelParts s) as [|a [|b [|c l]]] eqn:Hp;
    try (apply (CaseStructure _ _ _ s); auto; rewrite Hp; simpl; lia).
  destruct (buildAmountField (amountToString amount) serviceFee)
    as [amountField | message] eqn:Hb.
  - apply (CaseReturned _ _ _ s a b amountField); auto.
  - apply (CaseFee _ _ _ s a b message); auto.
Qed.



End ConverterFacts.

Module CodecTheorems.

Import Converter Properties StringFacts ConverterFacts.

(** C4, as the code has it: [validateQRIS] returns true exactly for the
    payloads of 50 to 500 characters that begin with the five characters
    [00020] and contain the sentinel [5802ID]. *)
Theorem validateQRIS_accepts_iff (qris : string) :
  validateQRIS qris = true <->
  50 <= JS.len qris <= 500
  /\ beginsWith qris "00020"
  /\ contains qris "5802ID".
Proof.
  rewrite <- startsWith_beginsWith, <- includes_contains.
  unfold validateQRIS, JS.len. rewrite Z.gtb_ltb.
  destruct (String.length qris =? 0)%nat eqn:H0.
  { apply Nat.eqb_eq in H0. simpl. split; [discriminate | lia]. }
  destruct (Z.ltb_spec (Z.of_nat (String.length qris)) 50) as [Hlo | Hlo];
    destruct (Z.ltb_spec 500 (Z.of_nat (String.length qris))) as [Hhi | Hhi];
    simpl;
    try (split; [discriminate | lia]).
  destruct (JS.startsWith qris "00020"); simpl.
  2:{ split; [discriminate | intros (_ & Hb & _); discriminate]. }
  destruct (JS.includes qris "5802ID"); simpl.
  - split; [intros _; repeat split; assumption | reflexivity].
  - split; [discriminate | intros (_ & _ & Hb); discriminate].
Qed.

(** C4, counterexample: a payload of 199 characters holding the sentinel is
    accepted although it begins with [000202], not with [000201]. *)
Lemma validateQRIS_accepts_other_indicator :
  validateQRIS Samples.otherIndicator = true
  /\ ~ beginsWith Samples.otherIndicator "000201".
Proof.
  split; [vm_compute; reflexivity|].
  intros H. apply startsWith_beginsWith in H. vm_compute in H. discriminate.
Qed.



(** C10: with the number 0 or the empty string as amount the conversion
    throws the required-field error, whatever the payload and the fee; the
    string "0" is a digit string, passes both checks on every non-empty
    payload and goes on to the split, after which the amount field is built
    (which throws for a fee without a value) and the payload returned. *)
Theorem falsy_amount_is_missing staticQRIS serviceFee :
  convertStaticToDynamic staticQRIS (AmountNumber 0) serviceFee
  = Thrown "QRIS conversion failed: Static QRIS and amount are required"
  /\ convertStaticToDynamic staticQRIS (AmountString "") serviceFee
     = Thrown "QRIS conversion failed: Static QRIS and amount are required"
  /\ JS.isDigitString "0" = true
  /\ forall c rest,
       convertStaticToDynamic (Some (String c rest)) (AmountString "0") serviceFee
       = match sentinelParts (String c rest) with
         | [part0; part1] =>
             match buildAmountField "0" serviceFee with
             | inl amountField =>
                 let qrisWithAmount := part0 ++ amountField ++ part1 in
                 Returned (qrisWithAmount ++ calculateCRC16 qrisWithAmount)
             | inr message => Thrown (failurePrefix ++ message)
             end
         | _ => Thrown "QRIS conversion failed: Invalid QRIS format: missing merchant location"
         end.
Proof.
  repeat split.
  - unfold convertStaticToDynamic, convertBody. simpl amountFalsy.
    rewrite orb_true_r. reflexivity.
  - unfold convertStaticToDynamic, convertBody. simpl amountFalsy.
    rewrite orb_true_r. reflexivity.
  - intros c rest. unfold convertStaticToDynamic, convertBody.
    simpl qrisFalsy. simpl amountFalsy. simpl orb. simpl amountToString.
    change (JS.isDigitString "0") with true. simpl negb. cbv iota.
    destruct (sentinelParts (String c rest)) as [|a [|b [|d l]]];
      try reflexivity.
    destruct (buildAmountField "0" serviceFee); reflexivity.
Qed.

(** C1, the code at a failing input: a static payload whose merchant category
    code is 5411 passes [validateQRIS] and converts, but the amount read back
    from the dynamic payload is not the amount that was written: the search
    for [54] stops inside field 52. *)
Theorem extractAmount_misreads_category_code :
  validateQRIS Samples.groceryStatic = true
  /\ exists dynamicQRIS,
       convertStaticToDynamic (Some Samples.groceryStatic) (AmountString "50000") None
       = Returned dynamicQRIS
       /\ contains dynamicQRIS "540550000"
       /\ extractAmount dynamicQRIS = Some "53033605405".
Proof.
  split; [vm_compute; reflexivity|].
  eexists. split; [vm_compute; reflexivity|]. split.
  - apply includes_contains. vm_compute. reflexivity.
  - vm_compute. reflexivity.
Qed.

(** C2, the code at a failing input: for the amount 285 the checksum of the
    rebuilt payload is 0x00F2, only two characters are appended, and the last
    four characters of the result are not the checksum of what precedes
    them. *)
Theorem convert_appends_short_trailer :
  exists dynamicQRIS,
    convertStaticToDynamic (Some Samples.sampleStatic) (AmountString "285") None
    = Returned dynamicQRIS
    /\ trailer dynamicQRIS = "04F2"
    /\ calculateCRC16 (withoutTrailer dynamicQRIS) = "C9F3".
Proof.
  eexists. split; [vm_compute; reflexivity|].
  split; vm_compute; reflexivity.
Qed.

(** C3, the code at a failing input: the checksum of "HM" is 0x0003 and
    [calculateCRC16] returns the single character "3". *)
Theorem calculateCRC16_not_padded :
  CRC16Spec.crc16 "HM" = 3
  /\ calculateCRC16 "HM" = "3"
  /\ String.length (calculateCRC16 "HM") = 1%nat.
Proof. repeat split; vm_compute; reflexivity. Qed.

End CodecTheorems.

(** ** The checksum against CRC-16/CCITT-FALSE *)

Module CRCFacts.

Import Converter.

Lemma toInt32_mod16 (x : Z) : JS.toInt32 x mod 2 ^ 16 = x mod 2 ^ 16.
Proof.
  unfold JS.toInt32.
  rewrite (Z.mod_eq (x + 2 ^ 31) (2 ^ 32)) by lia.
  replace (x + 2 ^ 31 - 2 ^ 32 * ((x + 2 ^ 31) / 2 ^ 32) - 2 ^ 31)
    with (x + (- (2 ^ 16 * ((x + 2 ^ 31) / 2 ^ 32))) * 2 ^ 16) by lia.
  apply Z.mod_add. lia.
Qed.

Lemma lxor_mod16 (u v : Z) :
  Z.lxor u v mod 2 ^ 16 = Z.lxor (u mod 2 ^ 16) (v mod 2 ^ 16).
Proof.
  apply Z.bits_inj'. intros i Hi.
  destruct (Z.lt_ge_cases i 16) as [Hlt | Hge].
  - rewrite Z.lxor_spec, !Z.mod_pow2_bits_low, Z.lxor_spec by lia. reflexivity.
  - rewrite Z.lxor_spec, !Z.mod_pow2_bits_high by lia. reflexivity.
Qed.

Lemma xor_mod16 (a b : Z) :
  JS.xor a b mod 2 ^ 16 = Z.lxor (a mod 2 ^ 16) (b mod 2 ^ 16).
Proof. unfold JS.xor. rewrite lxor_mod16, !toInt32_mod16. reflexivity. Qed.

Lemma shl_mod16 (x n : Z) :
  0 <= n < 32 -> JS.shl x n mod 2 ^ 16 = (x mod 2 ^ 16 * 2 ^ n) mod 2 ^ 16.
Proof.
  intros Hn. unfold JS.shl.
  rewrite toInt32_mod16, (Z.mod_small n 32) by lia.
  rewrite Z.shiftl_mul_pow2 by lia.
  rewrite <- Z.mul_mod_idemp_l by lia.
  rewrite toInt32_mod16. reflexivity.
Qed.

Lemma band_low16 (x : Z) : JS.band x 0xFFFF = x mod 2 ^ 16.
Proof.
  unfold JS.band. change (JS.toInt32 0xFFFF) with (Z.ones 16).
  rewrite Z.land_ones by lia. apply toInt32_mod16.
Qed.

Lemma band_top_bit (x : Z) :
  (JS.band x 0x8000 =? 0) = negb (Z.testbit (x mod 2 ^ 16) 15).
Proof.
  unfold JS.band. change (JS.toInt32 0x8000) with (2 ^ 15).
  rewrite <- toInt32_mod16, Z.mod_pow2_bits_low by lia.
  set (y := JS.toInt32 x).
  assert (H : Z.land y (2 ^ 15) = if Z.testbit y 15 then 2 ^ 15 else 0).
  { apply Z.bits_inj'. intros i Hi.
    rewrite Z.land_spec, Z.pow2_bits_eqb by lia.
    destruct (Z.eqb_spec 15 i) as [<- | Hne].
    - destruct (Z.testbit y 15); [|rewrite Z.bits_0; reflexivity].
      rewrite Z.pow2_bits_true by lia. reflexivity.
    - rewrite andb_false_r.
      destruct (Z.testbit y 15); [|rewrite Z.bits_0; reflexivity].
      rewrite Z.pow2_bits_false by lia. reflexivity. }
  rewrite H. destruct (Z.testbit y 15); reflexivity.
Qed.

Lemma crcShift_refines (crc : Z) :
  crcShift crc mod 2 ^ 16 = CRC16Spec.shiftStep (crc mod 2 ^ 16).
Proof.
  unfold crcShift, CRC16Spec.shiftStep. rewrite band_top_bit.
  destruct (Z.testbit (crc mod 2 ^ 16) 15); simpl negb; cbv iota.
  - rewrite xor_mod16, shl_mod16 by lia.
    rewrite (Z.mul_comm 2). reflexivity.
  - rewrite shl_mod16 by lia. rewrite (Z.mul_comm 2). reflexivity.
Qed.

Lemma iter_crcShift_refines (n : nat) (crc : Z) :
  Nat.iter n crcShift crc mod 2 ^ 16
  = Nat.iter n CRC16Spec.shiftStep (crc mod 2 ^ 16).
Proof.
  induction n as [|n IH]; [reflexivity|].
  cbn [Nat.iter nat_rect]. rewrite crcShift_refines. f_equal. exact IH.
Qed.

Lemma charCode_range (ch : ascii) : 0 <= JS.charCode ch < 256.
Proof.
  unfold JS.charCode. pose proof (N_ascii_bounded ch). lia.
Qed.

Lemma crcChar_refines (crc : Z) (ch : ascii) :
  crcChar crc ch mod 2 ^ 16
  = CRC16Spec.feedByte (crc mod 2 ^ 16) (JS.charCode ch).
Proof.
  unfold crcChar, CRC16Spec.feedByte.
  rewrite iter_crcShift_refines, xor_mod16, shl_mod16 by lia.
  pose proof (charCode_range ch).
  rewrite (Z.mod_small (JS.charCode ch)) by lia.
  rewrite (Z.mod_small (JS.charCode ch * 2 ^ 8)) by lia.
  reflexivity.
Qed.

Lemma forChars_cons {A : Type} (body : A -> ascii -> A) ch rest acc :
  JS.forChars body (String ch rest) acc = JS.forChars body rest (body acc ch).
Proof. reflexivity. Qed.

Lemma crcLoop_cons (ch : ascii) (rest : string) (crc : Z) :
  crcLoop (String ch rest) crc = crcLoop rest (crcChar crc ch).
Proof. exact (forChars_cons crcChar ch rest crc). Qed.

Lemma feed_cons (ch : ascii) (rest : string) (reg : Z) :
  CRC16Spec.feed (String ch rest) reg
  = CRC16Spec.feed rest (CRC16Spec.feedByte reg (JS.charCode ch)).
Proof.
  exact (forChars_cons (fun reg ch => CRC16Spec.feedByte reg (JS.charCode ch))
           ch rest reg).
Qed.

Lemma crcLoop_refines (str : string) (crc : Z) :
  crcLoop str crc mod 2 ^ 16 = CRC16Spec.feed str (crc mod 2 ^ 16).
Proof.
  revert crc. induction str as [|ch rest IH]; intros crc.
  - reflexivity.
  - rewrite crcLoop_cons, feed_cons, IH, crcChar_refines. reflexivity.
Qed.

(** The low 16 bits the code keeps are the CRC-16/CCITT-FALSE value: the
    bits that the unmasked 32-bit register carries above bit 15 never reach
    them. *)
Theorem crc_register_refines (str : string) :
  JS.band (crcLoop str 0xFFFF) 0xFFFF = CRC16Spec.crc16 str.
Proof.
  rewrite band_low16, crcLoop_refines. reflexivity.
Qed.

Lemma crc16_range (str : string) : 0 <= CRC16Spec.crc16 str < 2 ^ 16.
Proof.
  rewrite <- crc_register_refines, band_low16. apply Z.mod_pos_bound. lia.
Qed.

End CRCFacts.

Module TrailerFacts.

Import Converter Properties StringFacts ConverterFacts CRCFacts.

(** What [calculateCRC16] returns, in terms of the CRC-16/CCITT-FALSE
    value. *)
Theorem calculateCRC16_refines (str : string) :
  calculateCRC16 str = padThree (hexUpper (CRC16Spec.crc16 str)).
Proof.
  unfold calculateCRC16, padThree, hexUpper.
  rewrite crc_register_refines. reflexivity.
Qed.

Lemma padded_length_table :
  forallb (fun v => Bool.eqb (String.length (padThree (hexUpper v)) =? 4)%nat
                             (0x100 <=? v))
          (JS.upTo 65536) = true.
Proof. vm_compute. reflexivity. Qed.

Lemma padded_length (v : Z) :
  0 <= v < 2 ^ 16 ->
  (String.length (padThree (hexUpper v)) = 4%nat <-> 0x100 <= v).
Proof.
  intros Hv.
  assert (Hin : In v (JS.upTo 65536)) by (apply upTo_complete; lia).
  pose proof (proj1 (forallb_forall _ _) padded_length_table v Hin) as H.
  apply Bool.eqb_prop in H.
  rewrite <- Nat.eqb_eq, H. apply Z.leb_le.
Qed.

(** The value returned has four characters exactly when the checksum is at
    least 0x0100. *)
Theorem calculateCRC16_length (str : string) :
  String.length (calculateCRC16 str) = 4%nat <-> 0x100 <= CRC16Spec.crc16 str.
Proof.
  rewrite calculateCRC16_refines. apply padded_length. apply crc16_range.
Qed.

Lemma withoutTrailer_append (body crc : string) :
  String.length crc = 4%nat -> withoutTrailer (body ++ crc) = body.
Proof.
  intros H. unfold withoutTrailer, JS.substring, JS.len.
  rewrite length_append, H.
  replace (Z.max 0 (Z.min 0 (Z.of_nat (String.length body + 4)))) with 0 by lia.
  replace (Z.max 0 (Z.min (Z.of_nat (String.length body + 4) - 4)
                          (Z.of_nat (String.length body + 4))))
    with (Z.of_nat (String.length body)) by lia.
  rewrite Z.min_l, Z.max_r, Z.sub_0_r, Nat2Z.id by lia.
  simpl JS.drop. apply take_append.
Qed.

Lemma trailer_append (body crc : string) :
  String.length crc = 4%nat -> trailer (body ++ crc) = crc.
Proof.
  intros H. unfold trailer. rewrite length_append, H.
  replace (String.length body + 4 - 4)%nat with (String.length body) by lia.
  apply drop_append.
Qed.

(** Every returned payload is the rebuilt string followed by the checksum
    computed over that string.  The rebuilt string is made of the two parts
    into which the static payload, without its last four characters and with
    the marker rewritten, splits at [5802ID], with the amount field (the
    fee, the sentinel) between them; nothing of the old trailer is in it.
    When the checksum is at least 0x0100 the last four characters of the
    payload are the checksum of what precedes them. *)
Theorem convert_trailer_recomputed staticQRIS amount serviceFee payload :
  convertStaticToDynamic staticQRIS amount serviceFee = Returned payload ->
  exists s part0 part1 amountField,
    staticQRIS = Some s
    /\ sentinelParts s = [part0; part1]
    /\ buildAmountField (amountToString amount) serviceFee = inl amountField
    /\ payload = (part0 ++ amountField ++ part1)
                 ++ calculateCRC16 (part0 ++ amountField ++ part1)
    /\ (0x100 <= CRC16Spec.crc16 (part0 ++ amountField ++ part1) ->
        calculateCRC16 (withoutTrailer payload) = trailer payload).
Proof.
  intros H. pose proof (convert_cases staticQRIS amount serviceFee) as Hc.
  rewrite H in Hc.
  inversion Hc as [| | | | s part0 part1 amountField Hs Hne Ha Hd Hp Hb Heq].
  exists s, part0, part1, amountField.
  split; [exact Hs|]. split; [exact Hp|]. split; [exact Hb|].
  split; [reflexivity|].
  intros Hv. apply calculateCRC16_length in Hv.
  cbv zeta. rewrite withoutTrailer_append, trailer_append by exact Hv.
  reflexivity.
Qed.

Lemma convert_trailer_recomputed_witness :
  exists s part0 part1 amountField,
    Some Samples.sampleStatic = Some s
    /\ sentinelParts s = [part0; part1]
    /\ buildAmountField (amountToString (AmountString "50000")) None
       = inl amountField
    /\ "00020101021226570011ID.DANA.WWW011893600915302259148102090225914810303UMI51440014ID.CO.QRIS.WWW0215ID10200176114730303UMI5204581253033605405500005802ID5922Warung Sayur Bu Sugeng6010Kab. Demak61055956763040F25"
       = (part0 ++ amountField ++ part1)
         ++ calculateCRC16 (part0 ++ amountField ++ part1)
    /\ (0x100 <= CRC16Spec.crc16 (part0 ++ amountField ++ part1) ->
        calculateCRC16
          (withoutTrailer
             "00020101021226570011ID.DANA.WWW011893600915302259148102090225914810303UMI51440014ID.CO.QRIS.WWW0215ID10200176114730303UMI5204581253033605405500005802ID5922Warung Sayur Bu Sugeng6010Kab. Demak61055956763040F25")
        = trailer
            "00020101021226570011ID.DANA.WWW011893600915302259148102090225914810303UMI51440014ID.CO.QRIS.WWW0215ID10200176114730303UMI5204581253033605405500005802ID5922Warung Sayur Bu Sugeng6010Kab. Demak61055956763040F25").
Proof.
  apply (convert_trailer_recomputed (Some Samples.sampleStatic)
           (AmountString "50000") None).
  vm_compute. reflexivity.
Defined.

(** The checksum in one statement: the 16 bits kept are the
    CRC-16/CCITT-FALSE value of the character codes, the result is that value
    in upper-case hexadecimal with a leading zero only for three-character
    values, and it has four characters exactly from 0x0100 on. *)
Theorem calculateCRC16_is_ccitt_false (str : string) :
  JS.band (crcLoop str 0xFFFF) 0xFFFF = CRC16Spec.crc16 str
  /\ calculateCRC16 str = padThree (hexUpper (CRC16Spec.crc16 str))
  /\ (String.length (calculateCRC16 str) = 4%nat
      <-> 0x100 <= CRC16Spec.crc16 str).
Proof.
  split; [apply crc_register_refines|].
  split; [apply calculateCRC16_refines | apply calculateCRC16_length].
Qed.

End TrailerFacts.

(** ** Instants and their dates *)

Module InstantFacts.

Lemma dayOf_le (a b : Z) : a <= b -> StoredTime.dayOf a <= StoredTime.dayOf b.
Proof. intros H. unfold StoredTime.dayOf. apply Z.div_le_mono; lia. Qed.

(** The text of an instant that is not before [sql] compares greater than
    the text of [sql]. *)
Lemma isoAfter_later (iso sql : Z) : sql <= iso -> StoredTime.isoAfter iso sql = true.
Proof. intros H. unfold StoredTime.isoAfter. apply Z.leb_le, dayOf_le, H. Qed.

Lemma isoBefore_later (iso sql : Z) :
  sql <= iso -> StoredTime.isoBefore iso sql = false.
Proof.
  intros H. unfold StoredTime.isoBefore. apply Z.ltb_ge, dayOf_le, H.
Qed.

(** The two comparisons exclude each other. *)
Lemma isoBefore_isoAfter (iso sql : Z) :
  StoredTime.isoBefore iso sql = negb (StoredTime.isoAfter iso sql).
Proof.
  unfold StoredTime.isoBefore, StoredTime.isoAfter.
  destruct (Z.ltb_spec (StoredTime.dayOf iso) (StoredTime.dayOf sql));
    destruct (Z.leb_spec (StoredTime.dayOf sql) (StoredTime.dayOf iso));
    try reflexivity; lia.
Qed.

End InstantFacts.

(** ** The allocator *)

Module AllocatorFacts.

Import Allocator StringFacts.

Lemma padded_table :
  forallb (fun n => threeDigitsOf n (padded n)) (JS.rangeFrom 1 200) = true.
Proof. vm_compute. reflexivity. Qed.

Lemma padded_pool (n : Z) :
  1 <= n <= 200 ->
  String.length (padded n) = 3%nat
  /\ JS.allDigits (padded n) = true
  /\ JS.parseInt (padded n) = Some n.
Proof.
  intros Hn.
  assert (Hin : In n (JS.rangeFrom 1 200)) by (apply rangeFrom_complete; lia).
  pose proof (proj1 (forallb_forall _ _) padded_table n Hin) as H.
  unfold threeDigitsOf in H.
  apply andb_true_iff in H. destruct H as [H H3].
  apply andb_true_iff in H. destruct H as [H1 H2].
  apply Nat.eqb_eq in H1.
  destruct (JS.parseInt (padded n)) as [m|]; [|discriminate].
  apply Z.eqb_eq in H3. subst m. auto.
Qed.

Lemma padded_poolValue (n : Z) : 1 <= n <= 200 -> poolValue (padded n).
Proof.
  intros Hn. destruct (padded_pool n Hn) as (H1 & H2 & H3).
  repeat split; auto. exists n. auto.
Qed.

(** *** [ORDER BY created_at DESC LIMIT 1] *)

Lemma fold_later_some (rows : list Reservation) (b : Reservation) :
  exists r, fold_left later rows (Some b) = Some r /\ (r = b \/ In r rows).
Proof.
  revert b. induction rows as [|x rows IH]; intros b; simpl.
  - exists b. auto.
  - destruct (created_at b <? created_at x).
    + destruct (IH x) as (r & Hr & [Heq | Hin]); exists r; auto.
    + destruct (IH b) as (r & Hr & [Heq | Hin]); exists r; auto.
Qed.

Lemma newest_in (rows : list Reservation) (r : Reservation) :
  newest rows = Some r -> In r rows.
Proof.
  unfold newest. destruct rows as [|x rows]; simpl; [discriminate|].
  change (fold_left later rows (Some x) = Some r -> x = r \/ In r rows).
  destruct (fold_later_some rows x) as (r' & Hr & Hin).
  rewrite Hr. intros [= <-]. destruct Hin; auto.
Qed.

Lemma newest_none (rows : list Reservation) :
  newest rows = None -> rows = [].
Proof.
  unfold newest. destruct rows as [|x rows]; simpl; [reflexivity|].
  change (fold_left later rows (Some x) = None -> x :: rows = []).
  destruct (fold_later_some rows x) as (r' & Hr & _).
  rewrite Hr. discriminate.
Qed.

(** *** The retry loop *)

Section Retry.

Variable random : nat -> Z.
Variable orderRef : string.
Variable now : Z.
Variable giveUp : Z -> bool.

Notation reserved := (reservedBy random orderRef now).

Lemma iteration_cases (st : LoopState) :
  iteration random orderRef now st
  = Continue {| attempts := attempts st + 1;
                table := table st;
                drawn := S (drawn st) |}
  \/ iteration random orderRef now st
     = Done {| outcome := Returned (padded (random (drawn st) + 1));
               final_table := (table st ++ [reserved (drawn st)])%list;
               draws := S (drawn st) |}.
Proof.
  unfold iteration, insertReservation.
  destruct (selectAmount (table st) (padded (random (drawn st) + 1)) now);
    [left; reflexivity|].
  destruct (existsb _ (table st)); [left | right]; reflexivity.
Qed.

Lemma retry_unfold (fuel : nat) (st : LoopState) :
  retry random orderRef now giveUp fuel st
  = if giveUp (attempts st)
    then Some {| outcome := Thrown exhaustedMessage;
                 final_table := table st;
                 draws := drawn st |}
    else match fuel with
         | O => None
         | S fuel' =>
             match iteration random orderRef now st with
             | Continue st' => retry random orderRef now giveUp fuel' st'
             | Done result => Some result
             end
         end.
Proof. destruct fuel; reflexivity. Qed.

(** More fuel does not change a result. *)
Lemma retry_more_fuel (fuel : nat) :
  forall st result fuel',
    retry random orderRef now giveUp fuel st = Some result ->
    (fuel <= fuel')%nat ->
    retry random orderRef now giveUp fuel' st = Some result.
Proof.
  induction fuel as [|fuel IH]; intros st result fuel' H Hle;
    rewrite retry_unfold in H; rewrite retry_unfold.
  - destruct (giveUp (attempts st)); [exact H | discriminate].
  - destruct (giveUp (attempts st)); [exact H|].
    destruct fuel' as [|fuel']; [lia|].
    destruct (iteration random orderRef now st) as [st' | r]; [|exact H].
    apply IH; [exact H | lia].
Qed.

(** A returned value was drawn during the call and its reservation is the
    row added to the table. *)
Lemma retry_returned (fuel : nat) :
  forall st result v,
    retry random orderRef now giveUp fuel st = Some result ->
    outcome result = Returned v ->
    exists k, (drawn st <= k < draws result)%nat
              /\ v = padded (random k + 1)
              /\ final_table result = (table st ++ [reserved k])%list.
Proof.
  induction fuel as [|fuel IH]; intros st result v H Hv;
    rewrite retry_unfold in H.
  - destruct (giveUp (attempts st)); [|discriminate].
    injection H as <-. discriminate.
  - destruct (giveUp (attempts st)).
    { injection H as <-. discriminate. }
    destruct (iteration_cases st) as [Hi | Hi]; rewrite Hi in H.
    + destruct (IH _ _ _ H Hv) as (k & Hk & Hvk & Ht). simpl in Hk, Ht.
      exists k. repeat split; auto; lia.
    + injection H as <-. simpl in Hv. injection Hv as <-.
      exists (drawn st). simpl. repeat split; auto.
Qed.

Variable limit : Z.
Hypothesis giveUp_limit : forall a, giveUp a = true <-> limit <= a.

(** With fuel for the attempts that are left the loop ends, after at most
    that many draws; it throws only when all of them were made. *)
Lemma retry_total (fuel : nat) :
  forall st,
    (Z.to_nat (limit - attempts st) <= fuel)%nat ->
    exists result,
      retry random orderRef now giveUp fuel st = Some result
      /\ (drawn st <= draws result)%nat
      /\ Z.of_nat (draws result - drawn st) <= Z.max 0 (limit - attempts st)
      /\ ((exists v, outcome result = Returned v)
          \/ (outcome result = Thrown exhaustedMessage
              /\ final_table result = table st
              /\ Z.of_nat (draws result - drawn st)
                 = Z.max 0 (limit - attempts st))).
Proof.
  induction fuel as [|fuel IH]; intros st Hf; rewrite retry_unfold.
  - assert (Hg : giveUp (attempts st) = true) by (apply giveUp_limit; lia).
    rewrite Hg. eexists. split; [reflexivity|].
    cbn [outcome final_table draws drawn attempts table].
    repeat split; try lia. right. repeat split; lia.
  - destruct (giveUp (attempts st)) eqn:Hg.
    { apply giveUp_limit in Hg. eexists. split; [reflexivity|].
      cbn [outcome final_table draws drawn attempts table].
      repeat split; try lia. right. repeat split; lia. }
    assert (Hlt : attempts st < limit).
    { destruct (Z.lt_ge_cases (attempts st) limit) as [H | H]; [exact H|].
      apply giveUp_limit in H. congruence. }
    destruct (iteration_cases st) as [Hi | Hi]; rewrite Hi.
    + destruct (IH {| attempts := attempts st + 1;
                      table := table st;
                      drawn := S (drawn st) |}) as (result & Hr & H1 & H2 & H3).
      { cbn [attempts]. lia. }
      cbn [outcome final_table draws drawn attempts table] in H1, H2, H3. exists result. split; [exact Hr|].
      repeat split; try lia.
      destruct H3 as [H3 | (H3 & H4 & H5)]; [left; exact H3 | right].
      repeat split; auto; lia.
    + eexists. split; [reflexivity|].
      cbn [outcome final_table draws drawn attempts table].
      repeat split; try lia. left. eexists. reflexivity.
Qed.

End Retry.

End AllocatorFacts.

Module AllocatorTheorems.

Import Allocator StringFacts AllocatorFacts.

Lemma worker_giveUp_limit (a : Z) : Worker.giveUp a = true <-> 200 <= a.
Proof.
  unfold Worker.giveUp, maxAttempts. rewrite negb_true_iff, Z.ltb_ge. reflexivity.
Qed.

Lemma node_giveUp_limit (a : Z) : Node.giveUp a = true <-> 201 <= a.
Proof.
  unfold Node.giveUp. rewrite Z.gtb_ltb, Z.ltb_lt. lia.
Qed.

Lemma deleteExpired_subset (db : Table) (now : Z) (r : Reservation) :
  In r (deleteExpired db now) -> In r db.
Proof. unfold deleteExpired. intros H. apply filter_In in H. tauto. Qed.

Lemma selectExisting_in (db : Table) (orderRef : string) (now : Z) r :
  selectExisting db orderRef now = Some r -> In r db.
Proof.
  unfold selectExisting. intros H. apply newest_in in H.
  apply filter_In in H. tauto.
Qed.

(** The call ends for every loop test that gives up from [limit] on. *)
Lemma generateWith_total random orderRef now giveUp limit db :
  (forall a, giveUp a = true <-> limit <= a) ->
  0 <= limit ->
  inRange random ->
  poolTable db ->
  exists result,
    (forall fuel, (Z.to_nat limit <= fuel)%nat ->
                  generateWith random orderRef now giveUp fuel db = Some result)
    /\ Z.of_nat (draws result) <= limit
    /\ poolTable (final_table result)
    /\ ((exists v, outcome result = Returned v /\ poolValue v)
        \/ (outcome result = Thrown exhaustedMessage
            /\ Z.of_nat (draws result) = limit)).
Proof.
  intros Hg Hl Hr Hp. unfold generateWith.
  destruct (selectExisting db orderRef now) as [existing|] eqn:He.
  - eexists. split; [intros fuel _; reflexivity|].
    cbn [outcome final_table draws].
    split; [lia | split; [exact Hp|]].
    left. eexists. split; [reflexivity|].
    apply Hp. eapply selectExisting_in. exact He.
  - set (st := {| attempts := 0; table := deleteExpired db now; drawn := 0 |}).
    destruct (retry_total random orderRef now giveUp limit Hg (Z.to_nat limit) st)
      as (result & Hres & H1 & H2 & H3).
    { cbn [attempts st]. lia. }
    cbn [attempts drawn table st] in H1, H2, H3.
    exists result. split.
    { intros fuel Hf. eapply retry_more_fuel; eauto. }
    split; [lia|].
    destruct H3 as [[v Hv] | (H3 & H4 & H5)].
    + destruct (retry_returned _ _ _ _ _ _ _ _ Hres Hv) as (k & Hk & -> & Ht).
      cbn [table st] in Ht.
      assert (Hpv : poolValue (padded (random k + 1))).
      { apply padded_poolValue. specialize (Hr k). lia. }
      split.
      * rewrite Ht. intros r Hin. apply in_app_or in Hin.
        destruct Hin as [Hin | [<- | []]].
        -- apply Hp. eapply deleteExpired_subset. exact Hin.
        -- exact Hpv.
      * left. exists (padded (random k + 1)). split; assumption.
    + split.
      * rewrite H4. intros r Hin. apply Hp.
        eapply deleteExpired_subset. exact Hin.
      * right. split; [exact H3 | lia].
Qed.

(** C9: a call of [generateUniqueAmount] ends once the model has fuel for
    the attempts the loop allows.  It returns a zero-padded three-digit
    string with a value from 1 to 200, or it throws the pool-exhaustion
    error after all its draws: 200 in [src/worker.js], where the loop runs
    while [attempts < 200]; the first draw and 200 more in
    [qris-integration.js], where [findAvailableAmount] gives up when
    [attempt > 200].  The values stored stay inside the pool. *)
Theorem generateUniqueAmount_terminates random db orderRef now :
  inRange random ->
  poolTable db ->
  (exists result,
      (forall fuel, (200 <= fuel)%nat ->
         Worker.generateUniqueAmount random fuel db orderRef now = Some result)
      /\ (draws result <= 200)%nat
      /\ poolTable (final_table result)
      /\ ((exists v, outcome result = Returned v /\ poolValue v)
          \/ (outcome result = Thrown exhaustedMessage
              /\ draws result = 200%nat)))
  /\ (exists result,
         (forall fuel, (201 <= fuel)%nat ->
            Node.generateUniqueAmount random fuel db orderRef now = Some result)
         /\ (draws result <= 1 + 200)%nat
         /\ poolTable (final_table result)
         /\ ((exists v, outcome result = Returned v /\ poolValue v)
             \/ (outcome result = Thrown exhaustedMessage
                 /\ draws result = (1 + 200)%nat))).
Proof.
  intros Hr Hp. split.
  - destruct (generateWith_total random orderRef now Worker.giveUp 200 db
                worker_giveUp_limit ltac:(lia) Hr Hp)
      as (result & H1 & H2 & H3 & H4).
    exists result. split; [|split; [lia | split; [exact H3|]]].
    + intros fuel Hf. apply H1. lia.
    + destruct H4 as [H4 | [H4 H5]]; [left; exact H4 | right; split; [exact H4 | lia]].
  - destruct (generateWith_total random orderRef now Node.giveUp 201 db
                node_giveUp_limit ltac:(lia) Hr Hp)
      as (result & H1 & H2 & H3 & H4).
    exists result. split; [|split; [lia | split; [exact H3|]]].
    + intros fuel Hf. apply H1. lia.
    + destruct H4 as [H4 | [H4 H5]]; [left; exact H4 | right; split; [exact H4 | lia]].
Qed.

(** The sample table at 01:10: 042 is taken, the 117 that ended the day
    before is deleted and then reserved by the second draw. *)
Example worker_second_draw :
  Worker.generateUniqueAmount Samples.sampleRandom 200
    Samples.sampleReservations "ORDER_1" (Samples.atClock 1 10)
  = Some {| outcome := Returned "117";
            final_table :=
              [newReservation "042" "ORDER_7" (Samples.atClock 1 0)
                 (Samples.atClock 2 0);
               newReservation "117" "ORDER_1" (Samples.atClock 1 10)
                 (Samples.atClock 2 10)];
            draws := 2 |}.
Proof. vm_compute. reflexivity. Qed.

(** A source that always draws the taken value exhausts the loop of
    [src/worker.js] after 200 draws. *)
Example exhausted_after_all_draws :
  Worker.generateUniqueAmount (fun _ => 41) 200
    Samples.sampleReservations "ORDER_1" (Samples.atClock 1 10)
  = Some {| outcome := Thrown "No unique amounts available";
            final_table :=
              [newReservation "042" "ORDER_7" (Samples.atClock 1 0)
                 (Samples.atClock 2 0)];
            draws := 200 |}.
Proof. vm_compute. reflexivity. Qed.

(** C9, counterexample: with the same source the call of
    [qris-integration.js] fails after 201 draws, one more than the size of
    the pool: [findAvailableAmount] starts with the attempt 0 and gives up
    only when [attempt > 200]. *)
Lemma node_exhausted_after_201_draws :
  Node.generateUniqueAmount (fun _ => 41) 201
    Samples.sampleReservations "ORDER_1" (Samples.atClock 1 10)
  = Some {| outcome := Thrown "No unique amounts available";
            final_table :=
              [newReservation "042" "ORDER_7" (Samples.atClock 1 0)
                 (Samples.atClock 2 0)];
            draws := 201 |}
  /\ (200 < 201)%nat.
Proof. split; [vm_compute; reflexivity | lia]. Qed.

Lemma generateUniqueAmount_terminates_witness :
  (exists result,
      (forall fuel, (200 <= fuel)%nat ->
         Worker.generateUniqueAmount Samples.sampleRandom fuel
           Samples.sampleReservations "ORDER_1" (Samples.atClock 1 10)
         = Some result)
      /\ (draws result <= 200)%nat
      /\ poolTable (final_table result)
      /\ ((exists v, outcome result = Returned v /\ poolValue v)
          \/ (outcome result = Thrown exhaustedMessage
              /\ draws result = 200%nat)))
  /\ (exists result,
         (forall fuel, (201 <= fuel)%nat ->
            Node.generateUniqueAmount Samples.sampleRandom fuel
              Samples.sampleReservations "ORDER_1" (Samples.atClock 1 10)
            = Some result)
         /\ (draws result <= 1 + 200)%nat
         /\ poolTable (final_table result)
         /\ ((exists v, outcome result = Returned v /\ poolValue v)
             \/ (outcome result = Thrown exhaustedMessage
                 /\ draws result = (1 + 200)%nat))).
Proof.
  apply (generateUniqueAmount_terminates Samples.sampleRandom
           Samples.sampleReservations "ORDER_1" (Samples.atClock 1 10)).
  - intros k. destruct k as [|[|k]]; simpl; lia.
  - intros r [<- | [<- | []]]; simpl.
    + repeat split; try reflexivity. exists 42. split; [reflexivity | lia].
    + repeat split; try reflexivity. exists 117. split; [reflexivity | lia].
Defined.

(** *** Calling again *)

Lemma ownedBy_running (db : Table) (orderRef : string) (now : Z) (r : Reservation) :
  running db orderRef now -> In r db ->
  ownedBy orderRef now r = String.eqb (order_reference r) orderRef.
Proof.
  intros Hrun Hin. unfold ownedBy.
  destruct (String.eqb_spec (order_reference r) orderRef) as [Heq | Hne];
    [|reflexivity].
  cbn [andb]. apply InstantFacts.isoAfter_later. specialize (Hrun r Hin Heq). lia.
Qed.

Lemma running_earlier (db : Table) (orderRef : string) (now1 now2 : Z) :
  now1 <= now2 -> running db orderRef now2 -> running db orderRef now1.
Proof. intros Hle Hrun r Hin Href. specialize (Hrun r Hin Href). lia. Qed.

Lemma filter_none {A : Type} (f : A -> bool) (l : list A) :
  (forall x, In x l -> f x = false) -> filter f l = [].
Proof.
  induction l as [|x l IH]; intros H; simpl; [reflexivity|].
  rewrite (H x (or_introl eq_refl)). apply IH.
  intros y Hy. apply H. right. exact Hy.
Qed.

Lemma filter_all_none {A : Type} (f : A -> bool) (l : list A) (x : A) :
  filter f l = [] -> In x l -> f x = false.
Proof.
  intros Hf Hin. destruct (f x) eqn:Hx; [|reflexivity].
  assert (Hin' : In x (filter f l)) by (apply filter_In; auto).
  rewrite Hf in Hin'. destruct Hin'.
Qed.

(** A second call, of either build, while the reservations that the table
    holds for the order are running: it returns the value of the first call,
    draws nothing and leaves the table as it is. *)
Lemma generateWith_again random1 random2 giveUp1 giveUp2 fuel1 fuel2
    db orderRef now1 now2 first v :
  generateWith random1 orderRef now1 giveUp1 fuel1 db = Some first ->
  outcome first = Returned v ->
  now1 <= now2 ->
  running (final_table first) orderRef now2 ->
  generateWith random2 orderRef now2 giveUp2 fuel2 (final_table first)
  = Some {| outcome := Returned v;
            final_table := final_table first;
            draws := 0 |}.
Proof.
  intros H Hv Hle Hrun. unfold generateWith in H.
  pose proof (running_earlier _ _ _ _ Hle Hrun) as Hrun1.
  destruct (selectExisting db orderRef now1) as [existing|] eqn:He.
  - injection H as <-. cbn [outcome final_table] in *. injection Hv as <-.
    unfold generateWith.
    replace (selectExisting db orderRef now2) with (Some existing);
      [reflexivity|].
    rewrite <- He. unfold selectExisting. f_equal.
    apply filter_ext_in. intros r Hr.
    rewrite (ownedBy_running db orderRef now1 r Hrun1 Hr).
    rewrite (ownedBy_running db orderRef now2 r Hrun Hr). reflexivity.
  - destruct (retry_returned _ _ _ _ _ _ _ _ H Hv) as (k & Hk & -> & Ht).
    cbn [table] in Ht. unfold generateWith.
    set (row := reservedBy random1 orderRef now1 k) in *.
    assert (Hrow : ownedBy orderRef now2 row = true).
    { unfold ownedBy. cbn [order_reference row reservedBy newReservation].
      rewrite String.eqb_refl. cbn [andb]. apply InstantFacts.isoAfter_later.
      assert (Hin : In row (final_table first)).
      { rewrite Ht. apply in_or_app. right. left. reflexivity. }
      specialize (Hrun row Hin eq_refl).
      cbn [expires_at row reservedBy newReservation] in *. lia. }
    assert (Hold : filter (ownedBy orderRef now2) (deleteExpired db now1) = []).
    { apply filter_none. intros r Hr.
      assert (Hin : In r (final_table first)).
      { rewrite Ht. apply in_or_app. left. exact Hr. }
      rewrite (ownedBy_running _ orderRef now2 r Hrun Hin).
      rewrite <- (ownedBy_running _ orderRef now1 r Hrun1 Hin).
      apply newest_none in He.
      apply (filter_all_none _ _ _ He).
      eapply deleteExpired_subset. exact Hr. }
    replace (selectExisting (final_table first) orderRef now2) with (Some row);
      [reflexivity|].
    unfold selectExisting. rewrite Ht, filter_app, Hold.
    cbn [filter app]. rewrite Hrow. reflexivity.
Qed.


End AllocatorTheorems.

(** ** The matcher *)

Module MatcherFacts.

Import Matcher Properties.

Lemma insertDesc_in (e x : Expectation) (sorted : list Expectation) :
  In x (insertDesc e sorted) -> x = e \/ In x sorted.
Proof.
  induction sorted as [|y rest IH]; simpl.
  - intros [<- | []]. left. reflexivity.
  - destruct (created_at y <? created_at e); simpl.
    + intros [<- | H]; auto.
    + intros [<- | H]; auto. destruct (IH H); auto.
Qed.

Lemma orderByCreatedDesc_in (x : Expectation) (rows : list Expectation) :
  In x (orderByCreatedDesc rows) -> In x rows.
Proof.
  induction rows as [|e rows IH]; simpl; [tauto|].
  intros H. apply insertDesc_in in H. destruct H as [-> | H]; auto.
Qed.

Lemma find_nowhere {A : Type} (f : A -> bool) (l : list A) :
  (forall x, In x l -> f x = false) -> find f l = None.
Proof.
  induction l as [|x l IH]; intros H; simpl; [reflexivity|].
  rewrite (H x (or_introl eq_refl)). apply IH.
  intros y Hy. apply H. right. exact Hy.
Qed.

Lemma find_in {A : Type} (f : A -> bool) (l : list A) (x : A) :
  find f l = Some x -> In x l /\ f x = true.
Proof. apply find_some. Qed.

Lemma filter_two {A : Type} (f : A -> bool) (l : list A) (a b : A) :
  In a l -> In b l -> a <> b -> f a = true -> f b = true ->
  (2 <= List.length (filter f l))%nat.
Proof.
  intros Ha Hb Hne Hfa Hfb.
  assert (Hone : forall (m : list A) (x : A),
             In x m -> f x = true -> (1 <= List.length (filter f m))%nat).
  { intros m x Hin Hfx.
    assert (H : In x (filter f m)) by (apply filter_In; auto).
    destruct (filter f m); [destruct H | simpl; lia]. }
  induction l as [|x l IH]; [destruct Ha|].
  simpl. destruct Ha as [-> | Ha]; destruct Hb as [-> | Hb].
  - congruence.
  - rewrite Hfa. simpl. specialize (Hone l b Hb Hfb). lia.
  - rewrite Hfb. simpl. specialize (Hone l a Ha Hfa). lia.
  - specialize (IH Ha Hb). destruct (f x); simpl; lia.
Qed.

Lemma statusEqb_pending (s : Status) : statusEqb s pending = true <-> s = pending.
Proof. destruct s; simpl; split; congruence. Qed.

Lemma worker_candidate_iff amountDetected now e :
  Worker.candidate amountDetected (normalize amountDetected) now e = true
  <-> pendingWithAmount amountDetected now e.
Proof.
  unfold Worker.candidate, pendingWithAmount.
  rewrite !andb_true_iff, statusEqb_pending. tauto.
Qed.

Lemma node_candidate_of_pending amountDetected now e :
  pendingWithAmount amountDetected now e ->
  Node.candidate 5 amountDetected (normalize amountDetected) now e = true.
Proof.
  intros (Hs & Ha & Hw). unfold Node.candidate, Node.anyAmountEquals.
  rewrite Hs, Ha, Hw. reflexivity.
Qed.

(** *** [UPDATE ... WHERE id = ?] *)

Lemma update_in (db : Table) (rowId : Z) st at_ (row : Expectation) :
  In row (update db rowId st at_) ->
  exists e, In e db
            /\ ((id e = rowId /\ row = setStatus st at_ e)
                \/ (id e <> rowId /\ row = e)).
Proof.
  unfold update. intros H. apply in_map_iff in H.
  destruct H as (e & He & Hin). exists e. split; [exact Hin|].
  destruct (Z.eqb_spec (id e) rowId); [left | right]; auto.
Qed.

Lemma update_hit (db : Table) st at_ (e : Expectation) :
  In e db -> In (setStatus st at_ e) (update db (id e) st at_).
Proof.
  intros H. unfold update. apply in_map_iff. exists e.
  rewrite Z.eqb_refl. auto.
Qed.

Lemma update_twice (db : Table) (rowId : Z) st1 at1 st2 at2 :
  update (update db rowId st1 at1) rowId st2 at2 = update db rowId st2 at2.
Proof.
  unfold update. rewrite map_map. apply map_ext. intros e.
  destruct (Z.eqb_spec (id e) rowId) as [He | He].
  - cbn [id setStatus]. rewrite He, Z.eqb_refl. reflexivity.
  - destruct (Z.eqb_spec (id e) rowId); [contradiction | reflexivity].
Qed.

(** *** The check of [markPaymentCompleted] *)

Lemma verified_accepted (e : Expectation) (amountDetected : string) :
  Node.verified e amountDetected = true <-> accepted e amountDetected.
Proof.
  unfold Node.verified, Node.expectedAmountToMatch, accepted.
  generalize (normalize amountDetected) as d. intros d.
  remember (normalize (expected_amount e)) as x eqn:Ex.
  assert (H0 : normalize "0" = "0") by reflexivity.
  assert (Hn : normalize "" = "NaN") by reflexivity.
  destruct (original_amount e) as [[|c1 s1]|];
    destruct (unique_amount e) as [[|c2 s2]|];
    cbn [truthy orEmpty String.length Nat.eqb negb];
    rewrite ?H0;
    repeat match goal with
           | |- context [if String.eqb ?a ?b then _ else _] =>
               destruct (String.eqb_spec a b)
           end;
    cbn [normalizeValue]; rewrite <- ?Ex, ?Hn;
    match goal with
    | |- context [String.eqb ?a ?b] => destruct (String.eqb_spec a b)
    end;
    try (split; [intros _ | reflexivity]);
    try (split; [discriminate | intros Hacc; exfalso]);
    solve [intuition (congruence || discriminate)].
Qed.

End MatcherFacts.

Module MatcherTheorems.

Import Matcher Properties MatcherFacts.

Lemma unmentioned_worker db searchText amountDetected now e :
  unmentioned db searchText amountDetected ->
  In e (Worker.selectPending db amountDetected (normalize amountDetected) now) ->
  mentions searchText e = false.
Proof.
  intros Hun Hin. unfold Worker.selectPending in Hin.
  apply orderByCreatedDesc_in in Hin. apply filter_In in Hin.
  destruct Hin as [Hin Hc]. apply worker_candidate_iff in Hc.
  destruct Hc as (Hs & Ha & _). apply Hun; auto.
  unfold Node.anyAmountEquals. rewrite Ha. reflexivity.
Qed.

Lemma unmentioned_node db searchText amountDetected now e :
  unmentioned db searchText amountDetected ->
  In e (Node.selectPending db amountDetected (normalize amountDetected) now) ->
  mentions searchText e = false.
Proof.
  intros Hun Hin. unfold Node.selectPending in Hin.
  apply filter_In in Hin. destruct Hin as [Hin Hc].
  unfold Node.candidate in Hc. rewrite !andb_true_iff in Hc.
  destruct Hc as [[Hs Ha] _]. apply statusEqb_pending in Hs.
  apply Hun; auto.
Qed.

Lemma within_recent (minutes now : Z) (e : Expectation) :
  now - minutes * 60 <= created_at e -> within minutes now e = true.
Proof. intros H. unfold within. apply InstantFacts.isoAfter_later. exact H. Qed.

(** An expectation created less than five minutes ago passes the test of
    the queries. *)
Lemma recentlyPending_pending amountDetected now e :
  recentlyPending amountDetected now e -> pendingWithAmount amountDetected now e.
Proof.
  intros (Hs & Ha & Hw). split; [exact Hs|]. split; [exact Ha|].
  apply within_recent. lia.
Qed.

(** C7, as the code has it: when two different pending expectations expect
    the detected amount and were created less than five minutes before the
    count, and the search text holds the order reference of no pending
    expectation with that amount, then [checkPaymentMatch] of
    [src/worker.js] returns the table as it was and hands nothing to
    [notifyWooCommerce]; in [qris-integration.js] the body of [forEach]
    skips every expectation it is given, so that [markPaymentCompleted] is
    never called. *)
Theorem ambiguous_amount_changes_nothing
    db text title bigText amountDetected clock e1 e2 :
  In e1 db -> In e2 db -> e1 <> e2 ->
  recentlyPending amountDetected (t_count clock) e1 ->
  recentlyPending amountDetected (t_count clock) e2 ->
  unmentioned db (searchTextOf text title bigText) amountDetected ->
  Worker.checkPaymentMatch db text title bigText amountDetected clock = (db, [])
  /\ forall e,
       In e (Node.selectPending db amountDetected (normalize amountDetected)
               (t_select clock)) ->
       Node.decide db (searchTextOf text title bigText) amountDetected
         (normalize amountDetected) (t_count clock) e = None.
Proof.
  intros H1 H2 Hne R1 R2 Hun.
  pose proof (recentlyPending_pending _ _ _ R1) as P1.
  pose proof (recentlyPending_pending _ _ _ R2) as P2.
  split.
  - unfold Worker.checkPaymentMatch.
    destruct (Worker.selectPending db amountDetected (normalize amountDetected)
                (t_select clock)) as [|x rest] eqn:Hsel; [reflexivity|].
    cbv zeta. unfold Worker.choose.
    rewrite find_nowhere.
    2:{ intros y Hy. rewrite <- Hsel in Hy.
        eapply unmentioned_worker; eauto. }
    assert (Hcount : (Worker.countPending db amountDetected
                        (normalize amountDetected) (t_count clock) =? 1)
                     = false).
    { apply Z.eqb_neq. unfold Worker.countPending.
      pose proof (filter_two
                    (Worker.candidate amountDetected (normalize amountDetected)
                       (t_count clock)) db e1 e2 H1 H2 Hne
                    (proj2 (worker_candidate_iff _ _ _) P1)
                    (proj2 (worker_candidate_iff _ _ _) P2)).
      lia. }
    rewrite Hcount. reflexivity.
  - intros e He. unfold Node.decide.
    rewrite (unmentioned_node _ _ _ _ _ Hun He).
    assert (Hcount : (Node.countPending db amountDetected
                        (normalize amountDetected) (t_count clock) =? 1)
                     = false).
    { apply Z.eqb_neq. unfold Node.countPending.
      pose proof (filter_two
                    (Node.candidate 5 amountDetected (normalize amountDetected)
                       (t_count clock)) db e1 e2 H1 H2 Hne
                    (node_candidate_of_pending _ _ _ P1)
                    (node_candidate_of_pending _ _ _ P2)).
      lia. }
    rewrite Hcount. reflexivity.
Qed.

Lemma ambiguous_amount_changes_nothing_witness :
  Worker.checkPaymentMatch [Samples.order1; Samples.order2]
    "Transfer masuk Rp50.123" "m-Banking" None "50123" Samples.sampleClock
  = ([Samples.order1; Samples.order2], [])
  /\ forall e,
       In e (Node.selectPending [Samples.order1; Samples.order2] "50123"
               (normalize "50123") (t_select Samples.sampleClock)) ->
       Node.decide [Samples.order1; Samples.order2]
         (searchTextOf "Transfer masuk Rp50.123" "m-Banking" None) "50123"
         (normalize "50123") (t_count Samples.sampleClock) e = None.
Proof.
  apply (ambiguous_amount_changes_nothing [Samples.order1; Samples.order2]
           "Transfer masuk Rp50.123" "m-Banking" None "50123"
           Samples.sampleClock Samples.order1 Samples.order2).
  - simpl. auto.
  - simpl. auto.
  - discriminate.
  - repeat split; vm_compute; reflexivity.
  - repeat split; vm_compute; reflexivity.
  - intros e [<- | [<- | []]] _ _; vm_compute; reflexivity.
Defined.

(** C7, counterexample, in [qris-integration.js].  First: two pending
    expectations of the same amount, registered twenty minutes and one
    minute before the notification, which names neither.  Both are inside
    the thirty minutes of the select and only the later one is inside the
    five minutes of the count; ten minutes after midnight the two queries
    find just that, the count is 1, and [markPaymentCompleted] is called
    for both: both end up completed.
    Second: two such expectations inside the five minutes, and a third
    pending one that stores the reported amount as its original amount and
    is named in the text; it is selected, passed on as an order-reference
    match and completed. *)
Lemma node_completes_ambiguous_candidates :
  (Node.selectPending [Samples.orderBeforeMidnight; Samples.orderAfterMidnight]
     "50123" (normalize "50123") (t_select Samples.midnightClock)
   = [Samples.orderBeforeMidnight; Samples.orderAfterMidnight]
   /\ t_select Samples.midnightClock - 30 * 60
      < created_at Samples.orderBeforeMidnight
   /\ t_select Samples.midnightClock - 30 * 60
      < created_at Samples.orderAfterMidnight
   /\ created_at Samples.orderBeforeMidnight
      < t_count Samples.midnightClock - 5 * 60
   /\ t_count Samples.midnightClock - 5 * 60
      < created_at Samples.orderAfterMidnight
   /\ mentions (searchTextOf "Transfer masuk Rp50.123" "m-Banking" None)
        Samples.orderBeforeMidnight = false
   /\ mentions (searchTextOf "Transfer masuk Rp50.123" "m-Banking" None)
        Samples.orderAfterMidnight = false
   /\ Node.decide [Samples.orderBeforeMidnight; Samples.orderAfterMidnight]
        (searchTextOf "Transfer masuk Rp50.123" "m-Banking" None)
        "50123" (normalize "50123") (t_count Samples.midnightClock)
        Samples.orderBeforeMidnight
      = Some amount_only_match
   /\ Node.decide [Samples.orderBeforeMidnight; Samples.orderAfterMidnight]
        (searchTextOf "Transfer masuk Rp50.123" "m-Banking" None)
        "50123" (normalize "50123") (t_count Samples.midnightClock)
        Samples.orderAfterMidnight
      = Some amount_only_match
   /\ List.map status
        (fst (Node.markPaymentCompleted
                (fst (Node.markPaymentCompleted
                        [Samples.orderBeforeMidnight; Samples.orderAfterMidnight]
                        Samples.orderBeforeMidnight "50123"
                        "Transfer masuk Rp50.123" amount_only_match
                        Samples.midnightClock))
                Samples.orderAfterMidnight "50123" "Transfer masuk Rp50.123"
                amount_only_match Samples.midnightClock))
      = [completed; completed])
  /\ (Properties.recentlyPending "50123" (t_count Samples.sampleClock) Samples.order1
      /\ Properties.recentlyPending "50123" (t_count Samples.sampleClock)
           Samples.order2
      /\ mentions (searchTextOf "Transfer Rp50.123 ORDER_9" "m-Banking" None)
           Samples.order1 = false
      /\ mentions (searchTextOf "Transfer Rp50.123 ORDER_9" "m-Banking" None)
           Samples.order2 = false
      /\ In Samples.order9
           (Node.selectPending [Samples.order1; Samples.order2; Samples.order9]
              "50123" (normalize "50123") (t_select Samples.sampleClock))
      /\ Node.decide [Samples.order1; Samples.order2; Samples.order9]
           (searchTextOf "Transfer Rp50.123 ORDER_9" "m-Banking" None)
           "50123" (normalize "50123") (t_count Samples.sampleClock) Samples.order9
         = Some order_reference_match
      /\ Node.markPaymentCompleted [Samples.order1; Samples.order2; Samples.order9]
           Samples.order9 "50123" "Transfer Rp50.123 ORDER_9"
           order_reference_match Samples.sampleClock
         = ([Samples.order1; Samples.order2;
             setStatus completed (Some 1102) Samples.order9],
            [paymentData "https://shop.example/wc-api/qris" Samples.order9
               "50123" "Transfer Rp50.123 ORDER_9" order_reference_match 1103])).
Proof.
  split.
  - repeat split; vm_compute; reflexivity.
  - repeat split; try (vm_compute; reflexivity). right. right. left. reflexivity.
Qed.

(** [markPaymentCompleted] of [qris-integration.js]: the update, the check
    and what follows from it. *)
Lemma node_markPaymentCompleted_outcome db e amountDetected text matchType clock :
  let marked := update db (id e) completed (Some (t_update clock)) in
  let result := Node.markPaymentCompleted db e amountDetected text matchType clock in
  (accepted e amountDetected ->
   result = (marked, notify e amountDetected text matchType (t_notify clock))
   /\ (In e db -> In (setStatus completed (Some (t_update clock)) e) (fst result))
   /\ forall row, In row (fst result) -> id row = id e ->
                  status row = completed
                  /\ completed_at row = Some (t_update clock))
  /\ (~ accepted e amountDetected ->
      result = (update db (id e) pending None, [])
      /\ (In e db -> In (setStatus pending None e) (fst result))
      /\ forall row, In row (fst result) -> id row = id e ->
                     status row = pending /\ completed_at row = None)
  /\ (forall row, id row <> id e -> (In row (fst result) <-> In row db))
  /\ (snd result <> [] ->
      accepted e amountDetected /\ truthy (callback_url e) = true).
Proof.
  intros marked result. subst marked result. unfold Node.markPaymentCompleted.
  pose proof (verified_accepted e amountDetected) as Hv.
  assert (Hrows : forall st at_ row,
             In row (update db (id e) st at_) -> id row = id e ->
             status row = st /\ completed_at row = at_).
  { intros st at_ row Hin Hid. apply update_in in Hin.
    destruct Hin as (x & _ & [[_ ->] | [Hx ->]]); [auto | contradiction]. }
  assert (Hother : forall st at_ row,
             id row <> id e -> (In row (update db (id e) st at_) <-> In row db)).
  { intros st at_ row Hid. split.
    - intros Hin. apply update_in in Hin.
      destruct Hin as (x & Hx & [[Hx1 ->] | [_ ->]]); [|exact Hx].
      exfalso. apply Hid. exact Hx1.
    - intros Hin. unfold update. apply in_map_iff. exists row.
      destruct (Z.eqb_spec (id row) (id e)); [contradiction | auto]. }
  destruct (Node.verified e amountDetected) eqn:Hver.
  - assert (Hacc : accepted e amountDetected) by (apply Hv; reflexivity).
    cbn [fst snd].
    split; [intros _; split; [reflexivity | split]|].
    { intros Hin. apply update_hit. exact Hin. }
    { intros row Hin Hid. eapply Hrows; eauto. }
    split; [intros Hn; contradiction|].
    split; [intros row Hid; apply Hother; assumption|].
    intros Hcb. split; [exact Hacc|].
    unfold notify in Hcb. destruct (truthy (callback_url e)); congruence.
  - assert (Hacc : ~ accepted e amountDetected).
    { intros Ha. apply Hv in Ha. discriminate. }
    rewrite update_twice. cbn [fst snd].
    split; [intros Ha; contradiction|].
    split; [intros _; split; [reflexivity | split]|].
    { intros Hin. apply update_hit. exact Hin. }
    { intros row Hin Hid. eapply Hrows; eauto. }
    split; [intros row Hid; apply Hother; assumption|].
    intros Hcb. congruence.
Qed.

Lemma worker_choose_candidate db expectations searchText amountDetected clock
    e matchType :
  (forall x, In x expectations -> In x db /\ status x = pending) ->
  Worker.choose db expectations searchText amountDetected
    (normalize amountDetected) clock = Some (e, matchType) ->
  In e db /\ status e = pending.
Proof.
  intros Hsub. unfold Worker.choose.
  destruct (find (mentions searchText) expectations) as [x|] eqn:Hf.
  - intros [= <- _]. apply find_in in Hf. apply Hsub. tauto.
  - destruct (Worker.countPending db amountDetected (normalize amountDetected)
                (t_count clock) =? 1); [|discriminate].
    destruct expectations as [|first rest]; [discriminate|].
    intros [= <- _]. apply Hsub. left. reflexivity.
Qed.

(** [checkPaymentMatch] of [src/worker.js]: the amount is checked before the
    update, so a call either changes nothing or completes one pending
    expectation whose expected amount equals the detected amount after
    normalization. *)
Lemma worker_checkPaymentMatch_outcome db text title bigText amountDetected clock :
  Worker.checkPaymentMatch db text title bigText amountDetected clock = (db, [])
  \/ exists e matchType,
       In e db /\ status e = pending
       /\ normalize amountDetected = normalize (expected_amount e)
       /\ Worker.checkPaymentMatch db text title bigText amountDetected clock
          = (update db (id e) completed (Some (t_update clock)),
             notify e amountDetected text matchType (t_notify clock)).
Proof.
  unfold Worker.checkPaymentMatch.
  destruct (Worker.selectPending db amountDetected (normalize amountDetected)
              (t_select clock)) as [|x rest] eqn:Hsel; [left; reflexivity|].
  cbv zeta.
  destruct (Worker.choose db (x :: rest) (searchTextOf text title bigText)
              amountDetected (normalize amountDetected) clock)
    as [[e matchType]|] eqn:Hch; [|left; reflexivity].
  destruct (String.eqb_spec (normalize amountDetected)
              (normalize (expected_amount e))) as [Heq | Hne];
    [right | left; reflexivity].
  exists e, matchType.
  assert (Hin : In e db /\ status e = pending).
  { eapply worker_choose_candidate; [|exact Hch].
    intros y Hy. rewrite <- Hsel in Hy. unfold Worker.selectPending in Hy.
    apply orderByCreatedDesc_in in Hy. apply filter_In in Hy.
    destruct Hy as [Hy Hc]. apply worker_candidate_iff in Hc.
    destruct Hc as (Hs & _). auto. }
  destruct Hin as [Hin Hs]. auto.
Qed.

(** C6, as the code has it.  In [qris-integration.js],
    [markPaymentCompleted] first sets the row to completed with the time of
    the update; the amount is then accepted when, after normalization, it
    equals the expected amount, or else a stored original amount, or else a
    stored unique amount.  When it is accepted the row stays completed and
    the callback is handed over if the expectation has a callback URL; when
    it is not, the row is set back to pending, [completed_at] is cleared and
    nothing is handed over; rows with another id are never touched.  In
    [src/worker.js] the amount is compared with the expected amount before
    any update: a call changes nothing and hands nothing over unless the
    two are equal after normalization. *)
Theorem matcher_verifies_amount :
  (forall db e amountDetected text matchType clock,
      let marked := update db (id e) completed (Some (t_update clock)) in
      let result :=
        Node.markPaymentCompleted db e amountDetected text matchType clock in
      (accepted e amountDetected ->
       result = (marked, notify e amountDetected text matchType (t_notify clock))
       /\ (In e db ->
           In (setStatus completed (Some (t_update clock)) e) (fst result))
       /\ forall row, In row (fst result) -> id row = id e ->
                      status row = completed
                      /\ completed_at row = Some (t_update clock))
      /\ (~ accepted e amountDetected ->
          result = (update db (id e) pending None, [])
          /\ (In e db -> In (setStatus pending None e) (fst result))
          /\ forall row, In row (fst result) -> id row = id e ->
                         status row = pending /\ completed_at row = None)
      /\ (forall row, id row <> id e -> (In row (fst result) <-> In row db))
      /\ (snd result <> [] ->
          accepted e amountDetected /\ truthy (callback_url e) = true))
  /\ (forall db text title bigText amountDetected clock,
         Worker.checkPaymentMatch db text title bigText amountDetected clock
         = (db, [])
         \/ exists e matchType,
              In e db /\ status e = pending
              /\ normalize amountDetected = normalize (expected_amount e)
              /\ Worker.checkPaymentMatch db text title bigText amountDetected
                   clock
                 = (update db (id e) completed (Some (t_update clock)),
                    notify e amountDetected text matchType (t_notify clock))).
Proof.
  split.
  - intros db e amountDetected text matchType clock.
    exact (node_markPaymentCompleted_outcome db e amountDetected text matchType
             clock).
  - exact worker_checkPaymentMatch_outcome.
Qed.

(** The revert of [qris-integration.js] at work: an amount that equals none
    of the three columns leaves the row pending, without [completed_at] and
    without a callback. *)
Example markPaymentCompleted_reverts :
  Node.markPaymentCompleted [Samples.order1; Samples.order2] Samples.order1
    "999" "Pembayaran ORDER_1" order_reference_match Samples.sampleClock
  = ([Samples.order1; Samples.order2], []).
Proof. vm_compute. reflexivity. Qed.

(** A mismatch after normalization in [src/worker.js]: the store selects
    [ORDER_3] for the amount 0, the code finds ["0"] and ["NaN"] different and
    leaves everything as it was. *)
Example worker_mismatch_changes_nothing :
  Worker.selectPending [Samples.order3] "0" (normalize "0")
    (t_select Samples.sampleClock) = [Samples.order3]
  /\ Worker.checkPaymentMatch [Samples.order3] "Transfer Rp0" "m-Banking" None
       "0" Samples.sampleClock
     = ([Samples.order3], []).
Proof. split; vm_compute; reflexivity. Qed.

(** C6, counterexample: order [ORDER_1] expects 50123 and stores the
    original amount 50000.  A notification over 50000 that names the order
    is passed on as an order-reference match; the detected amount differs
    from the expected amount after normalization, and yet the row ends up
    completed and the callback is handed over. *)
Lemma markPaymentCompleted_accepts_original_amount :
  normalize "50000" <> normalize (expected_amount Samples.order1)
  /\ Node.decide [Samples.order1]
       (searchTextOf "Pembayaran ORDER_1 Rp50.000" "QRIS" None)
       "50000" (normalize "50000") (t_count Samples.sampleClock) Samples.order1
     = Some order_reference_match
  /\ Node.markPaymentCompleted [Samples.order1] Samples.order1 "50000"
       "Pembayaran ORDER_1 Rp50.000" order_reference_match Samples.sampleClock
     = ([setStatus completed (Some 1102) Samples.order1],
        [paymentData "https://shop.example/wc-api/qris" Samples.order1 "50000"
           "Pembayaran ORDER_1 Rp50.000" order_reference_match 1103]).
Proof.
  split; [vm_compute; discriminate|].
  split; vm_compute; reflexivity.
Qed.

Lemma insertDesc_keeps (e x : Expectation) (sorted : list Expectation) :
  x = e \/ In x sorted -> In x (insertDesc e sorted).
Proof.
  induction sorted as [|y rest IH]; simpl.
  - intros [-> | []]. left. reflexivity.
  - destruct (created_at y <? created_at e); simpl.
    + intros [-> | H]; auto.
    + intros [-> | [-> | H]]; auto.
Qed.

Lemma orderByCreatedDesc_keeps (x : Expectation) (rows : list Expectation) :
  In x rows -> In x (orderByCreatedDesc rows).
Proof.
  induction rows as [|e rows IH]; simpl; [tauto|].
  intros [-> | H]; apply insertDesc_keeps; auto.
Qed.

Lemma find_somewhere {A : Type} (f : A -> bool) (l : list A) (x : A) :
  In x l -> f x = true -> exists y, find f l = Some y.
Proof.
  induction l as [|z l IH]; intros Hin Hf; [destruct Hin|].
  simpl. destruct (f z) eqn:Hz; [eauto|].
  destruct Hin as [-> | Hin]; [congruence | auto].
Qed.

(** Precedence of the order reference in [src/worker.js]: when one
    candidate is the only one whose order reference occurs in the search
    text and its expected amount equals the detected amount after
    normalization, that candidate is completed as an order-reference match,
    whatever other candidates expect the same amount. *)
Theorem worker_prefers_mentioned_reference
    db text title bigText amountDetected clock e :
  In e db ->
  pendingWithAmount amountDetected (t_select clock) e ->
  mentions (searchTextOf text title bigText) e = true ->
  (forall x, In x db ->
             pendingWithAmount amountDetected (t_select clock) x ->
             mentions (searchTextOf text title bigText) x = true -> x = e) ->
  normalize amountDetected = normalize (expected_amount e) ->
  Worker.checkPaymentMatch db text title bigText amountDetected clock
  = (update db (id e) completed (Some (t_update clock)),
     notify e amountDetected text order_reference_match (t_notify clock)).
Proof.
  intros Hin Hp Hm Honly Heq. unfold Worker.checkPaymentMatch.
  assert (Hsel : In e (Worker.selectPending db amountDetected
                         (normalize amountDetected) (t_select clock))).
  { unfold Worker.selectPending. apply orderByCreatedDesc_keeps.
    apply filter_In. split; [exact Hin|]. apply worker_candidate_iff. exact Hp. }
  destruct (Worker.selectPending db amountDetected (normalize amountDetected)
              (t_select clock)) as [|x rest] eqn:Hs; [destruct Hsel|].
  cbv zeta. unfold Worker.choose.
  destruct (find_somewhere _ _ _ Hsel Hm) as [y Hy]. rewrite Hy.
  assert (y = e).
  { apply find_in in Hy. destruct Hy as [Hy1 Hy2].
    rewrite <- Hs in Hy1. unfold Worker.selectPending in Hy1.
    apply orderByCreatedDesc_in in Hy1. apply filter_In in Hy1.
    destruct Hy1 as [Hy1 Hc]. apply worker_candidate_iff in Hc.
    apply Honly; assumption. }
  subst y. rewrite Heq, String.eqb_refl. reflexivity.
Qed.

Lemma worker_prefers_mentioned_reference_witness :
  Worker.checkPaymentMatch [Samples.order1; Samples.order2]
    "Transfer Rp50.123 order_2" "m-Banking" None "50123" Samples.sampleClock
  = (update [Samples.order1; Samples.order2] (id Samples.order2) completed
       (Some (t_update Samples.sampleClock)),
     notify Samples.order2 "50123" "Transfer Rp50.123 order_2"
       order_reference_match (t_notify Samples.sampleClock)).
Proof.
  apply (worker_prefers_mentioned_reference [Samples.order1; Samples.order2]
           "Transfer Rp50.123 order_2" "m-Banking" None "50123"
           Samples.sampleClock Samples.order2).
  - simpl. auto.
  - repeat split; vm_compute; reflexivity.
  - vm_compute. reflexivity.
  - intros x [<- | [<- | []]] _ Hm; [vm_compute in Hm; discriminate | reflexivity].
  - vm_compute. reflexivity.
Defined.

End MatcherTheorems.

(** ** Reading the amount back *)

Module RoundTripFacts.

Import Converter Properties StringFacts ConverterFacts.

Lemma append_assoc (a b c : string) : (a ++ b) ++ c = a ++ (b ++ c).
Proof. induction a as [|x a IH]; simpl; congruence. Qed.

Lemma matchAmount_unfold (qris : string) :
  matchAmount qris
  = match matchAmountAt qris with
    | Some m => Some m
    | None =>
        match qris with
        | EmptyString => None
        | String _ rest => matchAmount rest
        end
    end.
Proof. destruct qris; reflexivity. Qed.

Lemma startsWith_54_append (c : ascii) (p x : string) :
  JS.startsWith (String c p) "54" = false ->
  JS.startsWith (String c (p ++ String "5" x)) "54" = false.
Proof.
  destruct p as [|c2 p]; simpl.
  - intros _. rewrite andb_false_r. reflexivity.
  - destruct p; simpl; auto.
Qed.

(** The search passes over a prefix that holds no [54], when what follows
    begins with [5]. *)
Lemma matchAmount_skip (p x : string) :
  JS.includes p "54" = false ->
  matchAmount (p ++ String "5" x) = matchAmount (String "5" x).
Proof.
  induction p as [|c p IH]; intros H; [reflexivity|].
  rewrite includes_cons in H. apply orb_false_iff in H. destruct H as [H1 H2].
  simpl append. rewrite matchAmount_unfold.
  unfold matchAmountAt. rewrite (startsWith_54_append c p x H1).
  apply IH. exact H2.
Qed.

Lemma formatLength_table :
  forallb (fun n => twoDigitsOf n (formatLengthOf n)) (JS.rangeFrom 1 99) = true.
Proof. vm_compute. reflexivity. Qed.

Lemma formatLength_two_digits (str : string) :
  1 <= JS.len str <= 99 ->
  exists d1 d2,
    formatLength str = String d1 (String d2 EmptyString)
    /\ JS.isDigit d1 = true /\ JS.isDigit d2 = true
    /\ JS.parseInt (formatLength str) = Some (JS.len str).
Proof.
  intros Hn. change (formatLength str) with (formatLengthOf (JS.len str)).
  assert (Hin : In (JS.len str) (JS.rangeFrom 1 99))
    by (apply rangeFrom_complete; lia).
  pose proof (proj1 (forallb_forall _ _) formatLength_table _ Hin) as H.
  unfold twoDigitsOf in H.
  destruct (formatLengthOf (JS.len str)) as [|d1 [|d2 [|d3 r]]];
    try discriminate.
  apply andb_true_iff in H. destruct H as [H H3].
  apply andb_true_iff in H. destruct H as [H1 H2].
  exists d1, d2. repeat split; auto.
  destruct (JS.parseInt (String d1 (String d2 ""))) as [m|]; [|discriminate].
  apply Z.eqb_eq in H3. congruence.
Qed.

Lemma digitRun_append (a t : string) :
  JS.allDigits a = true -> digitRun (a ++ t) = a ++ digitRun t.
Proof.
  induction a as [|c a IH]; simpl; [reflexivity|].
  intros H. apply andb_true_iff in H. destruct H as [Hc Ha].
  rewrite Hc, IH by exact Ha. reflexivity.
Qed.

Lemma substring_prefix (a t : string) :
  JS.substring (a ++ t) 0 (JS.len a) = a.
Proof.
  unfold JS.substring, JS.len. rewrite length_append.
  replace (Z.max 0 (Z.min 0 (Z.of_nat (String.length a + String.length t))))
    with 0 by lia.
  replace (Z.max 0 (Z.min (Z.of_nat (String.length a))
                          (Z.of_nat (String.length a + String.length t))))
    with (Z.of_nat (String.length a)) by lia.
  rewrite Z.min_l, Z.max_r, Z.sub_0_r, Nat2Z.id by lia.
  simpl JS.drop. apply take_append.
Qed.

(** The amount field at the head of a string is read back. *)
Lemma extractAmount_at_field (amountStr tail : string) :
  JS.isDigitString amountStr = true ->
  JS.len amountStr <= 99 ->
  extractAmount (String "5" ("4" ++ formatLength amountStr ++ amountStr ++ tail))
  = Some amountStr.
Proof.
  intros Hd Hlen.
  assert (Hne : amountStr <> EmptyString) by (intros ->; discriminate).
  assert (Hall : JS.allDigits amountStr = true).
  { destruct amountStr; [congruence | exact Hd]. }
  assert (Hpos : 1 <= JS.len amountStr <= 99).
  { unfold JS.len in *. destruct amountStr; [congruence|].
    cbn [String.length] in *. lia. }
  destruct (formatLength_two_digits amountStr Hpos) as (d1 & d2 & Hf & H1 & H2 & Hp).
  unfold extractAmount. rewrite matchAmount_unfold.
  unfold matchAmountAt. rewrite Hf in *.
  cbn [append JS.startsWith JS.drop Ascii.eqb Bool.eqb andb].
  rewrite H1, H2. cbn [andb].
  assert (Hs : JS.startsWithDigit (amountStr ++ tail) = true).
  { destruct amountStr as [|c a]; [congruence|]. simpl in *.
    apply andb_true_iff in Hall. tauto. }
  rewrite Hs, Hp, digitRun_append by exact Hall.
  replace (JS.len (amountStr ++ digitRun tail) >=? JS.len amountStr) with true.
  - rewrite substring_prefix. reflexivity.
  - symmetry. unfold JS.len. rewrite length_append.
    rewrite Z.geb_leb. apply Z.leb_le. lia.
Qed.

Lemma buildAmountField_shape (amountStr : string) serviceFee amountField :
  buildAmountField amountStr serviceFee = inl amountField ->
  exists tail,
    amountField
    = String "5" ("4" ++ formatLength amountStr ++ amountStr ++ tail).
Proof.
  unfold buildAmountField. cbv zeta.
  destruct serviceFee as [fee|].
  - destruct (String.eqb (fee_type fee) "rupiah");
      [|destruct (String.eqb (fee_type fee) "percent")];
      try (destruct (feeText fee) as [feeStr | message]; [|discriminate]);
      intros [= <-];
      eexists; cbn [append]; rewrite ?append_assoc; cbn [append];
      rewrite ?append_assoc; reflexivity.
  - intros [= <-]. eexists. cbn [append]. rewrite ?append_assoc. reflexivity.
Qed.

Lemma extractAmount_of_payload part0 part1 amountStr serviceFee amountField crc :
  buildAmountField amountStr serviceFee = inl amountField ->
  JS.includes part0 "54" = false ->
  JS.isDigitString amountStr = true ->
  JS.len amountStr <= 99 ->
  extractAmount ((part0 ++ amountField ++ part1) ++ crc) = Some amountStr.
Proof.
  intros Hb Hinc Hd Hlen.
  destruct (buildAmountField_shape amountStr serviceFee amountField Hb)
    as [tail Ht].
  replace ((part0 ++ amountField ++ part1) ++ crc)
    with (part0 ++ String "5"
            ("4" ++ formatLength amountStr ++ amountStr
             ++ (tail ++ part1 ++ crc))).
  - unfold extractAmount. rewrite matchAmount_skip by exact Hinc.
    apply extractAmount_at_field; assumption.
  - rewrite Ht. repeat (rewrite append_assoc || cbn [append]). reflexivity.
Qed.

(** Where the round trip of C1 does hold: when the payload converts, the
    amount has at most 99 digits and the part of the payload before the
    sentinel holds no [54], the amount read back from the dynamic payload is
    the amount that was written, with or without a service fee. *)
Theorem extractAmount_roundtrip staticQRIS amountStr serviceFee dynamicQRIS :
  convertStaticToDynamic (Some staticQRIS) (AmountString amountStr) serviceFee
  = Returned dynamicQRIS ->
  JS.len amountStr <= 99 ->
  (forall part0 part1,
      sentinelParts staticQRIS = [part0; part1] -> ~ contains part0 "54") ->
  extractAmount dynamicQRIS = Some amountStr.
Proof.
  intros H Hlen Hno.
  pose proof (convert_cases (Some staticQRIS) (AmountString amountStr) serviceFee)
    as Hc.
  rewrite H in Hc.
  inversion Hc as [| | | | s part0 part1 amountField Hs Hne Ha Hd Hp Hb Heq].
  injection Hs as <-. cbn [amountToString] in *.
  assert (Hinc : JS.includes part0 "54" = false).
  { destruct (JS.includes part0 "54") eqn:Hi; [|reflexivity].
    exfalso. apply (Hno part0 part1 Hp). apply includes_contains. exact Hi. }
  cbv zeta. apply (extractAmount_of_payload _ _ amountStr serviceFee); assumption.
Qed.

Lemma extractAmount_roundtrip_witness :
  extractAmount
    "00020101021226570011ID.DANA.WWW011893600915302259148102090225914810303UMI51440014ID.CO.QRIS.WWW0215ID10200176114730303UMI5204581253033605405500005802ID5922Warung Sayur Bu Sugeng6010Kab. Demak61055956763040F25"
  = Some "50000".
Proof.
  apply (extractAmount_roundtrip Samples.sampleStatic "50000" None).
  - vm_compute. reflexivity.
  - vm_compute. discriminate.
  - intros part0 part1 Hp Hc. vm_compute in Hp. injection Hp as <- <-.
    apply includes_contains in Hc. vm_compute in Hc. discriminate.
Defined.

End RoundTripFacts.

(** ** Reading a payload field by field, and the generated samples *)

Module ParserFacts.
Import Converter Parser Tlv Properties StringFacts.

Lemma length_drop (n : nat) (s : string) :
  String.length (JS.drop n s) = (String.length s - n)%nat.
Proof.
  revert s. induction n as [|n IH]; intros [|c s]; simpl; auto; lia.
Qed.

Lemma drop_app_le (n : nat) (p t : string) :
  (n <= String.length p)%nat -> JS.drop n (p ++ t) = JS.drop n p ++ t.
Proof.
  revert p. induction n as [|n IH]; intros [|c p] H; simpl in *; auto; try lia.
  apply IH. lia.
Qed.

Lemma take_app_le (n : nat) (p t : string) :
  (n <= String.length p)%nat -> JS.take n (p ++ t) = JS.take n p.
Proof.
  revert p. induction n as [|n IH]; intros [|c p] H; simpl in *; auto; try lia.
  f_equal. apply IH. lia.
Qed.

Lemma len_append (a b : string) : JS.len (a ++ b) = JS.len a + JS.len b.
Proof. unfold JS.len. rewrite length_append. lia. Qed.

Lemma len_nonneg (s : string) : 0 <= JS.len s.
Proof. unfold JS.len. lia. Qed.

(** A slice that lies within a prefix does not see what follows. *)
Lemma slice_prefix (p t : string) (a b : Z) :
  0 <= a -> a <= b -> b <= JS.len p ->
  JS.slice (p ++ t) a b = JS.slice p a b.
Proof.
  intros Ha Hab Hb. unfold JS.slice. rewrite len_append.
  pose proof (len_nonneg t) as Ht.
  replace (a <? 0) with false by (symmetry; apply Z.ltb_ge; lia).
  replace (b <? 0) with false by (symmetry; apply Z.ltb_ge; lia).
  rewrite !Z.min_l by lia.
  unfold JS.len in Hb.
  rewrite drop_app_le by lia.
  apply take_app_le. rewrite length_drop. lia.
Qed.

(** The slice that starts after [a] and spans [x]. *)
Lemma slice_middle (a x b : string) :
  JS.slice (a ++ x ++ b) (JS.len a) (JS.len a + JS.len x) = x.
Proof.
  unfold JS.slice. rewrite !len_append.
  pose proof (len_nonneg a). pose proof (len_nonneg x). pose proof (len_nonneg b).
  replace (JS.len a <? 0) with false by (symmetry; apply Z.ltb_ge; lia).
  replace (JS.len a + JS.len x <? 0) with false by (symmetry; apply Z.ltb_ge; lia).
  rewrite !Z.min_l by lia.
  replace (JS.len a + JS.len x - JS.len a) with (JS.len x) by lia.
  unfold JS.len. rewrite !Nat2Z.id.
  rewrite drop_append. apply take_append.
Qed.


Lemma formatLength_read_table :
  forallb lengthRead (JS.upTo 100) = true.
Proof. vm_compute. reflexivity. Qed.

(** [formatLength] writes two characters that [parseInt] reads back, up to
    the length 99. *)
Lemma formatLength_reads (value : string) :
  JS.len value <= 99 ->
  JS.len (formatLength value) = 2
  /\ JS.parseInt (formatLength value) = Some (JS.len value).
Proof.
  intros Hn. change (formatLength value) with (formatLengthOf (JS.len value)).
  pose proof (len_nonneg value) as H0.
  assert (Hin : In (JS.len value) (JS.upTo 100)) by (apply upTo_complete; lia).
  pose proof (proj1 (forallb_forall _ _) formatLength_read_table _ Hin) as H.
  unfold lengthRead in H. apply andb_true_iff in H. destruct H as [H1 H2].
  split.
  - unfold JS.len at 1. apply Nat.eqb_eq in H1. rewrite H1. reflexivity.
  - destruct (JS.parseInt (formatLengthOf (JS.len value))) as [m|]; [|discriminate].
    apply Z.eqb_eq in H2. congruence.
Qed.

(** One pass over a well-formed field that starts at [pos]. *)
Lemma walkStep_field (pre rest : string) (f : Field) (info : MerchantInfo) :
  wellFormed f ->
  walkStep (pre ++ encodeField f ++ rest) (JS.len pre) info
  = Next (JS.len pre + JS.len (encodeField f)) (store info (fst f) (snd f)).
Proof.
  intros [Htag Hval]. destruct f as [tag value]. cbn [fst snd] in *.
  unfold encodeField. cbn [fst snd].
  destruct (formatLength_reads value Hval) as [Hl Hp].
  assert (Ht : JS.len tag = 2) by (unfold JS.len; rewrite Htag; reflexivity).
  set (fl := formatLength value) in *.
  set (q := pre ++ (tag ++ fl ++ value) ++ rest).
  assert (Hq1 : q = pre ++ tag ++ (fl ++ value ++ rest)).
  { unfold q. rewrite !RoundTripFacts.append_assoc. reflexivity. }
  assert (Hq2 : q = (pre ++ tag) ++ fl ++ (value ++ rest)).
  { unfold q. rewrite !RoundTripFacts.append_assoc. reflexivity. }
  assert (Hq3 : q = (pre ++ tag ++ fl) ++ value ++ rest).
  { unfold q. rewrite !RoundTripFacts.append_assoc. reflexivity. }
  assert (Hlen : JS.len q = JS.len pre + 4 + JS.len value + JS.len rest).
  { unfold q. rewrite !len_append. lia. }
  unfold walkStep.
  assert (Stag : JS.slice q (JS.len pre) (JS.len pre + 2) = tag).
  { rewrite Hq1, <- Ht. apply slice_middle. }
  assert (Slen : JS.slice q (JS.len pre + 2) (JS.len pre + 4) = fl).
  { rewrite Hq2.
    replace (JS.len pre + 2) with (JS.len (pre ++ tag)) by (rewrite len_append; lia).
    replace (JS.len pre + 4) with (JS.len (pre ++ tag) + JS.len fl)
      by (rewrite len_append; lia).
    apply slice_middle. }
  assert (Sval : JS.slice q (JS.len pre + 4) (JS.len pre + 4 + JS.len value) = value).
  { rewrite Hq3.
    replace (JS.len pre + 4) with (JS.len (pre ++ tag ++ fl))
      by (rewrite !len_append; lia).
    apply slice_middle. }
  rewrite Stag, Slen, Hp, Sval.
  pose proof (len_nonneg rest).
  replace (JS.len pre + 4 + JS.len value >? JS.len q) with false
    by (symmetry; rewrite Z.gtb_ltb; apply Z.ltb_ge; lia).
  f_equal. rewrite !len_append. lia.
Qed.

Lemma walk_unfold (fuel : nat) (qris : string) (pos : Z) (info : MerchantInfo) :
  walk fuel qris pos info
  = if pos <? JS.len qris - 4
    then match fuel with
         | O => None
         | S fuel' =>
             match walkStep qris pos info with
             | Break => Some info
             | Next pos' info' => walk fuel' qris pos' info'
             end
         end
    else Some info.
Proof. destruct fuel; reflexivity. Qed.

(** The walk over a sequence of well-formed fields that is followed by at
    least one more character. *)
Lemma walk_fields (fields : list Field) :
  forall pre rest info fuel,
    Forall wellFormed fields ->
    1 <= JS.len rest ->
    walk (List.length fields + fuel) (pre ++ encode fields ++ rest) (JS.len pre) info
    = walk fuel (pre ++ encode fields ++ rest)
        (JS.len pre + JS.len (encode fields)) (collectFrom info fields).
Proof.
  induction fields as [|f fields IH]; intros pre rest info fuel Hwf Hrest.
  - cbn [encode List.length Nat.add collectFrom fold_left JS.len String.length].
    f_equal. unfold JS.len. cbn [String.length]. lia.
  - inversion Hwf as [|f' fs' Hf Hfs]; subst.
    cbn [List.length Nat.add encode].
    rewrite walk_unfold.
    assert (Hfl : 4 <= JS.len (encodeField f)).
    { destruct Hf as [H1 H2]. unfold encodeField.
      destruct (formatLength_reads (snd f) H2) as [Hl _].
      rewrite !len_append, Hl. unfold JS.len at 1. rewrite H1.
      pose proof (len_nonneg (snd f)). lia. }
    pose proof (len_nonneg (encode fields)) as Hnn.
    replace (JS.len pre <? JS.len (pre ++ (encodeField f ++ encode fields) ++ rest) - 4)
      with true by (symmetry; apply Z.ltb_lt; rewrite !len_append; lia).
    replace (pre ++ (encodeField f ++ encode fields) ++ rest)
      with (pre ++ encodeField f ++ (encode fields ++ rest))
      by (rewrite !RoundTripFacts.append_assoc; reflexivity).
    rewrite (walkStep_field pre (encode fields ++ rest) f info Hf).
    replace (pre ++ encodeField f ++ (encode fields ++ rest))
      with ((pre ++ encodeField f) ++ encode fields ++ rest)
      by (rewrite !RoundTripFacts.append_assoc; reflexivity).
    replace (JS.len pre + JS.len (encodeField f)) with (JS.len (pre ++ encodeField f))
      by (rewrite len_append; reflexivity).
    rewrite (IH (pre ++ encodeField f) rest _ fuel Hfs Hrest).
    f_equal. rewrite !len_append. lia.
Qed.


(** The checksum field ends the walk and changes nothing. *)
Lemma walk_trailer (pre crc : string) (info : MerchantInfo) (fuel : nat) :
  (String.length crc <= 4)%nat ->
  walk (S fuel) (pre ++ "6304" ++ crc) (JS.len pre) info = Some info.
Proof.
  intros Hc. rewrite walk_unfold.
  set (q := pre ++ "6304" ++ crc).
  assert (Hlen : JS.len q = JS.len pre + 4 + JS.len crc).
  { unfold q. rewrite !len_append. unfold JS.len at 2. cbn [String.length]. lia. }
  pose proof (len_nonneg crc) as Hnn.
  destruct (JS.len pre <? JS.len q - 4) eqn:Hlt; [|reflexivity].
  apply Z.ltb_lt in Hlt.
  destruct (Nat.eq_dec (String.length crc) 4) as [H4|H4].
  - assert (Hwf : wellFormed ("63", crc)).
    { split; [reflexivity|]. cbn [snd]. unfold JS.len. lia. }
    assert (Hf : encodeField ("63", crc) = "6304" ++ crc).
    { unfold encodeField, formatLength. cbn [fst snd]. unfold JS.len. rewrite H4.
      reflexivity. }
    assert (Hq : q = pre ++ encodeField ("63", crc) ++ "").
    { unfold q. rewrite Hf.
      assert (Hnil : forall x : string, x ++ "" = x).
      { induction x as [|c x IH]; simpl; congruence. }
      rewrite Hnil. reflexivity. }
    rewrite Hq, (walkStep_field pre "" ("63", crc) info Hwf), <- Hq.
    cbn [fst snd]. rewrite walk_unfold.
    replace (JS.len pre + JS.len (encodeField ("63", crc)) <? JS.len q - 4) with false.
    + reflexivity.
    + symmetry. apply Z.ltb_ge. rewrite Hf, Hlen, len_append.
      change (JS.len "6304") with 4. lia.
  - unfold walkStep.
    assert (Slen : JS.slice q (JS.len pre + 2) (JS.len pre + 4) = "04").
    { unfold q.
      replace (pre ++ "6304" ++ crc) with ((pre ++ "63") ++ "04" ++ crc)
        by (rewrite !RoundTripFacts.append_assoc; reflexivity).
      replace (JS.len pre + 2) with (JS.len (pre ++ "63"))
        by (rewrite len_append; reflexivity).
      replace (JS.len pre + 4) with (JS.len (pre ++ "63") + JS.len "04")
        by (rewrite len_append; unfold JS.len; cbn [String.length]; lia).
      apply slice_middle. }
    rewrite Slen.
    change (JS.parseInt "04") with (Some 4).
    cbv beta iota.
    match goal with |- context [?a >? ?b] => destruct (a >? b) eqn:E end;
      [reflexivity|].
    exfalso. rewrite Z.gtb_ltb in E. apply Z.ltb_ge in E. rewrite Hlen in E.
    unfold JS.len in E, Hnn. lia.
Qed.


(** A pass that reads within a known prefix of the payload. *)
Lemma walk_next_within (p t : string) (pos l : Z) (info : MerchantInfo) (fuel : nat) :
  0 <= pos -> 0 <= l -> pos + 4 + l <= JS.len p -> pos + 4 < JS.len p ->
  JS.parseInt (JS.slice p (pos + 2) (pos + 4)) = Some l ->
  walk (S fuel) (p ++ t) pos info
  = walk fuel (p ++ t) (pos + 4 + l)
      (store info (JS.slice p pos (pos + 2)) (JS.slice p (pos + 4) (pos + 4 + l))).
Proof.
  intros Hpos Hl Hin Hlt Hp. rewrite walk_unfold.
  pose proof (len_nonneg t) as Ht.
  replace (pos <? JS.len (p ++ t) - 4) with true
    by (symmetry; apply Z.ltb_lt; rewrite len_append; lia).
  unfold walkStep.
  rewrite (slice_prefix p t (pos + 2) (pos + 4)) by lia.
  rewrite Hp.
  replace (pos + 4 + l >? JS.len (p ++ t)) with false
    by (symmetry; rewrite Z.gtb_ltb; apply Z.ltb_ge; rewrite len_append; lia).
  rewrite (slice_prefix p t pos (pos + 2)) by lia.
  rewrite (slice_prefix p t (pos + 4) (pos + 4 + l)) by lia.
  reflexivity.
Qed.

(** A pass that finds no number within a known prefix of the payload. *)
Lemma walk_break_within (p t : string) (pos : Z) (info : MerchantInfo) (fuel : nat) :
  0 <= pos -> pos + 4 < JS.len p ->
  JS.parseInt (JS.slice p (pos + 2) (pos + 4)) = None ->
  walk (S fuel) (p ++ t) pos info = Some info.
Proof.
  intros Hpos Hlt Hp. rewrite walk_unfold.
  pose proof (len_nonneg t) as Ht.
  replace (pos <? JS.len (p ++ t) - 4) with true
    by (symmetry; apply Z.ltb_lt; rewrite len_append; lia).
  unfold walkStep.
  rewrite (slice_prefix p t (pos + 2) (pos + 4)) by lia.
  rewrite Hp. reflexivity.
Qed.

(** Every generated sample starts with the same 156 characters. *)
Lemma sample_shape (merchantName : string) (amt : Amount) :
  exists tail, generateSampleQRIS merchantName amt = sampleHead ++ tail.
Proof.
  unfold generateSampleQRIS, sampleHead.
  destruct (amountFalsy amt); eexists;
    rewrite ?RoundTripFacts.append_assoc; cbn [append];
    rewrite ?RoundTripFacts.append_assoc; reflexivity.
Qed.

(** The walk over a generated sample ends in the middle of field 51 and has
    kept nothing by then. *)
Lemma walk_sample (tail : string) (fuel : nat) :
  walk (5 + fuel) (sampleHead ++ tail) 6 noInfo = Some noInfo.
Proof.
  cbn [Nat.add].
  rewrite (walk_next_within sampleHead tail 6 2)
    by (vm_compute; (reflexivity || discriminate)).
  rewrite (walk_next_within sampleHead tail _ 58)
    by (vm_compute; (reflexivity || discriminate)).
  rewrite (walk_next_within sampleHead tail _ 29)
    by (vm_compute; (reflexivity || discriminate)).
  rewrite (walk_next_within sampleHead tail _ 2)
    by (vm_compute; (reflexivity || discriminate)).
  rewrite walk_break_within by (vm_compute; (reflexivity || discriminate)).
  reflexivity.
Qed.


Lemma sample_parts (merchantName : string) (amt : Amount) :
  generateSampleQRIS merchantName amt
  = sampleBody merchantName amt ++ "6304"
    ++ calculateCRC16 (sampleBody merchantName amt ++ "6304").
Proof.
  assert (Hb : sampleBody merchantName amt
               = (((if amountFalsy amt
                    then sampleHead
                    else sampleHead ++ "54"
                         ++ JS.padStart0
                              (JS.numToString (JS.len (amountToString amt))) 2
                         ++ amountToString amt)
                   ++ "5802ID")
                  ++ "59" ++ JS.padStart0 (JS.numToString (JS.len merchantName)) 2
                  ++ merchantName)
                 ++ "6007Jakarta").
  { unfold sampleBody, sampleAmountField.
    destruct (amountFalsy amt);
      rewrite ?RoundTripFacts.append_assoc; cbn [append]; reflexivity. }
  rewrite Hb. unfold generateSampleQRIS. cbv zeta.
  change ((((("000201" ++ "010211")
             ++ "26580011ID.CO.QRIS.WWW0118ID20232109044804290215ID2023210904480429030403UMI")
            ++ "51440014ID.CO.QRIS.WWW02150ID2023210904480429030403UMI")
           ++ "52044812") ++ "5303360") with sampleHead.
  reflexivity.
Qed.

Lemma twoPadded_table : forallb twoPadded (JS.upTo 100) = true.
Proof. vm_compute. reflexivity. Qed.

Lemma padStart_two (n : Z) :
  0 <= n <= 99 ->
  JS.len (JS.padStart0 (JS.numToString n) 2) = 2
  /\ JS.padStart0 (JS.numToString n) 2 = formatLengthOf n.
Proof.
  intros Hn.
  assert (Hin : In n (JS.upTo 100)) by (apply upTo_complete; lia).
  pose proof (proj1 (forallb_forall _ _) twoPadded_table _ Hin) as H.
  unfold twoPadded in H. apply andb_true_iff in H. destruct H as [H1 H2].
  split.
  - unfold JS.len. apply Nat.eqb_eq in H1. rewrite H1. reflexivity.
  - apply String.eqb_eq. exact H2.
Qed.

Lemma atMostFour_table : forallb atMostFour (JS.upTo 65536) = true.
Proof. vm_compute. reflexivity. Qed.

Lemma calculateCRC16_at_most_four (str : string) :
  JS.len (calculateCRC16 str) <= 4.
Proof.
  rewrite TrailerFacts.calculateCRC16_refines.
  pose proof (CRCFacts.crc16_range str) as Hr.
  assert (Hin : In (CRC16Spec.crc16 str) (JS.upTo 65536))
    by (apply upTo_complete; lia).
  pose proof (proj1 (forallb_forall _ _) atMostFour_table _ Hin) as H.
  unfold atMostFour in H. apply Nat.leb_le in H. unfold JS.len. lia.
Qed.

Lemma sample_length (merchantName : string) (amt : Amount) :
  JS.len (generateSampleQRIS merchantName amt)
  = 156 + JS.len (sampleAmountField amt) + 8
    + JS.len (JS.padStart0 (JS.numToString (JS.len merchantName)) 2)
    + JS.len merchantName + 11 + 4
    + JS.len (calculateCRC16 (sampleBody merchantName amt ++ "6304")).
Proof.
  rewrite sample_parts. unfold sampleBody at 1. rewrite !len_append.
  change (JS.len sampleHead) with 156.
  change (JS.len "5802ID59") with 8.
  change (JS.len "6007Jakarta") with 11.
  change (JS.len "6304") with 4. lia.
Qed.

Lemma sample_contains_sentinel (merchantName : string) (amt : Amount) :
  contains (generateSampleQRIS merchantName amt) "5802ID".
Proof.
  exists (sampleHead ++ sampleAmountField amt).
  eexists. rewrite sample_parts. unfold sampleBody.
  rewrite !RoundTripFacts.append_assoc. cbn [append]. reflexivity.
Qed.

(** A generated sample is rejected for its length only. *)
Lemma sample_validate (merchantName : string) (amt : Amount) :
  validateQRIS (generateSampleQRIS merchantName amt)
  = (JS.len (generateSampleQRIS merchantName amt) <=? 500).
Proof.
  pose proof (sample_contains_sentinel merchantName amt) as Hc.
  apply includes_contains in Hc.
  pose proof (sample_length merchantName amt) as Hl.
  destruct (sample_shape merchantName amt) as [tail Ht].
  unfold validateQRIS. rewrite Hc.
  assert (Hs : JS.startsWith (generateSampleQRIS merchantName amt) "00020" = true).
  { rewrite Ht. unfold sampleHead. cbn [append JS.startsWith].
    destruct tail; reflexivity. }
  rewrite Hs. cbn [negb].
  pose proof (len_nonneg (sampleAmountField amt)).
  pose proof (len_nonneg (JS.padStart0 (JS.numToString (JS.len merchantName)) 2)).
  pose proof (len_nonneg merchantName).
  pose proof (len_nonneg (calculateCRC16 (sampleBody merchantName amt ++ "6304"))).
  assert (Hz : (String.length (generateSampleQRIS merchantName amt) =? 0)%nat = false).
  { apply Nat.eqb_neq. unfold JS.len in *. lia. }
  rewrite Hz.
  replace (JS.len (generateSampleQRIS merchantName amt) <? 50) with false
    by (symmetry; apply Z.ltb_ge; lia).
  cbn [orb]. rewrite Z.gtb_ltb.
  destruct (Z.leb_spec (JS.len (generateSampleQRIS merchantName amt)) 500);
    destruct (Z.ltb_spec 500 (JS.len (generateSampleQRIS merchantName amt)));
    try reflexivity; lia.
Qed.


(** *** Progress of the walk *)

Lemma startsWith_empty (s : string) : JS.startsWith s "" = true.
Proof. destruct s; reflexivity. Qed.

Lemma noMinus_cons (c : ascii) (s : string) :
  noMinus (String c s) <-> c <> "-"%char /\ noMinus s.
Proof.
  unfold noMinus. rewrite includes_cons. cbn [JS.startsWith].
  rewrite startsWith_empty, andb_true_r, orb_false_iff.
  split; intros [H1 H2]; split; auto.
  - intros ->. discriminate.
  - destruct (Ascii.eqb_spec "-"%char c); [congruence | reflexivity].
Qed.

Lemma noMinus_drop (n : nat) (s : string) : noMinus s -> noMinus (JS.drop n s).
Proof.
  revert s. induction n as [|n IH]; intros [|c s] H; cbn [JS.drop]; auto.
  apply IH. apply noMinus_cons in H. tauto.
Qed.

Lemma noMinus_take (n : nat) (s : string) : noMinus s -> noMinus (JS.take n s).
Proof.
  revert s. induction n as [|n IH]; intros [|c s] H; cbn [JS.take];
    try reflexivity.
  apply noMinus_cons in H. apply noMinus_cons. split; [tauto|]. apply IH. tauto.
Qed.

Lemma noMinus_slice (s : string) (a b : Z) : noMinus s -> noMinus (JS.slice s a b).
Proof. intros H. unfold JS.slice. apply noMinus_take, noMinus_drop, H. Qed.

Lemma noMinus_trimStart (s : string) : noMinus s -> noMinus (JS.trimStart s).
Proof.
  induction s as [|c s IH]; intros H; cbn [JS.trimStart]; auto.
  destruct (JS.isWhiteSpace c); [|exact H].
  apply IH. apply noMinus_cons in H. tauto.
Qed.

Lemma digitsValue_nonneg (s : string) :
  forall acc, 0 <= acc -> 0 <= JS.digitsValue s acc.
Proof.
  induction s as [|c s IH]; intros acc H; cbn [JS.digitsValue]; auto.
  destruct (JS.isDigit c) eqn:Hd; auto.
  apply IH. unfold JS.isDigit in Hd. apply andb_true_iff in Hd.
  destruct Hd as [H1 _]. apply Z.leb_le in H1. unfold JS.digitVal. lia.
Qed.

(** [parseInt] written with tests on the first character. *)
Lemma parseInt_cases (s : string) :
  JS.parseInt s
  = match JS.trimStart s with
    | EmptyString => None
    | String c r =>
        if Ascii.eqb c "-" then
          if JS.startsWithDigit r then Some (- JS.digitsValue r 0) else None
        else if Ascii.eqb c "+" then
          if JS.startsWithDigit r then Some (JS.digitsValue r 0) else None
        else if JS.startsWithDigit (String c r)
             then Some (JS.digitsValue (String c r) 0) else None
    end.
Proof.
  unfold JS.parseInt. destruct (JS.trimStart s) as [|c r]; [reflexivity|].
  destruct c as [[] [] [] [] [] [] [] []]; reflexivity.
Qed.

Lemma parseInt_nonneg (s : string) (n : Z) :
  noMinus s -> JS.parseInt s = Some n -> 0 <= n.
Proof.
  intros Hs. apply noMinus_trimStart in Hs. rewrite parseInt_cases.
  destruct (JS.trimStart s) as [|c r]; [discriminate|].
  apply noMinus_cons in Hs. destruct Hs as [Hc _].
  destruct (Ascii.eqb_spec c "-"); [contradiction|].
  destruct (Ascii.eqb c "+").
  - destruct (JS.startsWithDigit r); [|discriminate].
    intros [= <-]. apply digitsValue_nonneg. lia.
  - destruct (JS.startsWithDigit (String c r)); [|discriminate].
    intros [= <-]. apply (digitsValue_nonneg (String c r) 0). lia.
Qed.

Lemma walkStep_progress (qris : string) (pos pos' : Z) (info info' : MerchantInfo) :
  noMinus qris ->
  walkStep qris pos info = Next pos' info' -> pos + 4 <= pos'.
Proof.
  intros Hq. unfold walkStep.
  destruct (JS.parseInt (JS.slice qris (pos + 2) (pos + 4))) as [l|] eqn:Hp;
    [|discriminate].
  apply parseInt_nonneg in Hp; [|apply noMinus_slice, Hq].
  destruct (pos + 4 + l >? JS.len qris); [discriminate|].
  intros [= <- _]. lia.
Qed.

Lemma walk_terminates (qris : string) :
  noMinus qris ->
  forall n pos info,
    (Z.to_nat (JS.len qris - 4 - pos) <= n)%nat ->
    exists r, forall fuel, (n <= fuel)%nat -> walk fuel qris pos info = Some r.
Proof.
  intros Hq. induction n as [|n IH]; intros pos info Hn.
  - exists info. intros fuel _. rewrite walk_unfold.
    replace (pos <? JS.len qris - 4) with false; [reflexivity|].
    symmetry. apply Z.ltb_ge. lia.
  - destruct (pos <? JS.len qris - 4) eqn:Hlt.
    + apply Z.ltb_lt in Hlt.
      destruct (walkStep qris pos info) as [|pos' info'] eqn:Hs.
      * exists info. intros [|fuel] Hf; [lia|].
        rewrite walk_unfold, Hs.
        destruct (pos <? JS.len qris - 4); reflexivity.
      * pose proof (walkStep_progress qris pos pos' info info' Hq Hs) as Hp.
        destruct (IH pos' info') as [r Hr]; [lia|].
        exists r. intros [|fuel] Hf; [lia|].
        rewrite walk_unfold, Hs.
        replace (pos <? JS.len qris - 4) with true
          by (symmetry; apply Z.ltb_lt; exact Hlt).
        apply Hr. lia.
    + exists info. intros fuel _. rewrite walk_unfold, Hlt. reflexivity.
Qed.

(** A pass that reads the length [-4] leaves the position where it was. *)
Lemma walk_stuck (qris : string) (pos : Z) :
  0 <= pos < JS.len qris - 4 ->
  JS.slice qris (pos + 2) (pos + 4) = "-4" ->
  forall fuel info, walk fuel qris pos info = None.
Proof.
  intros Hpos Hs. induction fuel as [|fuel IH]; intros info; rewrite walk_unfold.
  - replace (pos <? JS.len qris - 4) with true
      by (symmetry; apply Z.ltb_lt; lia).
    reflexivity.
  - replace (pos <? JS.len qris - 4) with true
      by (symmetry; apply Z.ltb_lt; lia).
    unfold walkStep. rewrite Hs. change (JS.parseInt "-4") with (Some (-4)).
    cbv beta iota.
    replace (pos + 4 + -4 >? JS.len qris) with false
      by (symmetry; rewrite Z.gtb_ltb; apply Z.ltb_ge; lia).
    replace (pos + 4 + -4) with pos by lia.
    apply IH.
Qed.

End ParserFacts.

Module ParserTheorems.
Import Converter Parser Tlv Properties StringFacts ParserFacts.

(** X: the contract of [parseQRIS] on a payload that is a six-character
    header, a sequence of well-formed tag-length-value fields and the
    checksum field. *)
Theorem parseQRIS_reads_fields
    (header : string) (fields : list Field) (crc : string) (fuel : nat) :
  String.length header = 6%nat ->
  Forall wellFormed fields ->
  (String.length crc <= 4)%nat ->
  validateQRIS (header ++ encode fields ++ "6304" ++ crc) = true ->
  parseQRIS (List.length fields + S fuel) (header ++ encode fields ++ "6304" ++ crc)
  = Some (inl {| valid := true;
                 type := if JS.startsWith header "000201" then static else dynamic;
                 payloadFormat := JS.slice header 4 6;
                 amount := extractAmount (header ++ encode fields ++ "6304" ++ crc);
                 merchantInfo := collect fields |}).
Proof.
  intros Hh Hwf Hc Hv. unfold parseQRIS. rewrite Hv. cbn [negb].
  assert (H6 : JS.len header = 6) by (unfold JS.len; rewrite Hh; reflexivity).
  rewrite <- H6 at 1.
  rewrite (walk_fields fields header ("6304" ++ crc) noInfo (S fuel) Hwf).
  2:{ rewrite len_append. unfold JS.len. cbn [String.length]. lia. }
  replace (header ++ encode fields ++ "6304" ++ crc)
    with ((header ++ encode fields) ++ "6304" ++ crc)
    by (rewrite !RoundTripFacts.append_assoc; reflexivity).
  replace (JS.len header + JS.len (encode fields)) with (JS.len (header ++ encode fields))
    by (rewrite len_append; reflexivity).
  rewrite (walk_trailer (header ++ encode fields) crc _ fuel Hc).
  do 2 f_equal. f_equal.
  - rewrite RoundTripFacts.append_assoc.
    destruct header as [|c1 [|c2 [|c3 [|c4 [|c5 [|c6 [|c7 h]]]]]]]; try discriminate.
    assert (Hnil : forall x, JS.startsWith x "" = true) by (intros []; reflexivity).
    cbn [append JS.startsWith]. rewrite !Hnil. reflexivity.
  - rewrite RoundTripFacts.append_assoc. apply slice_prefix; lia.
Qed.


(** X: whatever the merchant name and the amount, [parseQRIS] reads no
    merchant field from a payload that [generateSampleQRIS] made. *)
Theorem parseQRIS_of_sample (merchantName : string) (amt : Amount) (fuel : nat) :
  parseQRIS (5 + fuel) (generateSampleQRIS merchantName amt)
  = Some (if JS.len (generateSampleQRIS merchantName amt) <=? 500
          then inl {| valid := true;
                      type := static;
                      payloadFormat := "01";
                      amount := extractAmount (generateSampleQRIS merchantName amt);
                      merchantInfo := noInfo |}
          else inr invalidMessage).
Proof.
  unfold parseQRIS. rewrite sample_validate.
  destruct (JS.len (generateSampleQRIS merchantName amt) <=? 500); [|reflexivity].
  cbn [negb].
  destruct (sample_shape merchantName amt) as [tail Ht].
  assert (Hs : JS.startsWith (generateSampleQRIS merchantName amt) "000201" = true).
  { rewrite Ht. unfold sampleHead. cbn [append JS.startsWith].
    destruct tail; reflexivity. }
  assert (Hf : JS.slice (generateSampleQRIS merchantName amt) 4 6 = "01").
  { rewrite Ht. rewrite (slice_prefix sampleHead tail 4 6) by (vm_compute; discriminate).
    reflexivity. }
  rewrite Hs, Hf. rewrite Ht at 1. rewrite walk_sample. reflexivity.
Qed.


(** X: a generated sample is accepted by [validateQRIS] unless it is longer
    than 500 characters, which a name and an amount of at most 99
    characters each never make it; and it ends with the checksum of all
    that stands before the checksum. *)
Theorem generateSampleQRIS_accepted (merchantName : string) (amt : Amount) :
  (validateQRIS (generateSampleQRIS merchantName amt) = true
   <-> JS.len (generateSampleQRIS merchantName amt) <= 500)
  /\ (JS.len merchantName <= 99 -> JS.len (amountToString amt) <= 99 ->
      validateQRIS (generateSampleQRIS merchantName amt) = true)
  /\ exists body,
       generateSampleQRIS merchantName amt
       = body ++ "6304" ++ calculateCRC16 (body ++ "6304")
       /\ (0x100 <= CRC16Spec.crc16 (body ++ "6304") ->
           calculateCRC16 (withoutTrailer (generateSampleQRIS merchantName amt))
           = trailer (generateSampleQRIS merchantName amt)).
Proof.
  split; [|split].
  - rewrite sample_validate. apply Z.leb_le.
  - intros Hn Ha. rewrite sample_validate. apply Z.leb_le.
    rewrite sample_length.
    pose proof (len_nonneg merchantName) as Hn0.
    destruct (padStart_two (JS.len merchantName) (conj Hn0 Hn)) as [Hp _].
    rewrite Hp.
    pose proof (calculateCRC16_at_most_four (sampleBody merchantName amt ++ "6304")).
    assert (Hf : JS.len (sampleAmountField amt) <= 103).
    { unfold sampleAmountField. destruct (amountFalsy amt).
      - unfold JS.len. cbn [String.length]. lia.
      - pose proof (len_nonneg (amountToString amt)) as Ha0.
        destruct (padStart_two (JS.len (amountToString amt)) (conj Ha0 Ha)) as [Hq _].
        rewrite !len_append, Hq. change (JS.len "54") with 2. lia. }
    lia.
  - exists (sampleBody merchantName amt). split; [apply sample_parts|].
    intros Hcrc. rewrite sample_parts.
    rewrite <- RoundTripFacts.append_assoc.
    apply TrailerFacts.calculateCRC16_length in Hcrc.
    rewrite TrailerFacts.withoutTrailer_append, TrailerFacts.trailer_append
      by exact Hcrc.
    reflexivity.
Qed.

(** X: the amount that [generateSampleQRIS] writes is the amount that
    [extractAmount] reads, for an amount of 1 to 99 digits. *)
Theorem generateSampleQRIS_amount_roundtrip (merchantName : string) (amt : Amount) :
  amountFalsy amt = false ->
  JS.isDigitString (amountToString amt) = true ->
  JS.len (amountToString amt) <= 99 ->
  extractAmount (generateSampleQRIS merchantName amt) = Some (amountToString amt).
Proof.
  intros Hf Hd Hl. rewrite sample_parts. unfold sampleBody, sampleAmountField.
  rewrite Hf.
  pose proof (len_nonneg (amountToString amt)) as H0.
  destruct (padStart_two (JS.len (amountToString amt)) (conj H0 Hl)) as [_ Hp].
  rewrite Hp. change (formatLengthOf (JS.len (amountToString amt)))
    with (formatLength (amountToString amt)).
  set (a := amountToString amt) in *.
  match goal with
  | |- extractAmount ?q = _ =>
      replace q with
        (sampleHead ++ String "5" ("4" ++ formatLength a ++ a
            ++ ("5802ID59"
                ++ JS.padStart0 (JS.numToString (JS.len merchantName)) 2
                ++ merchantName ++ "6007Jakarta" ++ "6304"
                ++ calculateCRC16
                     ((sampleHead ++ ("54" ++ formatLength a ++ a) ++ "5802ID59"
                       ++ JS.padStart0 (JS.numToString (JS.len merchantName)) 2
                       ++ merchantName ++ "6007Jakarta") ++ "6304"))))
  end.
  - unfold extractAmount at 1.
    rewrite RoundTripFacts.matchAmount_skip by (vm_compute; reflexivity).
    apply RoundTripFacts.extractAmount_at_field; assumption.
  - rewrite !RoundTripFacts.append_assoc. cbn [append]. reflexivity.
Qed.

Lemma generateSampleQRIS_amount_roundtrip_witness :
  extractAmount (generateSampleQRIS "Toko Maju" (AmountNumber 50000)) = Some "50000".
Proof.
  apply (generateSampleQRIS_amount_roundtrip "Toko Maju" (AmountNumber 50000)).
  - reflexivity.
  - vm_compute. reflexivity.
  - vm_compute. discriminate.
Defined.


(** X: on a payload without a minus sign every pass of the loop of
    [parseQRIS] moves at least four characters on, so the call ends within
    as many passes as the payload has characters. *)
Theorem parseQRIS_terminates (qris : string) :
  JS.includes qris "-" = false ->
  exists result,
    forall fuel, (String.length qris <= fuel)%nat ->
                 parseQRIS fuel qris = Some result.
Proof.
  intros Hq. unfold parseQRIS.
  destruct (validateQRIS qris); cbn [negb].
  - destruct (walk_terminates qris Hq (String.length qris) 6 noInfo) as [r Hr].
    { unfold JS.len. lia. }
    eexists. intros fuel Hf. rewrite (Hr fuel Hf). reflexivity.
  - eexists. intros fuel _. reflexivity.
Qed.

Lemma parseQRIS_terminates_witness :
  exists result,
    forall fuel, (String.length Samples.sampleStatic <= fuel)%nat ->
                 parseQRIS fuel Samples.sampleStatic = Some result.
Proof.
  apply (parseQRIS_terminates Samples.sampleStatic).
  vm_compute. reflexivity.
Defined.

(** X: a length field that reads [-4] stops the walk for good: the pass
    ends at the position where it began, so the loop of [parseQRIS] never
    ends.  With the field at the first position, right after the header,
    this holds for a payload that [validateQRIS] accepts. *)
Theorem parseQRIS_never_ends (qris : string) (pos : Z) :
  0 <= pos < JS.len qris - 4 ->
  JS.slice qris (pos + 2) (pos + 4) = "-4" ->
  (forall fuel info, walk fuel qris pos info = None)
  /\ (pos = 6 -> validateQRIS qris = true ->
      forall fuel, parseQRIS fuel qris = None).
Proof.
  intros Hpos Hs. split.
  - apply walk_stuck; assumption.
  - intros -> Hv fuel. unfold parseQRIS. rewrite Hv. cbn [negb].
    rewrite (walk_stuck qris 6 Hpos Hs). reflexivity.
Qed.

Lemma parseQRIS_reads_fields_witness :
  parseQRIS (List.length sampleFields + 1)
    ("000201" ++ encode sampleFields ++ "6304" ++ "58C7")
  = Some (inl {| valid := true;
                 type := if JS.startsWith "000201" "000201" then static else dynamic;
                 payloadFormat := JS.slice "000201" 4 6;
                 amount := extractAmount
                             ("000201" ++ encode sampleFields ++ "6304" ++ "58C7");
                 merchantInfo := collect sampleFields |}).
Proof.
  apply (parseQRIS_reads_fields "000201" sampleFields "58C7" 0).
  - reflexivity.
  - repeat constructor; vm_compute; discriminate.
  - vm_compute. lia.
  - vm_compute. reflexivity.
Defined.

(** The payload of the tests is such a payload, and this is what is read
    from it. *)
Example parseQRIS_sampleStatic :
  "000201" ++ encode sampleFields ++ "6304" ++ "58C7" = Samples.sampleStatic
  /\ parseQRIS 10 Samples.sampleStatic
     = Some (inl {| valid := true;
                    type := static;
                    payloadFormat := "01";
                    amount := None;
                    merchantInfo :=
                      {| categoryCode := Some "5812";
                         currency := Some "360";
                         countryCode := Some "ID";
                         name := Some "Warung Sayur Bu Sugeng";
                         city := Some "Kab. Demak";
                         postalCode := Some "59567" |} |}).
Proof. split; vm_compute; reflexivity. Qed.

Lemma parseQRIS_never_ends_witness :
  (forall fuel info, walk fuel minusLength 6 info = None)
  /\ (6 = 6 -> validateQRIS minusLength = true ->
      forall fuel, parseQRIS fuel minusLength = None).
Proof.
  apply (parseQRIS_never_ends minusLength 6).
  - split; vm_compute; [discriminate | reflexivity].
  - vm_compute. reflexivity.
Defined.

End ParserTheorems.

(** ** The request gate *)

Module RouterTheorems.
Import Router.

Lemma requiredApiKey_nonempty (envApiKey : option string) :
  requiredApiKey envApiKey <> EmptyString.
Proof.
  unfold requiredApiKey. destruct envApiKey as [key|]; [|discriminate].
  destruct key; [discriminate|]. cbn [String.length Nat.eqb]. discriminate.
Qed.

Lemma keyRejected_iff (key : option string) (required : string) :
  required <> EmptyString ->
  (keyRejected key required = true <-> key <> Some required).
Proof.
  intros Hr. unfold keyRejected. destruct key as [k|].
  - destruct (String.eqb_spec k required) as [->|Hne].
    + destruct required; [congruence|]. cbn. split; [discriminate | congruence].
    + rewrite orb_true_r. split; [congruence | reflexivity].
  - split; [discriminate | reflexivity].
Qed.

Lemma allow_handled (m : string) (h h' : Handler) (req : Request) :
  allow m h req = Handled h' -> h' = h /\ method req = m.
Proof.
  unfold allow, methodNotAllowed.
  destruct (String.eqb_spec (method req) m); [|discriminate].
  intros [= <-]. auto.
Qed.

Lemma allow_not_401 (m : string) (h : Handler) (req : Request) :
  allow m h req <> Refused 401 "Invalid or missing API key".
Proof. unfold allow, methodNotAllowed. destruct (String.eqb _ _); discriminate. Qed.

Lemma route_not_401 (req : Request) :
  route req <> Refused 401 "Invalid or missing API key".
Proof.
  unfold route.
  repeat match goal with
         | |- (if ?c then _ else _) <> _ => destruct c
         end;
    try apply allow_not_401; discriminate.
Qed.

Lemma route_method (req : Request) (h : Handler) :
  route req = Handled h -> h <> Health -> methodOf h = Some (method req).
Proof.
  unfold route.
  repeat match goal with
         | |- (if ?c then _ else _) = _ -> _ => destruct c
         end;
    try discriminate;
    try (intros H _; apply allow_handled in H; destruct H as [-> Hm];
         rewrite Hm; reflexivity).
  intros [= <-] H. congruence.
Qed.

(** X: the request gate of [handleRequest]. *)
Theorem handleRequest_gate (req : Request) (envApiKey : option string) :
  (handleRequest req envApiKey = Refused 401 "Invalid or missing API key"
   <-> method req <> "OPTIONS"
       /\ pathname req <> "/health"
       /\ requiredApiKey envApiKey <> defaultApiKey
       /\ apiKey req <> Some (requiredApiKey envApiKey))
  /\ (forall handler,
         handleRequest req envApiKey = Handled handler ->
         handler <> Health ->
         (requiredApiKey envApiKey = defaultApiKey
          \/ apiKey req = Some (requiredApiKey envApiKey))
         /\ methodOf handler = Some (method req))
  /\ (envApiKey = None \/ envApiKey = Some "" \/ envApiKey = Some defaultApiKey ->
      handleRequest req envApiKey <> Refused 401 "Invalid or missing API key")
  /\ (method req <> "OPTIONS" -> pathname req = "/health" ->
      handleRequest req envApiKey = Handled Health).
Proof.
  pose proof (keyRejected_iff (apiKey req) _ (requiredApiKey_nonempty envApiKey))
    as Hk.
  unfold handleRequest.
  destruct (String.eqb_spec (method req) "OPTIONS") as [Hm|Hm].
  { split; [|split; [|split]].
    - split; [discriminate | tauto].
    - discriminate.
    - discriminate.
    - tauto. }
  destruct (String.eqb_spec (pathname req) "/health") as [Hp|Hp];
    destruct (String.eqb_spec (requiredApiKey envApiKey) defaultApiKey) as [Hd|Hd];
    cbn [negb andb].
  - split; [|split; [|split]].
    + split; [intros H; exfalso; exact (route_not_401 req H) | tauto].
    + intros h H Hh. split; [tauto | exact (route_method req h H Hh)].
    + intros _. apply route_not_401.
    + intros _ _. unfold route. rewrite Hp. reflexivity.
  - split; [|split; [|split]].
    + split; [intros H; exfalso; exact (route_not_401 req H) | tauto].
    + intros h H Hh. exfalso. unfold route in H. rewrite Hp in H.
      cbn in H. congruence.
    + intros _. apply route_not_401.
    + intros _ _. unfold route. rewrite Hp. reflexivity.
  - split; [|split; [|split]].
    + split; [intros H; exfalso; exact (route_not_401 req H) | tauto].
    + intros h H Hh. split; [tauto | exact (route_method req h H Hh)].
    + intros _. apply route_not_401.
    + tauto.
  - destruct (keyRejected (apiKey req) (requiredApiKey envApiKey)) eqn:Hr.
    + split; [|split; [|split]].
      * split; [intros _ | reflexivity].
        repeat split; auto. apply Hk. reflexivity.
      * discriminate.
      * intros [He | [He | He]]; subst envApiKey; exfalso; apply Hd; reflexivity.
      * tauto.
    + assert (Hkey : apiKey req = Some (requiredApiKey envApiKey)).
      { destruct (apiKey req) as [k|] eqn:Ek; [|discriminate].
        destruct (String.eqb_spec k (requiredApiKey envApiKey)); [congruence|].
        exfalso. assert (Hf : false = true) by (apply Hk; congruence).
        discriminate. }
      split; [|split; [|split]].
      * split; [intros H; exfalso; exact (route_not_401 req H) | tauto].
      * intros h H Hh. split; [tauto | exact (route_method req h H Hh)].
      * intros _. apply route_not_401.
      * tauto.
Qed.

End RouterTheorems.

(** ** Registering and settling a payment *)

Module HandlerFacts.
Import Matcher Handlers Ledger.

Lemma fold_max_bounds (l : list Z) (b : Z) :
  b <= fold_right Z.max b l /\ forall x, In x l -> x <= fold_right Z.max b l.
Proof.
  induction l as [|y l [IH1 IH2]]; cbn [fold_right].
  - split; [lia | intros x []].
  - split; [lia|]. intros x [->|Hx]; [lia|]. specialize (IH2 x Hx). lia.
Qed.

Lemma nextId_fresh (st : Store) (e : Expectation) :
  In e (expectations st) -> id e < nextId st.
Proof.
  intros He. unfold nextId.
  destruct (fold_max_bounds (List.map id (expectations st)) (sequence st)) as [_ H].
  specialize (H (id e) (in_map id _ _ He)). lia.
Qed.

Lemma nextId_sequence (st : Store) : sequence st < nextId st.
Proof.
  unfold nextId.
  destruct (fold_max_bounds (List.map id (expectations st)) (sequence st)) as [H _].
  lia.
Qed.

Lemma otherOrder_iff (orderRef : string) (e : Expectation) :
  otherOrder orderRef e = true <-> order_reference e <> orderRef.
Proof.
  unfold otherOrder. destruct (String.eqb_spec (order_reference e) orderRef);
    cbn [negb]; split; congruence.
Qed.

(** What [INSERT OR REPLACE] leaves in the table. *)
Lemma insertOrReplace_rows (st st' : Store) (rowId : Z)
    (orderRef combinedAmount uniqueAmount originalAmount : string)
    (callbackUrl : option string) (now : Z) :
  insertOrReplace st orderRef combinedAmount uniqueAmount originalAmount
    callbackUrl now = (st', rowId) ->
  rowId = nextId st
  /\ sequence st' = rowId
  /\ reservations st' = reservations st
  /\ notifications st' = notifications st
  /\ devices st' = devices st
  /\ (forall e, In e (expectations st') <->
                (In e (expectations st) /\ order_reference e <> orderRef)
                \/ e = pendingRow rowId orderRef combinedAmount uniqueAmount
                         originalAmount callbackUrl now).
Proof.
  unfold insertOrReplace. intros [= <- <-]. cbn [expectations sequence
    reservations notifications devices].
  repeat (split; [reflexivity|]).
  intros e. rewrite in_app_iff, filter_In, otherOrder_iff. cbn [In].
  split.
  - intros [H | [H | []]]; [left; exact H | right; symmetry; exact H].
  - intros [H | H]; [left; exact H | right; left; symmetry; exact H].
Qed.


Lemma insertOrReplace_replaces (st st' : Store) (rowId : Z)
    (orderRef combinedAmount uniqueAmount originalAmount : string)
    (callbackUrl : option string) (now : Z) :
  insertOrReplace st orderRef combinedAmount uniqueAmount originalAmount
    callbackUrl now = (st', rowId) ->
  replacesOrder (expectations st) (expectations st')
    (pendingRow rowId orderRef combinedAmount uniqueAmount originalAmount
       callbackUrl now)
  /\ reservations st' = reservations st.
Proof.
  intros H. apply insertOrReplace_rows in H.
  destruct H as (Hid & _ & Hres & _ & _ & Hrows).
  split; [|exact Hres].
  unfold replacesOrder. cbn [order_reference id pendingRow].
  split; [|split; [|split]].
  - apply Hrows. right. reflexivity.
  - intros e He Hr. apply Hrows in He. destruct He as [[_ Hne] | ->];
      [contradiction | reflexivity].
  - intros e Hne. rewrite Hrows. split.
    + intros [[H _] | ->]; [exact H|]. cbn [order_reference pendingRow] in Hne.
      contradiction.
    + intros H. left. split; assumption.
  - intros e He. rewrite Hid. apply nextId_fresh. exact He.
Qed.

Lemma missing_false (x : option string) :
  missing x = false -> exists s, x = Some s /\ s <> EmptyString /\ orEmpty x = s.
Proof.
  unfold missing, truthy. destruct x as [s|]; [|discriminate].
  intros H. exists s. repeat split. intros ->. discriminate.
Qed.


(** *** The combined amount *)

Lemma isDigit_not_sign (c : ascii) :
  JS.isDigit c = true ->
  JS.isWhiteSpace c = false /\ c <> "-"%char /\ c <> "+"%char
  /\ c <> "x"%char /\ c <> "X"%char.
Proof.
  destruct c as [[] [] [] [] [] [] [] []]; vm_compute; intros H;
    try discriminate H; repeat split; discriminate.
Qed.

(** [parseInt(s)] written with tests on the first character. *)
Lemma parseIntAuto_cases (s : string) :
  JS.parseIntAuto s
  = match JS.trimStart s with
    | EmptyString => JS.unsignedAuto EmptyString
    | String c r =>
        if Ascii.eqb c "-" then option_map Z.opp (JS.unsignedAuto r)
        else if Ascii.eqb c "+" then JS.unsignedAuto r
        else JS.unsignedAuto (String c r)
    end.
Proof.
  unfold JS.parseIntAuto. destruct (JS.trimStart s) as [|c r]; [reflexivity|].
  destruct c as [[] [] [] [] [] [] [] []]; reflexivity.
Qed.

(** On a string of digits [parseInt] reads the same number with and
    without the radix 10. *)
Lemma parseIntAuto_digits (s : string) :
  JS.isDigitString s = true ->
  JS.parseIntAuto s = Some (JS.digitsValue s 0)
  /\ JS.parseInt s = Some (JS.digitsValue s 0).
Proof.
  destruct s as [|c r]; [discriminate|]. cbn [JS.isDigitString JS.allDigits].
  intros H. apply andb_true_iff in H. destruct H as [Hc Hr].
  destruct (isDigit_not_sign c Hc) as (Hw & Hm & Hp & _).
  rewrite parseIntAuto_cases, ParserFacts.parseInt_cases.
  cbn [JS.trimStart]. rewrite Hw.
  destruct (Ascii.eqb_spec c "-"); [contradiction|].
  destruct (Ascii.eqb_spec c "+"); [contradiction|].
  cbn [JS.startsWithDigit]. rewrite Hc.
  split; [|reflexivity].
  unfold JS.unsignedAuto. cbn [JS.startsWithDigit]. rewrite Hc.
  assert (Hx : JS.startsWith (String c r) "0x" || JS.startsWith (String c r) "0X"
               = false).
  { destruct r as [|d r].
    - cbn [JS.startsWith]. rewrite !andb_false_r. reflexivity.
    - cbn [JS.allDigits] in Hr. apply andb_true_iff in Hr. destruct Hr as [Hd _].
      destruct (isDigit_not_sign d Hd) as (_ & _ & _ & Hx1 & Hx2).
      cbn [JS.startsWith].
      destruct (Ascii.eqb_spec "x"%char d); [congruence|].
      destruct (Ascii.eqb_spec "X"%char d); [congruence|].
      cbn [andb]. rewrite !andb_false_r. reflexivity. }
  rewrite Hx. reflexivity.
Qed.

Lemma allDigits_uint (u : Decimal.uint) :
  JS.allDigits (NilZero.string_of_uint u) = true.
Proof.
  assert (H : forall v, JS.allDigits (NilEmpty.string_of_uint v) = true)
    by (induction v; cbn; auto).
  destruct u; try apply H. reflexivity.
Qed.

(** A number that is not negative prints as a string of digits. *)
Lemma numToString_digits (n : Z) :
  0 <= n -> JS.isDigitString (JS.numToString n) = true.
Proof.
  intros Hn. pose proof (StringFacts.numToString_nonempty n) as Hne.
  unfold JS.isDigitString.
  destruct (JS.numToString n) eqn:E; [congruence|]. rewrite <- E.
  unfold JS.numToString, NilZero.string_of_int.
  destruct (Z.to_int n) as [u|u] eqn:Eu.
  - apply allDigits_uint.
  - exfalso. destruct n; cbn in Eu; try discriminate. lia.
Qed.

(** The value of a string of [n] digits is below 10^n. *)
Lemma digitsValue_bound (s : string) :
  forall acc, 0 <= acc -> JS.allDigits s = true ->
              JS.digitsValue s acc < (acc + 1) * 10 ^ JS.len s.
Proof.
  induction s as [|c s IH]; intros acc Hacc Hd.
  - cbn. lia.
  - cbn [JS.allDigits] in Hd. apply andb_true_iff in Hd. destruct Hd as [Hc Hs].
    cbn [JS.digitsValue]. rewrite Hc.
    assert (Hv : 0 <= JS.digitVal c <= 9).
    { unfold JS.isDigit in Hc. apply andb_true_iff in Hc. unfold JS.digitVal. lia. }
    specialize (IH (10 * acc + JS.digitVal c) ltac:(lia) Hs).
    replace (JS.len (String c s)) with (1 + JS.len s)
      by (unfold JS.len; cbn [String.length]; lia).
    rewrite Z.pow_add_r by (unfold JS.len; lia).
    assert (Hp : 0 < 10 ^ JS.len s) by (apply Z.pow_pos_nonneg; unfold JS.len; lia).
    nia.
Qed.

Lemma digitString_below (s : string) (n : Z) :
  JS.isDigitString s = true -> JS.len s <= n ->
  0 <= JS.digitsValue s 0 < 10 ^ n.
Proof.
  intros Hd Hn.
  pose proof (ParserFacts.digitsValue_nonneg s 0) as H0.
  split; [lia|].
  assert (Ha : JS.allDigits s = true) by (destruct s; [discriminate | exact Hd]).
  pose proof (digitsValue_bound s 0 ltac:(lia) Ha) as Hb.
  assert (10 ^ JS.len s <= 10 ^ n)
    by (apply Z.pow_le_mono_r; unfold JS.len in *; lia).
  lia.
Qed.

(** The sum of two digit strings is exact as long as it stays below
    2^53. *)
Lemma combine_digits (amount uniqueAmount : string) :
  JS.isDigitString amount = true ->
  JS.isDigitString uniqueAmount = true ->
  JS.digitsValue amount 0 + JS.digitsValue uniqueAmount 0 < 2 ^ 53 ->
  combine amount uniqueAmount
  = JS.numToString (JS.digitsValue amount 0 + JS.digitsValue uniqueAmount 0)
  /\ JS.isDigitString (combine amount uniqueAmount) = true.
Proof.
  intros Ha Hu Hsum. unfold combine.
  destruct (parseIntAuto_digits amount Ha) as [-> _].
  destruct (parseIntAuto_digits uniqueAmount Hu) as [-> _].
  pose proof (ParserFacts.digitsValue_nonneg amount 0).
  pose proof (ParserFacts.digitsValue_nonneg uniqueAmount 0).
  cbn [JS.toNumber].
  rewrite !StringFacts.roundToNumber_safe by lia.
  cbn [JS.addNumbers].
  rewrite StringFacts.numberToString_safe by lia.
  split; [reflexivity|].
  apply numToString_digits. lia.
Qed.

Lemma poolValue_digits (v : string) :
  Allocator.poolValue v ->
  JS.isDigitString v = true /\ 1 <= JS.digitsValue v 0 <= 200.
Proof.
  intros (Hl & Hd & n & Hp & Hn).
  assert (Hs : JS.isDigitString v = true).
  { destruct v; [discriminate | exact Hd]. }
  split; [exact Hs|].
  destruct (parseIntAuto_digits v Hs) as [_ Hq]. congruence.
Qed.


Lemma registration_row generateUniqueAmount st body clock st' r :
  handleWooCommercePaymentWebhook generateUniqueAmount st body clock
  = Some (st', Ok r) ->
  exists orderRef expectedAmount uniqueAmount,
    wc_orderRef body = Some orderRef /\ orderRef <> EmptyString
    /\ wc_expectedAmount body = Some expectedAmount
    /\ expectedAmount <> EmptyString
    /\ reg_order_reference r = orderRef
    /\ replacesOrder (expectations st) (expectations st')
         (pendingRow (reg_id r) orderRef (reg_expected_amount r) uniqueAmount
            expectedAmount (wc_callbackUrl body) (t_insert clock))
    /\ (if wc_useUniqueAmount body
        then exists finished,
            generateUniqueAmount (reservations st) orderRef (t_allocate clock)
            = Some finished
            /\ Allocator.outcome finished = Returned uniqueAmount
            /\ reservations st' = Allocator.final_table finished
            /\ reg_expected_amount r = combine expectedAmount uniqueAmount
            /\ reg_unique_amount r = Some uniqueAmount
        else uniqueAmount = expectedAmount
             /\ reg_expected_amount r = expectedAmount
             /\ reservations st' = reservations st).
Proof.
  unfold handleWooCommercePaymentWebhook.
  destruct (missing (wc_orderRef body)) eqn:Ho; [discriminate|].
  destruct (missing (wc_expectedAmount body)) eqn:He; [discriminate|].
  cbn [orb].
  destruct (missing_false _ Ho) as (orderRef & Ho1 & Ho2 & Ho3).
  destruct (missing_false _ He) as (amt & He1 & He2 & He3).
  rewrite Ho3, He3.
  destruct (wc_useUniqueAmount body).
  - destruct (generateUniqueAmount (reservations st) orderRef (t_allocate clock))
      as [finished|] eqn:Hg; [|discriminate].
    destruct (Allocator.outcome finished) as [u|m] eqn:Hout; [|discriminate].
    destruct (insertOrReplace _ _ _ _ _ _ _) as [st2 rowId] eqn:Hi.
    intros [= <- <-]. cbn [reg_order_reference reg_expected_amount reg_id
      reg_unique_amount].
    apply insertOrReplace_replaces in Hi. destruct Hi as [Hrep Hres].
    exists orderRef, amt, u. do 5 (split; [assumption || reflexivity|]).
    split; [exact Hrep|].
    exists finished.
    split; [exact Hg|]. split; [exact Hout|].
    split; [rewrite Hres; reflexivity|]. split; reflexivity.
  - destruct (insertOrReplace _ _ _ _ _ _ _) as [st2 rowId] eqn:Hi.
    intros [= <- <-]. cbn [reg_order_reference reg_expected_amount reg_id
      reg_unique_amount].
    apply insertOrReplace_replaces in Hi. destruct Hi as [Hrep Hres].
    exists orderRef, amt, amt. do 5 (split; [assumption || reflexivity|]).
    split; [exact Hrep|].
    split; [reflexivity|]. split; [reflexivity | exact Hres].
Qed.

(** The handler sees the allocator through one call only. *)
Lemma payment_webhook_same generate1 generate2 st body clock :
  generate1 (reservations st) (orEmpty (wc_orderRef body)) (t_allocate clock)
  = generate2 (reservations st) (orEmpty (wc_orderRef body)) (t_allocate clock) ->
  handleWooCommercePaymentWebhook generate1 st body clock
  = handleWooCommercePaymentWebhook generate2 st body clock.
Proof.
  intros H. unfold handleWooCommercePaymentWebhook. rewrite H. reflexivity.
Qed.

(** The answer of the handler, from the answer of the allocator. *)
Lemma payment_webhook_answer generateUniqueAmount st body clock orderRef amt result :
  wc_orderRef body = Some orderRef -> orderRef <> EmptyString ->
  wc_expectedAmount body = Some amt ->
  JS.isDigitString amt = true ->
  JS.len amt <= 15 ->
  wc_useUniqueAmount body = true ->
  generateUniqueAmount (reservations st) orderRef (t_allocate clock) = Some result ->
  (exists v, Allocator.outcome result = Returned v /\ Allocator.poolValue v)
  \/ Allocator.outcome result = Thrown Allocator.exhaustedMessage ->
  exists st' reply,
    handleWooCommercePaymentWebhook generateUniqueAmount st body clock
    = Some (st', reply)
    /\ registrationAnswer amt st st' reply.
Proof.
  intros Ho Hne Ha Hd Hlen Hu Hg Hout.
  unfold handleWooCommercePaymentWebhook.
  assert (Hm1 : missing (wc_orderRef body) = false).
  { rewrite Ho. unfold missing, truthy. destruct orderRef; [congruence | reflexivity]. }
  assert (Hm2 : missing (wc_expectedAmount body) = false).
  { rewrite Ha. unfold missing, truthy. destruct amt; [discriminate | reflexivity]. }
  rewrite Hm1, Hm2, Hu, Ho, Ha. cbn [orb orEmpty]. rewrite Hg.
  destruct Hout as [(v & Hv & Hp) | Hx].
  - rewrite Hv.
    destruct (insertOrReplace _ _ _ _ _ _ _) as [st2 rowId] eqn:Hi.
    eexists. eexists. split; [reflexivity|]. right.
    destruct (poolValue_digits v Hp) as [Hvd Hvr].
    pose proof (digitString_below amt 15 Hd Hlen) as Hamt.
    destruct (combine_digits amt v Hd Hvd ltac:(lia)) as [Hc _].
    destruct (parseIntAuto_digits amt Hd) as [_ Hpa].
    destruct (parseIntAuto_digits v Hvd) as [_ Hpv].
    destruct Hp as (Hl & _).
    eexists. exists v, (JS.digitsValue amt 0), (JS.digitsValue v 0).
    split; [reflexivity|]. cbn [reg_unique_amount reg_expected_amount].
    repeat (split; [assumption || reflexivity|]). exact Hc.
  - rewrite Hx. eexists. eexists. split; [reflexivity|]. left.
    split; reflexivity.
Qed.


(** The matcher completes a candidate whose reference the text mentions
    and whose expected amount is the detected amount, letter for letter. *)
Lemma settle_row db text title bigText clock e :
  In e db ->
  status e = pending ->
  within 5 (t_select clock) e = true ->
  mentions (searchTextOf text title bigText) e = true ->
  (forall x, In x db ->
             Properties.pendingWithAmount (expected_amount e) (t_select clock) x ->
             mentions (searchTextOf text title bigText) x = true -> x = e) ->
  Matcher.Worker.checkPaymentMatch db text title bigText (expected_amount e) clock
  = (update db (id e) completed (Some (t_update clock)),
     notify e (expected_amount e) text order_reference_match (t_notify clock)).
Proof.
  intros Hin Hst Hw Hm Honly. unfold Matcher.Worker.checkPaymentMatch.
  assert (Hp : Properties.pendingWithAmount (expected_amount e) (t_select clock) e).
  { split; [exact Hst|]. split; [|exact Hw].
    unfold amountEquals. rewrite String.eqb_refl. reflexivity. }
  assert (Hsel : In e (Matcher.Worker.selectPending db (expected_amount e)
                         (normalize (expected_amount e)) (t_select clock))).
  { unfold Matcher.Worker.selectPending.
    apply MatcherTheorems.orderByCreatedDesc_keeps.
    apply filter_In. split; [exact Hin|].
    apply MatcherFacts.worker_candidate_iff. exact Hp. }
  destruct (Matcher.Worker.selectPending db (expected_amount e)
              (normalize (expected_amount e)) (t_select clock))
    as [|x rest] eqn:Hs; [destruct Hsel|].
  cbv zeta. unfold Matcher.Worker.choose.
  destruct (MatcherTheorems.find_somewhere _ _ _ Hsel Hm) as [y Hy]. rewrite Hy.
  assert (y = e).
  { apply MatcherFacts.find_in in Hy. destruct Hy as [Hy1 Hy2].
    rewrite <- Hs in Hy1. unfold Matcher.Worker.selectPending in Hy1.
    apply MatcherFacts.orderByCreatedDesc_in in Hy1. apply filter_In in Hy1.
    destruct Hy1 as [Hy1 Hc]. apply MatcherFacts.worker_candidate_iff in Hc.
    apply Honly; assumption. }
  subst y. rewrite String.eqb_refl. reflexivity.
Qed.


(** *** The keys of the table *)

Lemma map_filter_NoDup {A B : Type} (f : A -> B) (p : A -> bool) (l : list A) :
  NoDup (List.map f l) -> NoDup (List.map f (filter p l)).
Proof.
  induction l as [|x l IH]; cbn [List.map filter]; intros H; [constructor|].
  inversion H as [|y ys Hnin Hnd]; subst.
  destruct (p x); [|apply IH; exact Hnd].
  cbn [List.map]. constructor; [|apply IH; exact Hnd].
  intros Hin. apply Hnin. apply in_map_iff in Hin.
  destruct Hin as (z & Hz & Hin). apply filter_In in Hin.
  apply in_map_iff. exists z. tauto.
Qed.

Lemma NoDup_snoc {B : Type} (l : list B) (b : B) :
  NoDup l -> ~ In b l -> NoDup (l ++ [b]).
Proof.
  induction l as [|x l IH]; cbn [app]; intros Hnd Hnin.
  - constructor; [intros [] | constructor].
  - inversion Hnd as [|y ys Hx Hl]; subst. constructor.
    + rewrite in_app_iff. cbn [In]. intros [H | [H | []]]; [contradiction|].
      apply Hnin. left. symmetry. exact H.
    + apply IH; [exact Hl|]. intros H. apply Hnin. right. exact H.
Qed.

Lemma insertOrReplace_wellKeyed (st st' : Store) (rowId : Z)
    (orderRef combinedAmount uniqueAmount originalAmount : string)
    (callbackUrl : option string) (now : Z) :
  wellKeyed st ->
  insertOrReplace st orderRef combinedAmount uniqueAmount originalAmount
    callbackUrl now = (st', rowId) ->
  wellKeyed st'.
Proof.
  intros (Hid & Href & Hseq). unfold insertOrReplace. intros [= <- <-].
  unfold wellKeyed. cbn [expectations sequence].
  rewrite !map_app. cbn [List.map pendingRow id order_reference].
  split; [|split].
  - apply NoDup_snoc; [apply map_filter_NoDup; exact Hid|].
    intros Hin. apply in_map_iff in Hin. destruct Hin as (e & He & Hin).
    apply filter_In in Hin. destruct Hin as [Hin _].
    pose proof (nextId_fresh st e Hin). lia.
  - apply NoDup_snoc; [apply map_filter_NoDup; exact Href|].
    intros Hin. apply in_map_iff in Hin. destruct Hin as (e & He & Hin).
    apply filter_In in Hin. destruct Hin as [_ Hin].
    apply otherOrder_iff in Hin. contradiction.
  - intros e Hin. apply in_app_iff in Hin. destruct Hin as [Hin | [<- | []]].
    + apply filter_In in Hin. destruct Hin as [Hin _].
      pose proof (nextId_fresh st e Hin). lia.
    + cbn [id pendingRow]. lia.
Qed.

Lemma wellKeyed_withReservations (st : Store) (db : Allocator.Table) :
  wellKeyed st -> wellKeyed (withReservations st db).
Proof. intros H. exact H. Qed.

Lemma update_keys (db : Table) (rowId : Z) (st : Status) (at_ : option Z) :
  List.map id (update db rowId st at_) = List.map id db
  /\ List.map order_reference (update db rowId st at_)
     = List.map order_reference db.
Proof.
  unfold update. rewrite !map_map. split; apply map_ext; intros e;
    destruct (id e =? rowId); reflexivity.
Qed.


(** *** The table [devices] *)

Lemma find_filter_other {A : Type} (p q : A -> bool) (l : list A) :
  (forall x, p x = true -> q x = true) ->
  find p (filter q l) = find p l.
Proof.
  intros H. induction l as [|x l IH]; [reflexivity|]. cbn [filter find].
  destruct (q x) eqn:Hq.
  - cbn [find]. destruct (p x); [reflexivity | exact IH].
  - destruct (p x) eqn:Hp; [|exact IH]. rewrite (H x Hp) in Hq. discriminate.
Qed.

Lemma find_app_none {A : Type} (p : A -> bool) (l m : list A) :
  find p (l ++ m) = match find p l with Some x => Some x | None => find p m end.
Proof.
  induction l as [|x l IH]; [reflexivity|]. cbn [app find].
  destruct (p x); [reflexivity | exact IH].
Qed.

Lemma find_filter_none {A : Type} (p : A -> bool) (l : list A) :
  find p (filter (fun x => negb (p x)) l) = None.
Proof.
  induction l as [|x l IH]; [reflexivity|]. cbn [filter].
  destruct (p x) eqn:Hp; cbn [negb]; [exact IH|].
  cbn [find]. rewrite Hp. exact IH.
Qed.

Lemma statedCount_upsert (rows : list Device) (deviceId other : string)
    (timestamp : Z) :
  match find (isDevice other) (upsertDevice rows deviceId timestamp) with
  | Some d => d_total_notifications d
  | None => 0
  end
  = (match find (isDevice other) rows with
     | Some d => d_total_notifications d
     | None => 0
     end) + (if String.eqb deviceId other then 1 else 0).
Proof.
  unfold upsertDevice. rewrite find_app_none.
  destruct (String.eqb_spec deviceId other) as [<- | Hne].
  - rewrite find_filter_none. cbn [find]. unfold isDevice at 1.
    cbn [d_device_id]. rewrite String.eqb_refl. cbn [d_total_notifications].
    unfold countOf.
    destruct (find (isDevice deviceId) rows); lia.
  - rewrite find_filter_other.
    + destruct (find (isDevice other) rows) as [d|]; [lia|].
      cbn [find]. unfold isDevice at 1. cbn [d_device_id].
      destruct (String.eqb_spec deviceId other); [contradiction | reflexivity].
    + intros x Hx. unfold isDevice in *. apply String.eqb_eq in Hx.
      destruct (String.eqb_spec (d_device_id x) deviceId); [congruence | reflexivity].
Qed.

(** *** The last part of a path *)

Lemma split_go_plain (s : string) :
  JS.includes s "/" = false -> JS.split_go s "/" 0 = (s, []).
Proof.
  induction s as [|c s IH]; intros H; [reflexivity|].
  rewrite StringFacts.includes_cons in H. apply orb_false_iff in H.
  destruct H as [H1 H2]. cbn [JS.split_go]. rewrite H1, (IH H2). reflexivity.
Qed.

Lemma split_go_last (a ref : string) :
  JS.includes ref "/" = false ->
  exists p ps,
    JS.split_go (a ++ String "/" ref) "/" 0 = (p, ps)
    /\ ps <> [] /\ List.last ps EmptyString = ref.
Proof.
  intros Hr. induction a as [|c a (p & ps & Hs & Hne & Hl)].
  - cbn [append JS.split_go JS.startsWith].
    rewrite ParserFacts.startsWith_empty. cbn [Ascii.eqb Bool.eqb andb].
    cbn [String.length Nat.sub]. rewrite (split_go_plain ref Hr).
    exists EmptyString, [ref]. repeat split. discriminate.
  - cbn [append JS.split_go]. cbn [String.length Nat.sub]. rewrite Hs.
    destruct (JS.startsWith (String c (a ++ String "/" ref)) "/").
    + exists EmptyString, (p :: ps). split; [reflexivity|].
      split; [discriminate|].
      destruct ps as [|q ps]; [congruence|]. exact Hl.
    + exists (String c p), ps. auto.
Qed.

Lemma plainReference_no_slash (ref : string) :
  plainReference ref = true -> JS.includes ref "/" = false.
Proof.
  induction ref as [|c ref IH]; [reflexivity|].
  cbn [plainReference]. intros H. apply andb_true_iff in H. destruct H as [Hc Hr].
  rewrite StringFacts.includes_cons, (IH Hr), orb_false_r.
  cbn [JS.startsWith]. rewrite ParserFacts.startsWith_empty, andb_true_r.
  destruct (Ascii.eqb_spec "/"%char c) as [<- | Hne]; [|reflexivity].
  vm_compute in Hc. discriminate.
Qed.

Lemma lastPart_of_path (a ref : string) :
  JS.includes ref "/" = false -> lastPart (a ++ "/" ++ ref) = ref.
Proof.
  intros Hr. unfold lastPart, JS.split.
  destruct (split_go_last a ref Hr) as (p & ps & Hs & Hne & Hl).
  change ("/" ++ ref) with (String "/" ref). rewrite Hs. destruct ps as [|q ps]; [congruence|]. exact Hl.
Qed.

End HandlerFacts.

Module HandlerTheorems.
Import Matcher Handlers Ledger HandlerFacts HandlerSamples.

(** X: what a successful registration through
    [handleWooCommercePaymentWebhook] leaves in the store. *)
Theorem payment_webhook_registers generateUniqueAmount st body clock st' r :
  handleWooCommercePaymentWebhook generateUniqueAmount st body clock
  = Some (st', Ok r) ->
  exists orderRef expectedAmount uniqueAmount,
    wc_orderRef body = Some orderRef /\ orderRef <> EmptyString
    /\ wc_expectedAmount body = Some expectedAmount
    /\ expectedAmount <> EmptyString
    /\ reg_order_reference r = orderRef
    /\ replacesOrder (expectations st) (expectations st')
         (pendingRow (reg_id r) orderRef (reg_expected_amount r) uniqueAmount
            expectedAmount (wc_callbackUrl body) (t_insert clock))
    /\ (if wc_useUniqueAmount body
        then exists finished,
            generateUniqueAmount (reservations st) orderRef (t_allocate clock)
            = Some finished
            /\ Allocator.outcome finished = Returned uniqueAmount
            /\ reservations st' = Allocator.final_table finished
            /\ reg_expected_amount r = combine expectedAmount uniqueAmount
            /\ reg_unique_amount r = Some uniqueAmount
        else uniqueAmount = expectedAmount
             /\ reg_expected_amount r = expectedAmount
             /\ reservations st' = reservations st).
Proof. exact (registration_row generateUniqueAmount st body clock st' r). Qed.




(** X: a registration that asks for a unique amount always answers, in
    both builds: either the pool is exhausted, or the expected amount is
    the order amount plus the unique amount. *)
Theorem payment_webhook_amount random st body clock orderRef amt :
  Allocator.inRange random ->
  Allocator.poolTable (reservations st) ->
  wc_orderRef body = Some orderRef -> orderRef <> EmptyString ->
  wc_expectedAmount body = Some amt ->
  JS.isDigitString amt = true ->
  JS.len amt <= 15 ->
  wc_useUniqueAmount body = true ->
  (exists st' reply,
      (forall fuel, (200 <= fuel)%nat ->
         Worker.handleWooCommercePaymentWebhook random fuel st body clock
         = Some (st', reply))
      /\ registrationAnswer amt st st' reply)
  /\ (exists st' reply,
         (forall fuel, (201 <= fuel)%nat ->
            Node.handleWooCommercePaymentWebhook random fuel st body clock
            = Some (st', reply))
         /\ registrationAnswer amt st st' reply).
Proof.
  intros Hr Hp Ho Hne Ha Hd Hlen Hu.
  assert (Href : orEmpty (wc_orderRef body) = orderRef) by (rewrite Ho; reflexivity).
  split.
  - destruct (AllocatorTheorems.generateWith_total random orderRef
                (t_allocate clock) Allocator.Worker.giveUp 200 (reservations st)
                AllocatorTheorems.worker_giveUp_limit ltac:(lia) Hr Hp)
      as (result & Hres & _ & _ & Hout).
    assert (Hout' : (exists v, Allocator.outcome result = Returned v
                               /\ Allocator.poolValue v)
                    \/ Allocator.outcome result = Thrown Allocator.exhaustedMessage)
      by (destruct Hout as [H | [H _]]; [left; exact H | right; exact H]).
    destruct (payment_webhook_answer
                (Allocator.Worker.generateUniqueAmount random 200) st body clock
                orderRef amt result Ho Hne Ha Hd Hlen Hu
                (Hres 200%nat ltac:(reflexivity)) Hout')
      as (st' & reply & Hh & Hans).
    exists st', reply. split; [|exact Hans].
    intros fuel Hf. unfold Worker.handleWooCommercePaymentWebhook.
    rewrite <- Hh. apply payment_webhook_same. rewrite Href.
    unfold Allocator.Worker.generateUniqueAmount.
    rewrite (Hres fuel) by (change (Z.to_nat 200) with 200%nat; lia).
    rewrite (Hres 200%nat) by reflexivity. reflexivity.
  - destruct (AllocatorTheorems.generateWith_total random orderRef
                (t_allocate clock) Allocator.Node.giveUp 201 (reservations st)
                AllocatorTheorems.node_giveUp_limit ltac:(lia) Hr Hp)
      as (result & Hres & _ & _ & Hout).
    assert (Hout' : (exists v, Allocator.outcome result = Returned v
                               /\ Allocator.poolValue v)
                    \/ Allocator.outcome result = Thrown Allocator.exhaustedMessage)
      by (destruct Hout as [H | [H _]]; [left; exact H | right; exact H]).
    destruct (payment_webhook_answer
                (Allocator.Node.generateUniqueAmount random 201) st body clock
                orderRef amt result Ho Hne Ha Hd Hlen Hu
                (Hres 201%nat ltac:(reflexivity)) Hout')
      as (st' & reply & Hh & Hans).
    exists st', reply. split; [|exact Hans].
    intros fuel Hf. unfold Node.handleWooCommercePaymentWebhook.
    rewrite <- Hh. apply payment_webhook_same. rewrite Href.
    unfold Allocator.Node.generateUniqueAmount.
    rewrite (Hres fuel) by (change (Z.to_nat 201) with 201%nat; lia).
    rewrite (Hres 201%nat) by reflexivity. reflexivity.
Qed.


(** X: from the registration to the settlement.  An order is registered;
    a notification then arrives within five minutes that states the
    registered amount and whose text holds the order reference, and no
    other pending expectation of that amount is named in the text.  Then
    [handleWebhook] completes the row of the order and nothing else, and
    hands over the callback of the order when it has a callback URL. *)
Theorem registered_payment_settles
    generateUniqueAmount st body clock st1 r notice wclock st2 callbacks reply :
  handleWooCommercePaymentWebhook generateUniqueAmount st body clock
  = Some (st1, Ok r) ->
  missing (nb_deviceId notice) = false ->
  missing (nb_packageName notice) = false ->
  nb_amountDetected notice = Some (reg_expected_amount r) ->
  JS.includes (searchTextOf (nb_text notice) (nb_title notice) (nb_bigText notice))
    (JS.toLowerCase (reg_order_reference r)) = true ->
  t_select (t_match wclock) - 5 * 60 < t_insert clock ->
  (forall e,
      In e (expectations st) ->
      order_reference e <> reg_order_reference r ->
      Properties.pendingWithAmount (reg_expected_amount r)
        (t_select (t_match wclock)) e ->
      mentions (searchTextOf (nb_text notice) (nb_title notice) (nb_bigText notice))
        e = false) ->
  handleWebhook st1 notice wclock = (st2, callbacks, reply) ->
  exists row,
    In row (expectations st1)
    /\ id row = reg_id r
    /\ order_reference row = reg_order_reference r
    /\ expected_amount row = reg_expected_amount r
    /\ callback_url row = wc_callbackUrl body
    /\ In (setStatus completed (Some (t_update (t_match wclock))) row)
         (expectations st2)
    /\ (forall e, In e (expectations st2) ->
                  order_reference e = reg_order_reference r ->
                  e = setStatus completed (Some (t_update (t_match wclock))) row)
    /\ (forall e, order_reference e <> reg_order_reference r ->
                  (In e (expectations st2) <-> In e (expectations st)))
    /\ callbacks
       = notify row (reg_expected_amount r) (nb_text notice)
           order_reference_match (t_notify (t_match wclock)).
Proof.
  intros Hreg Hd Hp Ha Hm Ht Hother Hweb.
  destruct (registration_row _ _ _ _ _ _ Hreg)
    as (orderRef & amt & u & Ho & Hne & He & Hane & Hr & Hrep & _).
  set (row := pendingRow (reg_id r) orderRef (reg_expected_amount r) u amt
                (wc_callbackUrl body) (t_insert clock)) in *.
  destruct Hrep as (Hin & Hone & Hrest & Hfresh).
  cbn [order_reference id row pendingRow] in Hone, Hrest, Hfresh.
  assert (Hamt : reg_expected_amount r <> EmptyString).
  { intros Hz. unfold handleWebhook in Hweb. rewrite Hd, Hp in Hweb.
    cbn [orb] in Hweb. rewrite Ha, Hz in Hweb. cbn [truthy String.length Nat.eqb negb] in Hweb.
    pose proof Hreg as Hreg'. unfold handleWooCommercePaymentWebhook in Hreg'.
    destruct (registration_row _ _ _ _ _ _ Hreg)
      as (o' & a' & u' & _ & _ & He' & Hane' & _ & _ & Hcase).
    destruct (wc_useUniqueAmount body).
    - destruct Hcase as (fin & _ & _ & _ & Hc & _).
      rewrite Hz in Hc. unfold combine in Hc. symmetry in Hc.
      exact (StringFacts.numberToString_nonempty _ Hc).
    - destruct Hcase as (_ & Hc & _). congruence. }
  unfold handleWebhook in Hweb. rewrite Hd, Hp in Hweb. cbn [orb] in Hweb.
  rewrite Ha in Hweb.
  assert (Htr : truthy (Some (reg_expected_amount r)) = true).
  { unfold truthy. destruct (reg_expected_amount r); [congruence | reflexivity]. }
  rewrite Htr in Hweb. cbn [orEmpty] in Hweb.
  assert (Hsettle :
    Matcher.Worker.checkPaymentMatch (expectations st1) (nb_text notice)
      (nb_title notice) (nb_bigText notice) (reg_expected_amount r) (t_match wclock)
    = (update (expectations st1) (id row) completed
         (Some (t_update (t_match wclock))),
       notify row (reg_expected_amount r) (nb_text notice) order_reference_match
         (t_notify (t_match wclock)))).
  { apply (settle_row (expectations st1) (nb_text notice) (nb_title notice)
             (nb_bigText notice) (t_match wclock) row Hin).
    - reflexivity.
    - unfold within. cbn [created_at row pendingRow].
      apply InstantFacts.isoAfter_later. lia.
    - unfold mentions. cbn [order_reference row pendingRow]. rewrite <- Hr. exact Hm.
    - intros x Hx Hpx Hmx.
      destruct (String.eqb_spec (order_reference x) orderRef) as [Heq | Hneq].
      + apply Hone; assumption.
      + exfalso. apply Hrest in Hx; [|exact Hneq].
        rewrite <- Hr in Hneq.
        rewrite (Hother x Hx Hneq Hpx) in Hmx. discriminate. }
  rewrite Hsettle in Hweb. injection Hweb as <- <- _.
  cbn [expectations]. exists row.
  split; [exact Hin|]. split; [reflexivity|]. split; [symmetry; exact Hr|].
  split; [reflexivity|]. split; [reflexivity|].
  split; [apply (MatcherFacts.update_hit _ completed _ row Hin)|].
  split; [|split; [|reflexivity]].
  - intros e Hin2 Hre. apply MatcherFacts.update_in in Hin2.
    destruct Hin2 as (e0 & He0 & [[Hid ->] | [Hid ->]]).
    + cbn [order_reference setStatus] in Hre. rewrite Hr in Hre.
      rewrite (Hone e0 He0 Hre). reflexivity.
    + exfalso. rewrite Hr in Hre. apply Hid.
      rewrite (Hone e0 He0 Hre). reflexivity.
  - intros e Hne2. rewrite Hr in Hne2. rewrite <- (Hrest e Hne2). split.
    + intros Hin2. apply MatcherFacts.update_in in Hin2.
      destruct Hin2 as (e0 & He0 & [[Hid ->] | [Hid ->]]); [|exact He0].
      exfalso. cbn [order_reference setStatus] in Hne2.
      assert (Hin0 : In e0 (expectations st)) by (apply Hrest; assumption).
      specialize (Hfresh e0 Hin0). cbn [id row pendingRow] in Hid. lia.
    + intros Hin1.
      assert (Hin0 : In e (expectations st)) by (apply Hrest; assumption).
      specialize (Hfresh e Hin0).
      assert (Hnid : id e <> reg_id r) by lia.
      clear - Hin1 Hnid. induction (expectations st1) as [|z l IH];
        [destruct Hin1|].
      cbn [update List.map]. destruct Hin1 as [-> | Hin1].
      * left. destruct (Z.eqb_spec (id e) (reg_id r)); [contradiction | reflexivity].
      * right. apply IH. exact Hin1.
Qed.


(** X: the keys of [payment_expectations] are kept by every handler that
    writes the table: no two rows share an id or an order reference, and
    no id exceeds the sequence. *)
Theorem handlers_keep_keys generateUniqueAmount st :
  wellKeyed st ->
  (forall body clock st' reply,
      handleWooCommercePaymentWebhook generateUniqueAmount st body clock
      = Some (st', reply) -> wellKeyed st')
  /\ (forall body clock st' reply,
         handleQRISGenerateForOrder generateUniqueAmount st body clock
         = Some (st', reply) -> wellKeyed st')
  /\ (forall body now st' reply,
         handleQRISConvert generateUniqueAmount st body now = Some (st', reply) ->
         wellKeyed st')
  /\ (forall notice wclock st' callbacks reply,
         handleWebhook st notice wclock = (st', callbacks, reply) -> wellKeyed st').
Proof.
  intros Hk. split; [|split; [|split]].
  - intros body clock st' reply. unfold handleWooCommercePaymentWebhook.
    destruct (missing (wc_orderRef body) || missing (wc_expectedAmount body));
      [intros [= <- _]; exact Hk|].
    destruct (wc_useUniqueAmount body).
    + destruct (generateUniqueAmount _ _ _) as [fin|]; [|discriminate].
      destruct (Allocator.outcome fin) as [u|m]; [|intros [= <- _]; exact Hk].
      destruct (insertOrReplace _ _ _ _ _ _ _) as [st2 rowId] eqn:Hi.
      intros [= <- _].
      exact (insertOrReplace_wellKeyed _ _ _ _ _ _ _ _ _
               (wellKeyed_withReservations st _ Hk) Hi).
    + destruct (insertOrReplace _ _ _ _ _ _ _) as [st2 rowId] eqn:Hi.
      intros [= <- _].
      exact (insertOrReplace_wellKeyed _ _ _ _ _ _ _ _ _ Hk Hi).
  - intros body clock st' reply. unfold handleQRISGenerateForOrder.
    destruct (missing (go_staticQRIS body) || missing (go_originalAmount body)
              || missing (go_orderRef body)); [intros [= <- _]; exact Hk|].
    destruct (negb (Converter.validateQRIS _)); [intros [= <- _]; exact Hk|].
    destruct (generateUniqueAmount _ _ _) as [fin|]; [|discriminate].
    destruct (Allocator.outcome fin) as [u|m]; [|intros [= <- _]; exact Hk].
    destruct (Converter.convertStaticToDynamic _ _ _) as [d|m];
      [|intros [= <- _]; exact Hk].
    destruct (insertOrReplace _ _ _ _ _ _ _) as [st2 rowId] eqn:Hi.
    intros [= <- _].
    exact (insertOrReplace_wellKeyed _ _ _ _ _ _ _ _ _
             (wellKeyed_withReservations st _ Hk) Hi).
  - intros body now st' reply. unfold handleQRISConvert.
    destruct (missing (cv_staticQRIS body) || missing (cv_amount body));
      [intros [= <- _]; exact Hk|].
    destruct (negb (Converter.validateQRIS _)); [intros [= <- _]; exact Hk|].
    destruct (truthy (cv_orderRef body)).
    + destruct (generateUniqueAmount _ _ _) as [fin|]; [|discriminate].
      destruct (Allocator.outcome fin) as [u|m]; [|intros [= <- _]; exact Hk].
      destruct (Converter.convertStaticToDynamic _ _ _) as [d|m];
        intros [= <- _]; exact Hk.
    + destruct (Converter.convertStaticToDynamic _ _ _) as [d|m];
        intros [= <- _]; exact Hk.
  - intros notice wclock st' callbacks reply. unfold handleWebhook.
    destruct (missing (nb_deviceId notice) || missing (nb_packageName notice));
      [intros [= <- _ _]; exact Hk|].
    destruct (truthy (nb_amountDetected notice)).
    + destruct (MatcherTheorems.worker_checkPaymentMatch_outcome (expectations st)
                  (nb_text notice) (nb_title notice) (nb_bigText notice)
                  (orEmpty (nb_amountDetected notice)) (t_match wclock))
        as [Hsame | (e & mt & _ & _ & _ & Hupd)].
      * rewrite Hsame. intros [= <- _ _]. exact Hk.
      * rewrite Hupd. intros [= <- _ _]. destruct Hk as (Hid & Href & Hseq).
        unfold wellKeyed. cbn [expectations sequence].
        destruct (update_keys (expectations st) (id e) completed
                    (Some (t_update (t_match wclock)))) as [H1 H2].
        rewrite H1, H2. split; [exact Hid|]. split; [exact Href|].
        intros x Hx. apply MatcherFacts.update_in in Hx.
        destruct Hx as (e0 & He0 & [[_ ->] | [_ ->]]);
          [cbn [id setStatus]|]; apply Hseq; exact He0.
    + intros [= <- _ _]. exact Hk.
Qed.


(** X: the amount in the QR code is the amount that the matcher will
    expect.  When [handleQRISGenerateForOrder] succeeds, the payload of its
    answer is the conversion of the static payload for the combined amount,
    the row it stores for the order expects that amount, and wherever the
    amount can be read back from a converted payload (at most 99 digits, no
    [54] before the country field) [extractAmount] reads it from the
    answer. *)
Theorem generate_for_order_consistent generateUniqueAmount st body clock st' g :
  handleQRISGenerateForOrder generateUniqueAmount st body clock
  = Some (st', Ok g) ->
  exists staticQRIS originalAmount,
    go_staticQRIS body = Some staticQRIS
    /\ Converter.validateQRIS staticQRIS = true
    /\ go_originalAmount body = Some originalAmount
    /\ go_orderRef body = Some (gen_order_reference g)
    /\ gen_combined_amount g = combine originalAmount (gen_unique_amount g)
    /\ gen_amount_for_payment g = gen_combined_amount g
    /\ JS.isDigitString (gen_combined_amount g) = true
    /\ Converter.convertStaticToDynamic (Some staticQRIS)
         (Converter.AmountString (gen_combined_amount g)) (go_serviceFee body)
       = Returned (gen_dynamic_qris g)
    /\ replacesOrder (expectations st) (expectations st')
         (pendingRow (gen_payment_expectation_id g) (gen_order_reference g)
            (gen_combined_amount g) (gen_unique_amount g) originalAmount
            (go_callbackUrl body) (t_insert clock))
    /\ (JS.len (gen_combined_amount g) <= 99 ->
        (forall part0 part1,
            Converter.sentinelParts staticQRIS = [part0; part1] ->
            JS.includes part0 "54" = false) ->
        Converter.extractAmount (gen_dynamic_qris g) = Some (gen_combined_amount g)).
Proof.
  unfold handleQRISGenerateForOrder.
  destruct (missing (go_staticQRIS body)) eqn:Hs; [discriminate|].
  destruct (missing (go_originalAmount body)) eqn:Ha; [discriminate|].
  destruct (missing (go_orderRef body)) eqn:Ho; [discriminate|].
  cbn [orb].
  destruct (missing_false _ Hs) as (staticQRIS & Hs1 & Hs2 & Hs3).
  destruct (missing_false _ Ha) as (amt & Ha1 & Ha2 & Ha3).
  destruct (missing_false _ Ho) as (orderRef & Ho1 & Ho2 & Ho3).
  rewrite Hs3, Ha3, Ho3.
  destruct (Converter.validateQRIS staticQRIS) eqn:Hv; [|discriminate].
  cbn [negb].
  destruct (generateUniqueAmount _ _ _) as [fin|]; [|discriminate].
  destruct (Allocator.outcome fin) as [u|m]; [|discriminate].
  destruct (Converter.convertStaticToDynamic (Some staticQRIS)
              (Converter.AmountString (combine amt u)) (go_serviceFee body))
    as [d|m] eqn:Hc; [|discriminate].
  destruct (insertOrReplace _ _ _ _ _ _ _) as [st2 rowId] eqn:Hi.
  intros [= <- <-].
  cbn [gen_order_reference gen_combined_amount gen_unique_amount
       gen_amount_for_payment gen_dynamic_qris gen_payment_expectation_id].
  apply insertOrReplace_replaces in Hi. destruct Hi as [Hrep _].
  pose proof (ConverterFacts.convert_cases (Some staticQRIS)
                (Converter.AmountString (combine amt u)) (go_serviceFee body)) as Hcase.
  rewrite Hc in Hcase.
  inversion Hcase as [| | | | s part0 part1 amountField Hs' Hne Hf Hd Hp Hb Heq].
  injection Hs' as <-. cbn [Converter.amountToString] in *.
  exists staticQRIS, amt.
  split; [exact Hs1|]. split; [exact Hv|]. split; [exact Ha1|].
  split; [exact Ho1|]. split; [reflexivity|]. split; [reflexivity|].
  split; [exact Hd|]. split; [rewrite Heq; exact Hc|]. split; [exact Hrep|].
  intros Hlen Hno.
  apply (RoundTripFacts.extractAmount_of_payload _ _ (combine amt u)
           (go_serviceFee body));
    [exact Hb | exact (Hno part0 part1 Hp) | exact Hd | exact Hlen].
Qed.

(** X: registering an order again keeps the amount to pay.  A second
    registration of the order, made while the reservations that the table
    holds for the order are running, is answered with the unique amount and
    the expected amount of the first, makes no new reservation, and
    replaces the row of the order by a pending row with a larger id. *)
Theorem registration_again_keeps_amount
    random1 random2 fuel1 fuel2 st body clock1 clock2 st1 r1 :
  wc_useUniqueAmount body = true ->
  t_allocate clock1 <= t_allocate clock2 ->
  Allocator.running (reservations st1) (reg_order_reference r1)
    (t_allocate clock2) ->
  (Worker.handleWooCommercePaymentWebhook random1 fuel1 st body clock1
   = Some (st1, Ok r1) ->
   exists st2 r2,
     Worker.handleWooCommercePaymentWebhook random2 fuel2 st1 body clock2
     = Some (st2, Ok r2)
     /\ reg_unique_amount r2 = reg_unique_amount r1
     /\ reg_expected_amount r2 = reg_expected_amount r1
     /\ reservations st2 = reservations st1
     /\ reg_id r1 < reg_id r2)
  /\ (Node.handleWooCommercePaymentWebhook random1 fuel1 st body clock1
      = Some (st1, Ok r1) ->
      exists st2 r2,
        Node.handleWooCommercePaymentWebhook random2 fuel2 st1 body clock2
        = Some (st2, Ok r2)
        /\ reg_unique_amount r2 = reg_unique_amount r1
        /\ reg_expected_amount r2 = reg_expected_amount r1
        /\ reservations st2 = reservations st1
        /\ reg_id r1 < reg_id r2).
Proof.
  intros Hu Ht Hn.
  assert (Hgen : forall giveUp1 giveUp2,
    handleWooCommercePaymentWebhook
      (fun db orderRef now =>
         Allocator.generateWith random1 orderRef now giveUp1 fuel1 db)
      st body clock1 = Some (st1, Ok r1) ->
    exists st2 r2,
      handleWooCommercePaymentWebhook
        (fun db orderRef now =>
           Allocator.generateWith random2 orderRef now giveUp2 fuel2 db)
        st1 body clock2 = Some (st2, Ok r2)
      /\ reg_unique_amount r2 = reg_unique_amount r1
      /\ reg_expected_amount r2 = reg_expected_amount r1
      /\ reservations st2 = reservations st1
      /\ reg_id r1 < reg_id r2).
  { intros giveUp1 giveUp2 Hreg.
    destruct (registration_row _ _ _ _ _ _ Hreg)
      as (orderRef & amt & u & Ho & Hne & He & Hane & Hr & Hrep & Hcase).
    rewrite Hu in Hcase.
    destruct Hcase as (fin & Hg & Hout & Hres & Hexp & Huniq).
    cbv beta in Hg. rewrite Hr, Hres in Hn.
    pose proof (AllocatorTheorems.generateWith_again random1 random2 giveUp1
                  giveUp2 fuel1 fuel2 (reservations st) orderRef
                  (t_allocate clock1) (t_allocate clock2) fin u Hg Hout Ht Hn)
      as Hagain.
    rewrite <- Hres in Hagain.
    unfold handleWooCommercePaymentWebhook.
    assert (Hm1 : missing (wc_orderRef body) = false).
    { rewrite Ho. unfold missing, truthy. destruct orderRef; [congruence | reflexivity]. }
    assert (Hm2 : missing (wc_expectedAmount body) = false).
    { rewrite He. unfold missing, truthy. destruct amt; [congruence | reflexivity]. }
    rewrite Hm1, Hm2, Hu, Ho, He. cbn [orb orEmpty]. rewrite Hagain.
    cbn [Allocator.outcome Allocator.final_table].
    destruct (insertOrReplace _ _ _ _ _ _ _) as [st2 rowId] eqn:Hi.
    eexists. eexists. split; [reflexivity|].
    cbn [reg_unique_amount reg_expected_amount reg_id].
    apply insertOrReplace_rows in Hi.
    destruct Hi as (Hid & _ & Hres2 & _).
    split; [symmetry; exact Huniq|]. split; [symmetry; exact Hexp|].
    split.
    - rewrite Hres2. reflexivity.
    - destruct Hrep as (Hin & _). rewrite Hid.
      assert (Hin' : In (pendingRow (reg_id r1) orderRef (reg_expected_amount r1) u
                           amt (wc_callbackUrl body) (t_insert clock1))
                        (expectations (withReservations st1 (reservations st1))))
        by exact Hin.
      apply nextId_fresh in Hin'. exact Hin'. }
  split.
  - exact (Hgen Allocator.Worker.giveUp Allocator.Worker.giveUp).
  - exact (Hgen Allocator.Node.giveUp Allocator.Node.giveUp).
Qed.


(** X: what [handleQRISUniqueAmount] answers for an order that was just
    registered, when the order reference is made of letters, digits, [-]
    and [_]: such a reference stands in [url.pathname] as it is written,
    and the handler takes it from there. *)
Theorem lookup_after_registration generateUniqueAmount st body clock st' r :
  handleWooCommercePaymentWebhook generateUniqueAmount st body clock
  = Some (st', Ok r) ->
  plainReference (reg_order_reference r) = true ->
  exists uniqueAmount,
    handleQRISUniqueAmount st' ("/qris/unique-amount/" ++ reg_order_reference r)
    = Ok {| oa_order_reference := reg_order_reference r;
            oa_unique_amount := Some uniqueAmount;
            oa_original_amount := wc_expectedAmount body;
            oa_status := pending;
            oa_created_at := t_insert clock |}
    /\ (wc_useUniqueAmount body = true -> reg_unique_amount r = Some uniqueAmount)
    /\ (wc_useUniqueAmount body = false -> wc_expectedAmount body = Some uniqueAmount).
Proof.
  intros Hreg Hplain.
  assert (Hpath : lastPart ("/qris/unique-amount/" ++ reg_order_reference r)
                  = reg_order_reference r).
  { exact (lastPart_of_path "/qris/unique-amount" (reg_order_reference r)
             (plainReference_no_slash _ Hplain)). }
  unfold handleQRISUniqueAmount. rewrite Hpath.
  assert (Hlook : forall (s : Store) ref c u o cb now s2 rowId,
             insertOrReplace s ref c u o cb now = (s2, rowId) ->
             lookupOrder (expectations s2) ref
             = Some (pendingRow rowId ref c u o cb now)).
  { intros s ref c u o cb now s2 rowId. unfold insertOrReplace.
    intros [= <- <-]. cbn [expectations]. unfold lookupOrder.
    rewrite filter_app.
    assert (Hnone : filter (ofOrder ref) (filter (otherOrder ref) (expectations s))
                    = []).
    { induction (expectations s) as [|e l IH]; [reflexivity|]. cbn [filter].
      destruct (otherOrder ref e) eqn:Ho; [|exact IH].
      cbn [filter]. unfold otherOrder in Ho. unfold ofOrder at 1.
      apply negb_true_iff in Ho. rewrite Ho. exact IH. }
    rewrite Hnone. cbn [app filter]. unfold ofOrder.
    cbn [order_reference pendingRow]. rewrite String.eqb_refl. reflexivity. }
  revert Hreg. unfold handleWooCommercePaymentWebhook.
  destruct (missing (wc_orderRef body)) eqn:Ho; [discriminate|].
  destruct (missing (wc_expectedAmount body)) eqn:He; [discriminate|].
  cbn [orb].
  destruct (missing_false _ Ho) as (orderRef & Ho1 & Ho2 & Ho3).
  destruct (missing_false _ He) as (amt & He1 & He2 & He3).
  rewrite Ho3, He3.
  destruct (wc_useUniqueAmount body).
  - destruct (generateUniqueAmount _ _ _) as [fin|]; [|discriminate].
    destruct (Allocator.outcome fin) as [u|m]; [|discriminate].
    destruct (insertOrReplace _ _ _ _ _ _ _) as [st2 rowId] eqn:Hi.
    intros [= <- <-]. cbn [reg_order_reference reg_unique_amount].
    rewrite (Hlook _ _ _ _ _ _ _ _ _ Hi). exists u.
    cbn [unique_amount original_amount status created_at pendingRow].
    rewrite He1. split; [reflexivity|]. split; [reflexivity | discriminate].
  - destruct (insertOrReplace _ _ _ _ _ _ _) as [st2 rowId] eqn:Hi.
    intros [= <- <-]. cbn [reg_order_reference reg_unique_amount].
    rewrite (Hlook _ _ _ _ _ _ _ _ _ Hi). exists amt.
    cbn [unique_amount original_amount status created_at pendingRow].
    rewrite He1. split; [reflexivity|]. split; [discriminate | reflexivity].
Qed.

(** X: [handleWebhook] keeps the count of [devices] in step with the
    table [notifications]; it leaves the store alone when it answers 400,
    and the expectations alone when the notification states no amount. *)
Theorem handleWebhook_counts st notice wclock st' callbacks reply :
  counted st ->
  handleWebhook st notice wclock = (st', callbacks, reply) ->
  counted st'
  /\ reservations st' = reservations st
  /\ (missing (nb_deviceId notice) || missing (nb_packageName notice) = true ->
      st' = st /\ callbacks = []
      /\ reply = Failed 400 "Missing required fields: deviceId, packageName")
  /\ (missing (nb_deviceId notice) || missing (nb_packageName notice) = false ->
      exists deviceId rowId,
        nb_deviceId notice = Some deviceId
        /\ reply = Ok {| rc_id := rowId; rc_timestamp := t_received wclock |}
        /\ (forall n, In n (notifications st) -> n_id n < rowId)
        /\ notificationsOf st' deviceId = notificationsOf st deviceId + 1)
  /\ (truthy (nb_amountDetected notice) = false ->
      expectations st' = expectations st /\ callbacks = []).
Proof.
  intros Hc. unfold handleWebhook.
  destruct (missing (nb_deviceId notice) || missing (nb_packageName notice)) eqn:Hm.
  - intros [= <- <- <-]. split; [exact Hc|]. split; [reflexivity|].
    split; [auto|]. split; [discriminate|]. auto.
  - apply orb_false_iff in Hm. destruct Hm as [Hd Hp].
    destruct (missing_false _ Hd) as (deviceId & Hd1 & Hd2 & Hd3).
    rewrite Hd3.
    assert (Hor : orNull (nb_deviceId notice) = Some deviceId).
    { unfold orNull. unfold missing in Hd. apply negb_false_iff in Hd.
      rewrite Hd. exact Hd1. }
    set (row := {| n_id := nextNotificationId st;
                   n_device_id := orNull (nb_deviceId notice) |}) in *.
    destruct (if truthy (nb_amountDetected notice)
              then Matcher.Worker.checkPaymentMatch (expectations st)
                     (nb_text notice) (nb_title notice) (nb_bigText notice)
                     (orEmpty (nb_amountDetected notice)) (t_match wclock)
              else (expectations st, [])) as [matched cbs] eqn:Hmatch.
    intros [= <- <- <-].
    assert (Hn : forall other,
               Z.of_nat (List.length (filter (fromDevice other)
                                        (notifications st ++ [row])))
               = notificationsOf st other
                 + (if String.eqb deviceId other then 1 else 0)).
    { intros other. unfold notificationsOf. rewrite filter_app, length_app.
      cbn [filter]. unfold fromDevice at 2. cbn [n_device_id row]. rewrite Hor.
      destruct (String.eqb deviceId other); cbn [List.length]; lia. }
    split; [|split; [|split; [|split]]].
    + intros other. unfold statedCount, notificationsOf.
      cbn [devices notifications].
      rewrite statedCount_upsert, Hn. rewrite <- (Hc other). reflexivity.
    + reflexivity.
    + discriminate.
    + intros _. exists deviceId, (nextNotificationId st).
      split; [exact Hd1|]. split; [reflexivity|]. split.
      * intros n Hin. unfold nextNotificationId.
        destruct (fold_max_bounds (List.map n_id (notifications st))
                    (notificationSequence st)) as [_ H].
        specialize (H (n_id n) (in_map n_id _ _ Hin)). lia.
      * unfold notificationsOf at 1. cbn [notifications]. rewrite Hn.
        rewrite String.eqb_refl. reflexivity.
    + intros Ht. rewrite Ht in Hmatch. injection Hmatch as <- <-.
      split; reflexivity.
Qed.

(** *** The statements on the sample requests *)

Lemma payment_webhook_registers_witness :
  exists orderRef expectedAmount uniqueAmount,
    wc_orderRef registration = Some orderRef /\ orderRef <> EmptyString
    /\ wc_expectedAmount registration = Some expectedAmount
    /\ expectedAmount <> EmptyString
    /\ reg_order_reference registeredReply = orderRef
    /\ replacesOrder (expectations emptyStore) (expectations registeredStore)
         (pendingRow (reg_id registeredReply) orderRef
            (reg_expected_amount registeredReply) uniqueAmount
            expectedAmount (wc_callbackUrl registration) (t_insert registerClock))
    /\ (if wc_useUniqueAmount registration
        then exists finished,
            Allocator.Worker.generateUniqueAmount Samples.sampleRandom 200
              (reservations emptyStore) orderRef (t_allocate registerClock)
            = Some finished
            /\ Allocator.outcome finished = Returned uniqueAmount
            /\ reservations registeredStore = Allocator.final_table finished
            /\ reg_expected_amount registeredReply
               = combine expectedAmount uniqueAmount
            /\ reg_unique_amount registeredReply = Some uniqueAmount
        else uniqueAmount = expectedAmount
             /\ reg_expected_amount registeredReply = expectedAmount
             /\ reservations registeredStore = reservations emptyStore).
Proof.
  apply (payment_webhook_registers
           (Allocator.Worker.generateUniqueAmount Samples.sampleRandom 200)
           emptyStore registration registerClock registeredStore registeredReply).
  vm_compute. reflexivity.
Defined.

Lemma payment_webhook_amount_witness :
  (exists st' reply,
      (forall fuel, (200 <= fuel)%nat ->
         Worker.handleWooCommercePaymentWebhook Samples.sampleRandom fuel
           emptyStore registration registerClock
         = Some (st', reply))
      /\ registrationAnswer "50000" emptyStore st' reply)
  /\ (exists st' reply,
         (forall fuel, (201 <= fuel)%nat ->
            Node.handleWooCommercePaymentWebhook Samples.sampleRandom fuel
              emptyStore registration registerClock
            = Some (st', reply))
         /\ registrationAnswer "50000" emptyStore st' reply).
Proof.
  apply (payment_webhook_amount Samples.sampleRandom emptyStore registration
           registerClock "ORDER_1" "50000").
  - intros k. destruct k as [|[|k]]; cbn; lia.
  - intros r [].
  - reflexivity.
  - discriminate.
  - reflexivity.
  - vm_compute. reflexivity.
  - vm_compute. discriminate.
  - reflexivity.
Defined.

Lemma registered_payment_settles_witness :
  exists row,
    In row (expectations registeredStore)
    /\ id row = reg_id registeredReply
    /\ order_reference row = reg_order_reference registeredReply
    /\ expected_amount row = reg_expected_amount registeredReply
    /\ callback_url row = wc_callbackUrl registration
    /\ In (setStatus completed (Some (t_update (t_match webhookClock))) row)
         (expectations (fst (fst settled)))
    /\ (forall e, In e (expectations (fst (fst settled))) ->
                  order_reference e = reg_order_reference registeredReply ->
                  e = setStatus completed (Some (t_update (t_match webhookClock)))
                        row)
    /\ (forall e, order_reference e <> reg_order_reference registeredReply ->
                  (In e (expectations (fst (fst settled)))
                   <-> In e (expectations emptyStore)))
    /\ snd (fst settled)
       = notify row (reg_expected_amount registeredReply) (nb_text notice)
           order_reference_match (t_notify (t_match webhookClock)).
Proof.
  apply (registered_payment_settles
           (Allocator.Worker.generateUniqueAmount Samples.sampleRandom 200)
           emptyStore registration registerClock registeredStore registeredReply
           notice webhookClock (fst (fst settled)) (snd (fst settled))
           (snd settled)).
  - vm_compute. reflexivity.
  - reflexivity.
  - reflexivity.
  - reflexivity.
  - vm_compute. reflexivity.
  - vm_compute. reflexivity.
  - intros e [].
  - unfold settled.
    destruct (handleWebhook registeredStore notice webhookClock) as [[a b] c].
    reflexivity.
Defined.

(** The sample order from its registration to its settlement. *)
Example sample_order_settles :
  Worker.handleWooCommercePaymentWebhook Samples.sampleRandom 200 emptyStore
    registration registerClock
  = Some (registeredStore, Ok registeredReply)
  /\ expectations (fst (fst settled))
     = [setStatus completed (Some 1102) registeredRow]
  /\ snd (fst settled)
     = [paymentData "https://shop.example/wc-api/qris" registeredRow "50042"
          "Pembayaran ORDER_1 Rp50.042 berhasil" order_reference_match 1103]
  /\ snd settled = Ok {| rc_id := 1; rc_timestamp := 1100 |}
  /\ devices (fst (fst settled))
     = [{| d_device_id := "device-1"; d_last_seen := 1100;
           d_total_notifications := 1 |}].
Proof. repeat split; vm_compute; reflexivity. Qed.

Lemma handlers_keep_keys_witness :
  (forall body clock st' reply,
      handleWooCommercePaymentWebhook
        (Allocator.Worker.generateUniqueAmount Samples.sampleRandom 200)
        registeredStore body clock
      = Some (st', reply) -> wellKeyed st')
  /\ (forall body clock st' reply,
         handleQRISGenerateForOrder
           (Allocator.Worker.generateUniqueAmount Samples.sampleRandom 200)
           registeredStore body clock
         = Some (st', reply) -> wellKeyed st')
  /\ (forall body now st' reply,
         handleQRISConvert
           (Allocator.Worker.generateUniqueAmount Samples.sampleRandom 200)
           registeredStore body now = Some (st', reply) ->
         wellKeyed st')
  /\ (forall notice wclock st' callbacks reply,
         handleWebhook registeredStore notice wclock = (st', callbacks, reply) ->
         wellKeyed st').
Proof.
  apply (handlers_keep_keys
           (Allocator.Worker.generateUniqueAmount Samples.sampleRandom 200)
           registeredStore).
  unfold wellKeyed. cbn. split; [|split].
  - constructor; [intros [] | constructor].
  - constructor; [intros [] | constructor].
  - intros e [<- | []]. cbn. lia.
Defined.

Lemma generate_for_order_consistent_witness :
  exists staticQRIS originalAmount,
    go_staticQRIS order = Some staticQRIS
    /\ Converter.validateQRIS staticQRIS = true
    /\ go_originalAmount order = Some originalAmount
    /\ go_orderRef order = Some (gen_order_reference generatedReply)
    /\ gen_combined_amount generatedReply
       = combine originalAmount (gen_unique_amount generatedReply)
    /\ gen_amount_for_payment generatedReply = gen_combined_amount generatedReply
    /\ JS.isDigitString (gen_combined_amount generatedReply) = true
    /\ Converter.convertStaticToDynamic (Some staticQRIS)
         (Converter.AmountString (gen_combined_amount generatedReply))
         (go_serviceFee order)
       = Returned (gen_dynamic_qris generatedReply)
    /\ replacesOrder (expectations emptyStore) (expectations registeredStore)
         (pendingRow (gen_payment_expectation_id generatedReply)
            (gen_order_reference generatedReply)
            (gen_combined_amount generatedReply)
            (gen_unique_amount generatedReply) originalAmount
            (go_callbackUrl order) (t_insert registerClock))
    /\ (JS.len (gen_combined_amount generatedReply) <= 99 ->
        (forall part0 part1,
            Converter.sentinelParts staticQRIS = [part0; part1] ->
            JS.includes part0 "54" = false) ->
        Converter.extractAmount (gen_dynamic_qris generatedReply)
        = Some (gen_combined_amount generatedReply)).
Proof.
  apply (generate_for_order_consistent
           (Allocator.Worker.generateUniqueAmount Samples.sampleRandom 200)
           emptyStore order registerClock registeredStore generatedReply).
  vm_compute. reflexivity.
Defined.

Lemma registration_again_keeps_amount_witness :
  (Worker.handleWooCommercePaymentWebhook Samples.sampleRandom 200 emptyStore
     registration registerClock
   = Some (registeredStore, Ok registeredReply) ->
   exists st2 r2,
     Worker.handleWooCommercePaymentWebhook (fun _ => 150) 200 registeredStore
       registration laterClock
     = Some (st2, Ok r2)
     /\ reg_unique_amount r2 = reg_unique_amount registeredReply
     /\ reg_expected_amount r2 = reg_expected_amount registeredReply
     /\ reservations st2 = reservations registeredStore
     /\ reg_id registeredReply < reg_id r2)
  /\ (Node.handleWooCommercePaymentWebhook Samples.sampleRandom 200 emptyStore
        registration registerClock
      = Some (registeredStore, Ok registeredReply) ->
      exists st2 r2,
        Node.handleWooCommercePaymentWebhook (fun _ => 150) 200 registeredStore
          registration laterClock
        = Some (st2, Ok r2)
        /\ reg_unique_amount r2 = reg_unique_amount registeredReply
        /\ reg_expected_amount r2 = reg_expected_amount registeredReply
        /\ reservations st2 = reservations registeredStore
        /\ reg_id registeredReply < reg_id r2).
Proof.
  apply (registration_again_keeps_amount Samples.sampleRandom (fun _ => 150)
           200 200 emptyStore registration registerClock laterClock
           registeredStore registeredReply).
  - reflexivity.
  - cbn. lia.
  - intros r [<- | []] _. cbn. lia.
Defined.

Lemma lookup_after_registration_witness :
  exists uniqueAmount,
    handleQRISUniqueAmount registeredStore
      ("/qris/unique-amount/" ++ reg_order_reference registeredReply)
    = Ok {| oa_order_reference := reg_order_reference registeredReply;
            oa_unique_amount := Some uniqueAmount;
            oa_original_amount := wc_expectedAmount registration;
            oa_status := pending;
            oa_created_at := t_insert registerClock |}
    /\ (wc_useUniqueAmount registration = true ->
        reg_unique_amount registeredReply = Some uniqueAmount)
    /\ (wc_useUniqueAmount registration = false ->
        wc_expectedAmount registration = Some uniqueAmount).
Proof.
  apply (lookup_after_registration
           (Allocator.Worker.generateUniqueAmount Samples.sampleRandom 200)
           emptyStore registration registerClock registeredStore registeredReply).
  - vm_compute. reflexivity.
  - vm_compute. reflexivity.
Defined.

(** An order reference with a space is registered as it is given, but the
    path of a request for it holds [%20] for the space, and that is what the
    handler looks up. *)
Example lookup_of_encoded_reference :
  exists st' r,
    Worker.handleWooCommercePaymentWebhook Samples.sampleRandom 200 emptyStore
      {| wc_orderRef := Some "ORDER 1";
         wc_expectedAmount := Some "50000";
         wc_callbackUrl := None;
         wc_useUniqueAmount := true |} registerClock
    = Some (st', Ok r)
    /\ reg_order_reference r = "ORDER 1"
    /\ handleQRISUniqueAmount st' "/qris/unique-amount/ORDER%201"
       = Failed 404 "Order not found".
Proof.
  eexists. eexists. split; [vm_compute; reflexivity|].
  split; vm_compute; reflexivity.
Qed.

Lemma handleWebhook_counts_witness :
  counted (fst (fst settled))
  /\ reservations (fst (fst settled)) = reservations registeredStore
  /\ (missing (nb_deviceId notice) || missing (nb_packageName notice) = true ->
      fst (fst settled) = registeredStore /\ snd (fst settled) = []
      /\ snd settled = Failed 400 "Missing required fields: deviceId, packageName")
  /\ (missing (nb_deviceId notice) || missing (nb_packageName notice) = false ->
      exists deviceId rowId,
        nb_deviceId notice = Some deviceId
        /\ snd settled = Ok {| rc_id := rowId; rc_timestamp := t_received webhookClock |}
        /\ (forall n, In n (notifications registeredStore) -> n_id n < rowId)
        /\ notificationsOf (fst (fst settled)) deviceId
           = notificationsOf registeredStore deviceId + 1)
  /\ (truthy (nb_amountDetected notice) = false ->
      expectations (fst (fst settled)) = expectations registeredStore
      /\ snd (fst settled) = []).
Proof.
  apply (handleWebhook_counts registeredStore notice webhookClock
           (fst (fst settled)) (snd (fst settled)) (snd settled)).
  - intros deviceId. reflexivity.
  - unfold settled.
    destruct (handleWebhook registeredStore notice webhookClock) as [[a b] c].
    reflexivity.
Defined.

End HandlerTheorems.

(** ** The stored time stamps *)

Module StoredTimeFacts.
Import StoredTime.

Lemma ordered2_table : forallb ordered2 (JS.upTo 100) = true.
Proof. vm_compute. reflexivity. Qed.

Lemma paired4_table : forallb paired4 (JS.upTo 10000) = true.
Proof. vm_compute. reflexivity. Qed.

Lemma compare_pad2 (m n : Z) :
  0 <= m <= 99 -> 0 <= n <= 99 ->
  String.compare (pad 2 m) (pad 2 n) = (m ?= n).
Proof.
  intros Hm Hn.
  assert (Him : In m (JS.upTo 100)) by (apply StringFacts.upTo_complete; lia).
  assert (Hin : In n (JS.upTo 100)) by (apply StringFacts.upTo_complete; lia).
  pose proof (proj1 (forallb_forall _ _) ordered2_table _ Him) as H.
  unfold ordered2 in H.
  pose proof (proj1 (forallb_forall _ _) H _ Hin) as H2. cbv beta in H2.
  destruct (String.compare (pad 2 m) (pad 2 n)); destruct (m ?= n);
    try reflexivity; discriminate.
Qed.

Lemma length_pad2 (m : Z) : 0 <= m <= 99 -> String.length (pad 2 m) = 2%nat.
Proof.
  intros Hm. destruct (ParserFacts.padStart_two m Hm) as [H _].
  unfold JS.len in H. unfold pad. lia.
Qed.

(** Strings of one length compare part by part. *)
Lemma compare_append (a b x y : string) :
  String.length a = String.length b ->
  String.compare (a ++ x) (b ++ y)
  = match String.compare a b with
    | Eq => String.compare x y
    | c => c
    end.
Proof.
  revert b. induction a as [|c a IH]; intros [|d b] H; try discriminate.
  - reflexivity.
  - cbn [append String.compare]. destruct (Ascii.compare c d); try reflexivity.
    apply IH. cbn [String.length] in H. lia.
Qed.

Lemma compare_refl (a : string) : String.compare a a = Eq.
Proof.
  induction a as [|c a IH]; [reflexivity|]. cbn [String.compare].
  assert (Hc : Ascii.compare c c = Eq).
  { unfold Ascii.compare. apply N.compare_refl. }
  rewrite Hc. exact IH.
Qed.

Lemma compare_pad4 (y z : Z) :
  0 <= y <= 9999 -> 0 <= z <= 9999 ->
  String.compare (pad 4 y) (pad 4 z) = (y ?= z)
  /\ String.length (pad 4 y) = String.length (pad 4 z).
Proof.
  intros Hy Hz.
  assert (Hpair : forall v, 0 <= v <= 9999 ->
             pad 4 v = pad 2 (v / 100) ++ pad 2 (v mod 100)).
  { intros v Hv.
    assert (Hin : In v (JS.upTo 10000)) by (apply StringFacts.upTo_complete; lia).
    pose proof (proj1 (forallb_forall _ _) paired4_table _ Hin) as H.
    unfold paired4 in H. apply andb_true_iff in H. destruct H as [H _].
    apply String.eqb_eq. exact H. }
  assert (Hdiv : forall v, 0 <= v <= 9999 -> 0 <= v / 100 <= 99 /\ 0 <= v mod 100 <= 99).
  { intros v Hv. pose proof (Z.div_mod v 100 ltac:(lia)).
    pose proof (Z.mod_pos_bound v 100 ltac:(lia)).
    assert (0 <= v / 100) by (apply Z.div_pos; lia).
    assert (v / 100 < 100) by (apply Z.div_lt_upper_bound; lia). lia. }
  destruct (Hdiv y Hy) as [Hy1 Hy2]. destruct (Hdiv z Hz) as [Hz1 Hz2].
  rewrite (Hpair y Hy), (Hpair z Hz). split.
  - rewrite compare_append by (rewrite !length_pad2 by assumption; reflexivity).
    rewrite !compare_pad2 by assumption.
    pose proof (Z.div_mod y 100 ltac:(lia)). pose proof (Z.div_mod z 100 ltac:(lia)).
    destruct (Z.compare_spec (y / 100) (z / 100));
      destruct (Z.compare_spec (y mod 100) (z mod 100));
      destruct (Z.compare_spec y z); try reflexivity; lia.
  - rewrite !StringFacts.length_append, !length_pad2 by assumption. reflexivity.
Qed.

(** The date texts of two instants compare as their dates do. *)
Lemma compare_dateText (a b : Instant) :
  wellFormed a -> wellFormed b ->
  String.length (dateText a) = String.length (dateText b)
  /\ (String.compare (dateText a) (dateText b) = Lt <-> dateBefore a b)
  /\ (String.compare (dateText a) (dateText b) = Gt <-> dateBefore b a).
Proof.
  intros (Hya & Hma & Hda & _) (Hyb & Hmb & Hdb & _).
  destruct (compare_pad4 (year a) (year b) Hya Hyb) as [Hy Hly].
  assert (Hm2 : 0 <= month a <= 99 /\ 0 <= month b <= 99) by lia.
  assert (Hd2 : 0 <= day a <= 99 /\ 0 <= day b <= 99) by lia.
  destruct Hm2 as [Hma2 Hmb2]. destruct Hd2 as [Hda2 Hdb2].
  unfold dateText. split.
  - rewrite !StringFacts.length_append, Hly, !length_pad2 by assumption.
    reflexivity.
  - rewrite compare_append by exact Hly. rewrite Hy.
    assert (Hrest : String.compare ("-" ++ pad 2 (month a) ++ "-" ++ pad 2 (day a))
                      ("-" ++ pad 2 (month b) ++ "-" ++ pad 2 (day b))
                    = match month a ?= month b with
                      | Eq => day a ?= day b
                      | c => c
                      end).
    { rewrite (compare_append "-" "-") by reflexivity. cbn [String.compare].
      change (Ascii.compare "-" "-") with Eq. cbv iota.
      rewrite compare_append by (rewrite !length_pad2 by assumption; reflexivity).
      rewrite compare_pad2 by assumption.
      destruct (month a ?= month b); try reflexivity.
      rewrite (compare_append "-" "-") by reflexivity. cbn [String.compare].
      change (Ascii.compare "-" "-") with Eq. cbv iota.
      apply compare_pad2; assumption. }
    rewrite Hrest. unfold dateBefore.
    destruct (Z.compare_spec (year a) (year b));
      destruct (Z.compare_spec (month a) (month b));
      destruct (Z.compare_spec (day a) (day b));
      split; split; intros; try discriminate; try reflexivity; lia.
Qed.

(** The two texts of the store compare as the dates of their instants. *)
Lemma textGreater_iso (iso sql : Instant) :
  wellFormed iso -> wellFormed sql ->
  (textGreater (toISOString iso) (datetime sql) = true <-> ~ dateBefore iso sql)
  /\ (textGreater (datetime sql) (toISOString iso) = true <-> dateBefore iso sql).
Proof.
  intros Hs Hn.
  destruct (compare_dateText iso sql Hs Hn) as (Hl & Hlt & Hgt).
  destruct (compare_dateText sql iso Hn Hs) as (Hl' & Hlt' & Hgt').
  split.
  - unfold textGreater, toISOString, datetime.
    rewrite compare_append by exact Hl.
    destruct (String.compare (dateText iso) (dateText sql)) eqn:Hc.
    + cbn [append String.compare]. change (Ascii.compare "T" " ") with Gt.
      cbv iota. split; [|reflexivity]. intros _ Hb. apply Hlt in Hb. discriminate.
    + split; [discriminate|]. intros Hb. exfalso. apply Hb. apply Hlt. reflexivity.
    + split; [|reflexivity]. intros _ Hb. apply Hlt in Hb. discriminate.
  - unfold textGreater, toISOString, datetime.
    rewrite compare_append by exact Hl'.
    destruct (String.compare (dateText sql) (dateText iso)) eqn:Hc.
    + cbn [append String.compare]. change (Ascii.compare " " "T") with Lt.
      cbv iota. split; [discriminate|]. intros Hb. apply Hgt' in Hb. discriminate.
    + split; [discriminate|]. intros Hb. apply Hgt' in Hb. discriminate.
    + split; [|reflexivity]. intros _. apply Hgt'. reflexivity.
Qed.

(** *** Seconds and texts *)

Lemma daysIn_range (y m : Z) : 28 <= daysIn y m <= 31.
Proof.
  unfold daysIn. destruct (m =? 2); [destruct (leapYear y); lia|].
  destruct ((m =? 4) || (m =? 6) || (m =? 9) || (m =? 11)); lia.
Qed.

Lemma nextDay_date (date : Z * Z * Z) :
  isDate date ->
  isDate (nextDay date) /\ place date < place (nextDay date) <= place date + 4.
Proof.
  destruct date as [[y m] d]. unfold isDate, nextDay, place. intros [Hm Hd].
  pose proof (daysIn_range y m) as Hr.
  destruct (Z.ltb_spec d (daysIn y m)) as [H1 | H1].
  - lia.
  - destruct (Z.ltb_spec m 12) as [H2 | H2].
    + pose proof (daysIn_range y (m + 1)). lia.
    + pose proof (daysIn_range (y + 1) 1). lia.
Qed.

Lemma iter_date (k : nat) :
  isDate (daysLater k (1970, 1, 1))
  /\ place (1970, 1, 1) + Z.of_nat k <= place (daysLater k (1970, 1, 1))
     <= place (1970, 1, 1) + 4 * Z.of_nat k.
Proof.
  induction k as [|k [IH1 IH2]].
  - split; [|cbn [daysLater]; lia]. cbn. lia.
  - cbn [daysLater]. destruct (nextDay_date _ IH1) as [H1 H2].
    split; [exact H1|]. rewrite Nat2Z.inj_succ. lia.
Qed.

Lemma iter_place_lt (j k : nat) :
  (j < k)%nat ->
  place (daysLater j (1970, 1, 1)) < place (daysLater k (1970, 1, 1)).
Proof.
  induction 1 as [|k Hle IH]; cbn [daysLater].
  - apply nextDay_date. apply iter_date.
  - pose proof (nextDay_date _ (proj1 (iter_date k))). lia.
Qed.

Lemma dayOf_range (t : Z) : 0 <= t < horizon -> 0 <= dayOf t <= 397682.
Proof.
  intros Ht. unfold dayOf, horizon in *. split.
  - apply Z.div_pos; lia.
  - assert (t / 86400 < 397683) by (apply Z.div_lt_upper_bound; lia). lia.
Qed.

Lemma dateOfDay_fields (n : Z) :
  0 <= n <= 397682 ->
  let '(y, m, d) := dateOfDay n in
  0 <= y <= 9999 /\ 1 <= m <= 12 /\ 1 <= d <= 31.
Proof.
  intros Hn. unfold dateOfDay.
  destruct (iter_date (Z.to_nat n)) as [H1 H2].
  destruct (daysLater (Z.to_nat n) (1970, 1, 1)) as [[y m] d].
  unfold isDate in H1. unfold place in H2. rewrite Z2Nat.id in H2 by lia.
  pose proof (daysIn_range y m). lia.
Qed.

Lemma ofSeconds_wellFormed (t : Z) : 0 <= t < horizon -> wellFormed (ofSeconds t).
Proof.
  intros Ht. pose proof (dateOfDay_fields _ (dayOf_range t Ht)) as H.
  unfold wellFormed, ofSeconds.
  destruct (dateOfDay (dayOf t)) as [[y m] d].
  cbn [year month day hour minute second millisecond].
  pose proof (Z.mod_pos_bound t 86400 ltac:(lia)) as Hs.
  assert (0 <= (t mod 86400) / 3600 <= 23).
  { split; [apply Z.div_pos; lia|].
    assert ((t mod 86400) / 3600 < 24) by (apply Z.div_lt_upper_bound; lia). lia. }
  pose proof (Z.mod_pos_bound ((t mod 86400) / 60) 60 ltac:(lia)).
  pose proof (Z.mod_pos_bound (t mod 86400) 60 ltac:(lia)).
  lia.
Qed.

Lemma ofSeconds_date (t : Z) :
  (year (ofSeconds t), month (ofSeconds t), day (ofSeconds t)) = dateOfDay (dayOf t).
Proof. unfold ofSeconds. destruct (dateOfDay (dayOf t)) as [[y m] d]. reflexivity. Qed.

Lemma dateBefore_place (a b : Instant) :
  wellFormed a -> wellFormed b ->
  (dateBefore a b
   <-> place (year a, month a, day a) < place (year b, month b, day b)).
Proof.
  intros (Hya & Hma & Hda & _) (Hyb & Hmb & Hdb & _).
  unfold dateBefore, place. lia.
Qed.

(** The date of an instant is before the date of another when its day is. *)
Lemma dateBefore_ofSeconds (a b : Z) :
  0 <= a < horizon -> 0 <= b < horizon ->
  (dateBefore (ofSeconds a) (ofSeconds b) <-> dayOf a < dayOf b).
Proof.
  intros Ha Hb.
  rewrite (dateBefore_place _ _ (ofSeconds_wellFormed a Ha)
             (ofSeconds_wellFormed b Hb)).
  rewrite !ofSeconds_date. unfold dateOfDay.
  pose proof (dayOf_range a Ha). pose proof (dayOf_range b Hb).
  split.
  - intros Hlt. destruct (Z.lt_ge_cases (dayOf a) (dayOf b)) as [H1 | H1];
      [exact H1|].
    destruct (Z.eq_dec (dayOf a) (dayOf b)) as [He | Hne].
    + rewrite He in Hlt. lia.
    + pose proof (iter_place_lt (Z.to_nat (dayOf b)) (Z.to_nat (dayOf a))
                    ltac:(lia)). lia.
  - intros Hlt. apply iter_place_lt. lia.
Qed.

(** The comparisons on seconds are the comparisons of the stored texts. *)
Lemma isoAfter_texts (iso sql : Z) :
  0 <= iso < horizon -> 0 <= sql < horizon ->
  isoAfter iso sql
  = textGreater (toISOString (ofSeconds iso)) (datetime (ofSeconds sql))
  /\ isoBefore iso sql
     = textGreater (datetime (ofSeconds sql)) (toISOString (ofSeconds iso)).
Proof.
  intros Hi Hs.
  destruct (textGreater_iso _ _ (ofSeconds_wellFormed iso Hi)
              (ofSeconds_wellFormed sql Hs)) as [H1 H2].
  pose proof (dateBefore_ofSeconds iso sql Hi Hs) as Hd.
  unfold isoAfter, isoBefore. split.
  - destruct (Z.leb_spec (dayOf sql) (dayOf iso)) as [Hle | Hlt]; symmetry.
    + apply H1. rewrite Hd. lia.
    + destruct (textGreater (toISOString (ofSeconds iso))
                  (datetime (ofSeconds sql))) eqn:Ht; [|reflexivity].
      exfalso. apply (proj1 H1 eq_refl). apply Hd. exact Hlt.
  - destruct (Z.ltb_spec (dayOf iso) (dayOf sql)) as [Hlt | Hle]; symmetry.
    + apply H2. apply Hd. exact Hlt.
    + destruct (textGreater (datetime (ofSeconds sql))
                  (toISOString (ofSeconds iso))) eqn:Ht; [|reflexivity].
      pose proof (proj1 Hd (proj1 H2 eq_refl)). lia.
Qed.

End StoredTimeFacts.

Module StoredTimeTheorems.
Import StoredTime StoredTimeFacts.

(** X: how the store compares the time stamps that the code writes.  The
    code stores [toISOString()] texts and its statements compare them with
    the text of [datetime(...)], or the other way round; the two texts
    differ right after the date, so the calendar dates alone decide.  With
    [iso] the instant printed by [toISOString()] and [sql] the one printed
    by [datetime(...)]: a reservation counts as reserved until the day of
    its expiry is over and is deleted as expired from the next day on, an
    expectation is in the window whenever its date is not before the date
    of the threshold, and a notification is after the time-out only from
    the day after the date of the time-out. *)
Theorem stored_time_compares_by_date (iso sql : Instant) :
  wellFormed iso -> wellFormed sql ->
  (stillReserved iso sql = true <-> ~ dateBefore iso sql)
  /\ (deletedAsExpired iso sql = true <-> dateBefore iso sql)
  /\ (inWindow iso sql = true <-> ~ dateBefore iso sql)
  /\ (afterTimeout sql iso = true <-> dateBefore iso sql).
Proof.
  intros Hs Hn. destruct (textGreater_iso iso sql Hs Hn) as [H1 H2].
  split; [exact H1|]. split; [exact H2|]. split; [exact H1 | exact H2].
Qed.

Lemma stored_time_compares_by_date_witness :
  (stillReserved tenOClock endOfDay = true <-> ~ dateBefore tenOClock endOfDay)
  /\ (deletedAsExpired tenOClock endOfDay = true <-> dateBefore tenOClock endOfDay)
  /\ (inWindow tenOClock endOfDay = true <-> ~ dateBefore tenOClock endOfDay)
  /\ (afterTimeout endOfDay tenOClock = true <-> dateBefore tenOClock endOfDay).
Proof.
  apply (stored_time_compares_by_date tenOClock endOfDay);
    unfold wellFormed; cbn; lia.
Defined.

(** The texts of the instants of [Samples.endedReservation] and of the two
    calls made for it: the reservation ends at 02:00 and still compares
    greater than the text of 15:00 of that day. *)
Example texts_of_seconds :
  toISOString (ofSeconds (Samples.atClock 2 0)) = "2024-10-04T02:00:00.000Z"
  /\ datetime (ofSeconds (Samples.atClock 15 0)) = "2024-10-04 15:00:00"
  /\ datetime (ofSeconds (Samples.atClock 24 30)) = "2024-10-05 00:30:00"
  /\ dateOfDay 11016 = (2000, 2, 29).
Proof. repeat split; vm_compute; reflexivity. Qed.

(** A reservation that ended at ten is still reserved, and not deleted, at
    the end of that day. *)
Example reserved_until_midnight :
  toISOString tenOClock = "2025-03-01T10:00:00.000Z"
  /\ datetime endOfDay = "2025-03-01 23:59:59"
  /\ before tenOClock endOfDay
  /\ stillReserved tenOClock endOfDay = true
  /\ deletedAsExpired tenOClock endOfDay = false
  /\ afterTimeout endOfDay tenOClock = false.
Proof.
  repeat split; try (vm_compute; reflexivity).
  right. cbn. lia.
Qed.

End StoredTimeTheorems.

(** ** From one handler to the next *)

Module CrossFacts.
Import Matcher Handlers Ledger HandlerFacts Converter.

Lemma truthy_true (x : option string) :
  truthy x = true -> exists s, x = Some s /\ s <> EmptyString /\ orEmpty x = s.
Proof.
  intros H. apply missing_false. unfold missing. rewrite H. reflexivity.
Qed.

End CrossFacts.

Module CrossTheorems.
Import Matcher Handlers Ledger HandlerFacts Converter CrossFacts HandlerSamples.

(** X: the amount in the payload that [/qris/convert] answers for an order
    is the amount that a registration of the order expects afterwards. *)
Theorem convert_then_register_agree
    random1 random2 fuel1 fuel2 st request now st1 c registration clock :
  truthy (cv_orderRef request) = true ->
  wc_orderRef registration = cv_orderRef request ->
  wc_expectedAmount registration = cv_amount request ->
  wc_useUniqueAmount registration = true ->
  now <= t_allocate clock ->
  Allocator.running (reservations st1) (orEmpty (cv_orderRef request))
    (t_allocate clock) ->
  Worker.handleQRISConvert random1 fuel1 st request now = Some (st1, Ok c) ->
  exists st2 r,
    Worker.handleWooCommercePaymentWebhook random2 fuel2 st1 registration clock
    = Some (st2, Ok r)
    /\ reg_expected_amount r = cvd_amount c
    /\ reg_unique_amount r = cvd_unique_amount c
    /\ reservations st2 = reservations st1
    /\ convertStaticToDynamic (cv_staticQRIS request)
         (AmountString (reg_expected_amount r)) (cv_serviceFee request)
       = Returned (cvd_dynamicQRIS c)
    /\ exists row,
         In row (expectations st2)
         /\ order_reference row = orEmpty (cv_orderRef request)
         /\ expected_amount row = cvd_amount c
         /\ status row = pending.
Proof.
  intros Hor Hro Hra Hu Ht Hn.
  unfold Worker.handleQRISConvert, handleQRISConvert.
  destruct (missing (cv_staticQRIS request)) eqn:Hs; [discriminate|].
  destruct (missing (cv_amount request)) eqn:Ha; [discriminate|].
  cbn [orb].
  destruct (missing_false _ Hs) as (staticQRIS & Hs1 & Hs2 & Hs3).
  destruct (missing_false _ Ha) as (amt & Ha1 & Ha2 & Ha3).
  destruct (truthy_true _ Hor) as (orderRef & Ho1 & Ho2 & Ho3).
  rewrite Ho3 in Hn.
  rewrite Hs3, Ha3, Hor, Ho3.
  destruct (negb (validateQRIS staticQRIS)); [discriminate|].
  unfold Allocator.Worker.generateUniqueAmount.
  destruct (Allocator.generateWith random1 orderRef now Allocator.Worker.giveUp
              fuel1 (reservations st)) as [fin|] eqn:Hg; [|discriminate].
  destruct (Allocator.outcome fin) as [u|m] eqn:Hout; [|discriminate].
  destruct (convertStaticToDynamic (Some staticQRIS)
              (AmountString (combine amt u)) (cv_serviceFee request))
    as [d|m] eqn:Hc; [|discriminate].
  intros [= <- <-].
  cbn [cvd_amount cvd_unique_amount cvd_dynamicQRIS reservations withReservations]
    in *.
  pose proof (AllocatorTheorems.generateWith_again random1 random2
                Allocator.Worker.giveUp Allocator.Worker.giveUp fuel1 fuel2
                (reservations st) orderRef now (t_allocate clock) fin u
                Hg Hout Ht Hn) as Hagain.
  unfold Worker.handleWooCommercePaymentWebhook, handleWooCommercePaymentWebhook.
  assert (Hm1 : missing (wc_orderRef registration) = false).
  { rewrite Hro. unfold missing. rewrite Hor. reflexivity. }
  assert (Hm2 : missing (wc_expectedAmount registration) = false).
  { rewrite Hra. exact Ha. }
  rewrite Hm1, Hm2, Hu, Hro, Hra, Ho3, Ha3. cbn [orb].
  cbn [reservations withReservations].
  unfold Allocator.Worker.generateUniqueAmount. rewrite Hagain.
  cbn [Allocator.outcome Allocator.final_table].
  destruct (insertOrReplace _ _ _ _ _ _ _) as [st2 rowId] eqn:Hi.
  eexists. eexists. split; [reflexivity|].
  cbn [reg_expected_amount reg_unique_amount].
  pose proof (insertOrReplace_replaces _ _ _ _ _ _ _ _ _ Hi) as [Hrep Hres].
  split; [reflexivity|]. split; [reflexivity|]. split; [exact Hres|].
  split; [rewrite Hs1; exact Hc|].
  destruct Hrep as (Hin & _).
  eexists. split; [exact Hin|]. repeat split.
Qed.

(** X: the two classifications of a payload.  A payload with the usual
    static header that [convertStaticToDynamic] has converted starts with
    [000201] still and holds [010212]: [handleQRISValidate] calls it dynamic
    and [parseQRIS] calls it static. *)
Theorem converted_payload_types (staticQRIS : string) amt serviceFee
    (dynamicQRIS : string) :
  JS.startsWith staticQRIS "000201010211" = true ->
  convertStaticToDynamic (Some staticQRIS) amt serviceFee = Returned dynamicQRIS ->
  (exists v, handleQRISValidate (Some dynamicQRIS) = Ok v
             /\ val_type v = Parser.dynamic)
  /\ (forall fuel p, Parser.parseQRIS fuel dynamicQRIS = Some (inl p) ->
                     Parser.type p = Parser.static).
Proof.
  intros Hstart Hc.
  apply StringFacts.startsWith_beginsWith in Hstart. destruct Hstart as [rest Hrest].
  pose proof (ConverterFacts.convert_cases (Some staticQRIS) amt serviceFee) as Hcase.
  rewrite Hc in Hcase.
  inversion Hcase as [| | | | s part0 part1 field Hs Hne Hf Hd Hp Hb Heq].
  injection Hs as <-. rewrite Heq.
  assert (Hshape : exists p0, part0 = "000201010212" ++ p0).
  { unfold sentinelParts in Hp. cbv zeta in Hp.
    remember (JS.substring staticQRIS 0 (JS.len staticQRIS - 4)) as body eqn:Ebody.
    assert (Hbody : (exists t, body = "000201010211" ++ t)
                    \/ JS.includes body "5" = false).
    { rewrite Ebody, Hrest. unfold JS.substring.
      rewrite ParserFacts.len_append. change (JS.len "000201010211") with 12.
      pose proof (ParserFacts.len_nonneg rest) as Hr.
      replace (Z.max 0 (Z.min 0 (12 + JS.len rest))) with 0 by lia.
      replace (Z.max 0 (Z.min (12 + JS.len rest - 4) (12 + JS.len rest)))
        with (8 + JS.len rest) by lia.
      rewrite Z.min_l, Z.max_r, Z.sub_0_r by lia. cbn [Z.to_nat JS.drop].
      unfold JS.len. replace (Z.to_nat (8 + Z.of_nat (String.length rest)))
        with (8 + String.length rest)%nat by lia.
      destruct rest as [|r1 [|r2 [|r3 [|r4 rest']]]];
        [right; reflexivity | right; reflexivity | right; reflexivity
        | right; reflexivity |].
      left. cbn [String.length Nat.add append JS.take].
      eexists. reflexivity. }
    destruct Hbody as [[t Ht] | Hno].
    - rewrite Ht in Hp. cbn [append JS.replace JS.startsWith Ascii.eqb Bool.eqb andb]
        in Hp.
      revert Hp. cbn [append JS.replace JS.startsWith Ascii.eqb Bool.eqb andb
                      JS.drop String.length].
      rewrite ParserFacts.startsWith_empty.
      cbn [append JS.replace JS.startsWith Ascii.eqb Bool.eqb andb
           JS.drop String.length].
      unfold JS.split. cbn [JS.split_go JS.startsWith Ascii.eqb Bool.eqb andb].
      destruct (JS.split_go t "5802ID" 0) as [p ps].
      intros [= <- _]. eexists. reflexivity.
    - exfalso.
      assert (Hsplit : forall s, JS.includes s "5" = false ->
                 JS.split_go s "5802ID" 0 = (s, [])).
      { intros s1. induction s1 as [|ch s0 IH]; intros Hi; [reflexivity|].
        rewrite StringFacts.includes_cons in Hi. apply orb_false_iff in Hi.
        destruct Hi as [H1 H2]. cbn [JS.split_go].
        assert (H6 : JS.startsWith (String ch s0) "5802ID" = false).
        { cbn [JS.startsWith] in *. rewrite ParserFacts.startsWith_empty in H1.
          rewrite andb_true_r in H1. rewrite H1. reflexivity. }
        rewrite H6, (IH H2). reflexivity. }
      assert (Hrep : forall s, JS.includes s "5" = false ->
                 JS.includes (JS.replace s "010211" "010212") "5" = false).
      { intros s1. induction s1 as [|ch s0 IH]; intros Hi; [reflexivity|].
        cbn [JS.replace].
        destruct (JS.startsWith (String ch s0) "010211") eqn:Hst.
        - cbn [String.length]. 
          assert (Hdrop : JS.includes (JS.drop 6 (String ch s0)) "5" = false).
          { clear - Hi. revert Hi. generalize (String ch s0). intros s1.
            generalize 6%nat. intros n. revert s1.
            induction n as [|n IHn]; intros [|c1 s1] H; cbn [JS.drop]; auto.
            apply IHn. rewrite StringFacts.includes_cons in H.
            apply orb_false_iff in H. tauto. }
          cbn [append]. rewrite !StringFacts.includes_cons.
          cbn [JS.startsWith]. rewrite !ParserFacts.startsWith_empty.
          cbn [Ascii.eqb Bool.eqb andb orb]. exact Hdrop.
        - rewrite StringFacts.includes_cons in Hi. apply orb_false_iff in Hi.
          destruct Hi as [H1 H2]. rewrite StringFacts.includes_cons.
          apply orb_false_iff. split.
          + cbn [JS.startsWith] in *.
            rewrite ParserFacts.startsWith_empty in *. exact H1.
          + apply IH. exact H2. }
      unfold JS.split in Hp. rewrite (Hsplit _ (Hrep _ Hno)) in Hp.
      discriminate. }
  destruct Hshape as [p0 Hp0]. subst part0.
  assert (Hd12 : exists tail, dynamicQRIS = "000201010212" ++ tail).
  { rewrite <- Heq. eexists. rewrite !RoundTripFacts.append_assoc. reflexivity. }
  destruct Hd12 as [tail Htail]. split.
  - unfold handleQRISValidate.
    assert (Hm : missing (Some dynamicQRIS) = false) by (rewrite Htail; reflexivity).
    rewrite Hm. eexists. split; [reflexivity|].
    cbn [val_type orEmpty].
    assert (Hi : JS.includes dynamicQRIS "010212" = true).
    { apply StringFacts.includes_contains. exists "000201", tail.
      rewrite Htail. reflexivity. }
    rewrite Hi. reflexivity.
  - intros fuel p. unfold Parser.parseQRIS.
    destruct (negb (validateQRIS dynamicQRIS)); [discriminate|].
    destruct (Parser.walk fuel dynamicQRIS 6 Parser.noInfo); [|discriminate].
    intros [= <-]. cbn [Parser.type]. rewrite Htail.
    cbn [append JS.startsWith Ascii.eqb Bool.eqb andb].
    rewrite ?ParserFacts.startsWith_empty. reflexivity.
Qed.

Lemma convert_then_register_agree_witness :
  exists st2 r,
    Worker.handleWooCommercePaymentWebhook (fun _ => 150) 200 convertedStore
      registration registerClock
    = Some (st2, Ok r)
    /\ reg_expected_amount r = cvd_amount convertedReply
    /\ reg_unique_amount r = cvd_unique_amount convertedReply
    /\ reservations st2 = reservations convertedStore
    /\ convertStaticToDynamic (cv_staticQRIS conversion)
         (AmountString (reg_expected_amount r)) (cv_serviceFee conversion)
       = Returned (cvd_dynamicQRIS convertedReply)
    /\ exists row,
         In row (expectations st2)
         /\ order_reference row = orEmpty (cv_orderRef conversion)
         /\ expected_amount row = cvd_amount convertedReply
         /\ status row = pending.
Proof.
  apply (convert_then_register_agree Samples.sampleRandom (fun _ => 150) 200 200
           emptyStore conversion 1000 convertedStore convertedReply registration
           registerClock).
  - reflexivity.
  - reflexivity.
  - reflexivity.
  - reflexivity.
  - cbn. lia.
  - intros r [<- | []] _. cbn. lia.
  - vm_compute. reflexivity.
Defined.

Lemma converted_payload_types_witness :
  (exists v, handleQRISValidate (Some (gen_dynamic_qris generatedReply)) = Ok v
             /\ val_type v = Parser.dynamic)
  /\ (forall fuel p,
         Parser.parseQRIS fuel (gen_dynamic_qris generatedReply) = Some (inl p) ->
         Parser.type p = Parser.static).
Proof.
  apply (converted_payload_types Samples.sampleStatic (AmountString "50042") None
           (gen_dynamic_qris generatedReply)).
  - vm_compute. reflexivity.
  - vm_compute. reflexivity.
Defined.

(** The converted payload of the sample order, read by both. *)
Example sample_payload_types :
  handleQRISValidate (Some (gen_dynamic_qris generatedReply))
  = Ok {| val_valid := true; val_type := Parser.dynamic;
          val_amount := Some "50042" |}
  /\ exists p,
       Parser.parseQRIS 11 (gen_dynamic_qris generatedReply) = Some (inl p)
       /\ Parser.type p = Parser.static
       /\ Parser.amount p = Some "50042"
       /\ Parser.name (Parser.merchantInfo p) = Some "Warung Sayur Bu Sugeng".
Proof.
  split; [vm_compute; reflexivity|].
  eexists. split; [vm_compute; reflexivity|]. repeat split.
Qed.

End CrossTheorems.
